(** * Film-location map browser: circle intersection filter

    A shallow embedding of the two scripts of the repository,
    [src/script.js] (records grouped by location, radii in pixels) and
    [src/unnamed/part_000] (one point per record, radii in kilometres),
    followed by the properties of the geometric filter, the location
    aggregator and the control handlers.

    JavaScript numbers are IEEE 754 binary64 values; they are modelled
    by [spec_float] with the operations of [SpecFloat] at precision 53
    and maximal exponent 1024, so that NaN, the infinities, signed
    zeros and rounding behave as they do in the scripts.  Strings are
    sequences of UTF-16 code units.

    The tooltip, the outline of a hovered point and the highlighting of
    the slider track are display only: they are kept apart from the
    state of the filter, in the modules [Hover], [Hover000] and [Track]
    further down.  The text labels that echo the value of a control are
    left out, and so are the labels of the query circles in
    [src/script.js], which are removed and drawn anew with the circles.
    In [src/unnamed/part_000] the labels of the query circles are part
    of the page: none is ever removed there. *)

From Stdlib Require Import String Ascii.
From Stdlib Require Import ZArith NArith List Bool Lia.
From Stdlib Require Import Floats.SpecFloat.
From Stdlib Require Import Sorted DecimalString.
Import ListNotations.

Set Default Proof Using "Type".
Set Proof Using Clear Unused.

(** ** The JavaScript values the scripts compute with *)

Module JS.

(** *** Numbers *)

Definition number := spec_float.

Definition prec : Z := 53.
Definition emax : Z := 1024.

Definition NaN : number := S754_nan.

(** An integer literal. *)
Definition ofZ (z : Z) : number := binary_normalize prec emax z 0 false.

(** A decimal literal [digits * 10^-scale], rounded to the nearest
    binary64 value (ties to even), as the parser of the language does. *)
Definition decimal (neg : bool) (digits : Z) (scale : Z) : number :=
  let '(q, e, l) := SFdiv_core_binary prec emax digits 0 (10 ^ scale) 0 in
  binary_round_aux prec emax neg q e l.

Definition add : number -> number -> number := SFadd prec emax.
Definition sub : number -> number -> number := SFsub prec emax.
Definition mul : number -> number -> number := SFmul prec emax.
Definition div : number -> number -> number := SFdiv prec emax.

(** [a < b], [a <= b], [a > b], [a >= b]: false as soon as an operand
    is NaN. *)
Definition lt (a b : number) : bool := SFltb a b.
Definition le (a b : number) : bool := SFleb a b.
Definition gt (a b : number) : bool := SFltb b a.
Definition ge (a b : number) : bool := SFleb b a.

(** [a === b] on numbers. *)
Definition num_eq (a b : number) : bool := SFeqb a b.

Definition isNaN (a : number) : bool :=
  match a with S754_nan => true | _ => false end.

(** [Number.isFinite]. *)
Definition Number_isFinite (a : number) : bool :=
  match a with
  | S754_zero _ | S754_finite _ _ _ => true
  | S754_infinity _ | S754_nan => false
  end.

(** ToBoolean on a number: NaN, +0 and -0 are falsy. *)
Definition truthy_number (a : number) : bool :=
  match a with
  | S754_nan | S754_zero _ => false
  | _ => true
  end.

(** [Math.max] and [Math.min] of two arguments: NaN when either is
    NaN, and +0 counts as larger than -0. *)
Definition Math_max (a b : number) : number :=
  match SFcompare a b with
  | None => NaN
  | Some Lt => b
  | Some Gt => a
  | Some Eq => match a with S754_zero true => b | _ => a end
  end.

Definition Math_min (a b : number) : number :=
  match SFcompare a b with
  | None => NaN
  | Some Lt => a
  | Some Gt => b
  | Some Eq => match a with S754_zero false => b | _ => a end
  end.

Definition Math_abs (a : number) : number := SFabs a.
Definition Math_sqrt (a : number) : number := SFsqrt prec emax a.

(** [Math.PI]. *)
Definition Math_PI : number := decimal false 3141592653589793 15.

(** What [+el.attr(name)] reads after [el.attr(name, v)] stored the
    number [v]: the attribute holds [String(v)], and every binary64
    value survives the round trip through its shortest decimal form
    except -0, which is printed as ["0"]. *)
Definition attr_number (v : number) : number :=
  match v with
  | S754_zero _ => S754_zero false
  | _ => v
  end.

(** *** Strings *)

Definition jsstring := list N.

(** A string literal of the scripts (ASCII only). *)
Definition str (s : string) : jsstring :=
  map N_of_ascii (list_ascii_of_string s).

Definition str_eq_dec : forall s t : jsstring, {s = t} + {s <> t} :=
  list_eq_dec N.eq_dec.

(** [s === t] on strings. *)
Definition str_eqb (s t : jsstring) : bool :=
  if str_eq_dec s t then true else false.

(** ToBoolean on a string. *)
Definition truthy_string (s : jsstring) : bool :=
  match s with [] => false | _ :: _ => true end.

(** WhiteSpace and LineTerminator code units, the ones [trim] strips. *)
Definition is_whitespace (c : N) : bool :=
  ((9 <=? c) && (c <=? 13) || (c =? 32) || (c =? 160) || (c =? 5760)
   || (8192 <=? c) && (c <=? 8202) || (c =? 8232) || (c =? 8233)
   || (c =? 8239) || (c =? 8287) || (c =? 12288) || (c =? 65279))%N.

Fixpoint trimStart (s : jsstring) : jsstring :=
  match s with
  | c :: s' => if is_whitespace c then trimStart s' else s
  | [] => []
  end.

Definition trimEnd (s : jsstring) : jsstring := rev (trimStart (rev s)).

Definition trim (s : jsstring) : jsstring := trimEnd (trimStart s).

(** The default order of [Array.prototype.sort]: strings compared
    code unit by code unit. *)
Fixpoint str_leb (s t : jsstring) : bool :=
  match s, t with
  | [], _ => true
  | _ :: _, [] => false
  | c :: s', d :: t' =>
      if (c <? d)%N then true
      else if (d <? c)%N then false
      else str_leb s' t'
  end.

Fixpoint sort_insert (v : jsstring) (l : list jsstring) : list jsstring :=
  match l with
  | [] => [v]
  | w :: l' => if str_leb v w then v :: l else w :: sort_insert v l'
  end.

(** [Array.prototype.sort()] without a comparator. *)
Definition sort (l : list jsstring) : list jsstring :=
  fold_right sort_insert [] l.

(** *** A [Set] of strings, in insertion order *)

Definition set_has (v : jsstring) (s : list jsstring) : bool :=
  existsb (str_eqb v) s.

Definition set_add (v : jsstring) (s : list jsstring) : list jsstring :=
  if set_has v s then s else s ++ [v].

(** *** Values that may be [undefined] *)

(** ToNumber of a field that may be missing: [+undefined] is NaN. *)
Definition ToNumber (StringToNumber : jsstring -> number)
           (v : option jsstring) : number :=
  match v with
  | Some s => StringToNumber s
  | None => NaN
  end.

(** [`${v}`] for a field that may be missing. *)
Definition ToString (v : option jsstring) : jsstring :=
  match v with
  | Some s => s
  | None => str "undefined"
  end.

(** [v === s] for a field that may be missing and a string [s]. *)
Definition strict_eq (v : option jsstring) (s : jsstring) : bool :=
  match v with
  | Some t => str_eqb t s
  | None => false
  end.

End JS.

(** ** The scale of the library

    [d3.scaleSqrt().domain(domain).range(range)] belongs to d3-scale,
    which the page loads ([src/script.js] names D3 version 7) and which
    is not under [src/].  Modelled from the library: a continuous scale
    whose domain and argument go through [transformSqrt], are
    normalised over the transformed domain, and are interpolated over
    the range. *)

Module D3.
Import JS.

(** [-x]. *)
Definition neg (a : number) : number := SFopp a.

(** [x < 0 ? -Math.sqrt(-x) : Math.sqrt(x)]. *)
Definition transformSqrt (x : number) : number :=
  if lt x (ofZ 0) then neg (Math_sqrt (neg x)) else Math_sqrt x.

(** [normalize(a, b)]: [(b -= (a = +a)) ? x => (x - a) / b
    : constant(isNaN(b) ? NaN : 0.5)], applied to [x]. *)
Definition normalize (a b x : number) : number :=
  let b := sub b a in
  if truthy_number b then div (sub x a) b
  else if isNaN b then NaN else decimal false 5 1.

(** [interpolateNumber(a, b)]: [t => a * (1 - t) + b * t]. *)
Definition interpolateNumber (a b t : number) : number :=
  add (mul a (sub (ofZ 1) t)) (mul b t).

(** The scale applied to [x], for a domain and a range of two numbers
    each: [bimap] over the transformed domain.  For an argument that is
    NaN the scale returns its [unknown] value, [undefined]; the
    attribute then reads as NaN. *)
Definition scaleSqrt (domain range : number * number) (x : number)
  : number :=
  if isNaN x then NaN
  else
    let d0 := transformSqrt (fst domain) in
    let d1 := transformSqrt (snd domain) in
    let r0 := fst range in
    let r1 := snd range in
    if lt d1 d0
    then interpolateNumber r1 r0 (normalize d1 d0 (transformSqrt x))
    else interpolateNumber r0 r1 (normalize d0 d1 (transformSqrt x)).

End D3.

(** ** What the two scripts share

    The declarations below have the same text in [src/script.js] and in
    [src/unnamed/part_000]. *)

Module Shared.
Import JS.

(** One row of the CSV file, as [d3.csv] delivers it: every field is a
    string, and a column the file does not have reads as [undefined]. *)
Record FilmRecord := {
  Title : option jsstring;
  Release_Year : option jsstring;
  Director : option jsstring;
  Actor_1 : option jsstring;
  Actor_2 : option jsstring;
  Actor_3 : option jsstring;
  Locations : option jsstring;
  Analysis_Neighborhood : option jsstring;
  Fun_Facts : option jsstring;
  Longitude : option jsstring;
  Latitude : option jsstring
}.

(** [1968 / 2.4] and [1580 / 2.4]. *)
Definition mapWidth : number := div (ofZ 1968) (decimal false 24 1).
Definition mapHeight : number := div (ofZ 1580) (decimal false 24 1).

Definition longitudeRange : number * number :=
  (decimal true 12252876879101329 14, decimal true 12234501499128038 14).
Definition latitudeRange : number * number :=
  (decimal false 3769947941416328 14, decimal false 3781633202723721 14).

(** A query circle: [{ x, y, radius }]. *)
Module Circle.
Record t := { x : number; y : number; radius : number }.
End Circle.

(** [getUniqueValues(data, field)]; [d[field]] is the accessor [field]
    applied to the row. *)
Definition getUniqueValues (data : list FilmRecord)
           (field : FilmRecord -> option jsstring) : list jsstring :=
  let values :=
    fold_left
      (fun values d =>
         match field d with
         | Some value =>
             if truthy_string value && negb (str_eqb (trim value) (str ""))
             then set_add (trim value) values
             else values
         | None => values
         end)
      data [] in
  sort values.

(** The predicate of [data.filter(...)] in the [d3.csv] callback. *)
Definition hasValidCoordinates (StringToNumber : jsstring -> number)
           (d : FilmRecord) : bool :=
  let lon := ToNumber StringToNumber (Longitude d) in
  let lat := ToNumber StringToNumber (Latitude d) in
  Number_isFinite lon && Number_isFinite lat.

(** The three conditions of [updateFilters] on one row: the constants
    [inYearRange], [directorMatch] and [neighborhoodMatch] of the
    callback, which read the same in both scripts. *)
Definition inYearRange (StringToNumber : jsstring -> number)
           (yearMin yearMax : number) (movie : FilmRecord) : bool :=
  let year := ToNumber StringToNumber (Release_Year movie) in
  negb (truthy_number year) || (ge year yearMin && le year yearMax).

Definition directorMatch (selectedDirector : jsstring)
           (movie : FilmRecord) : bool :=
  str_eqb selectedDirector (str "all")
  || strict_eq (Director movie) selectedDirector.

Definition neighborhoodMatch (selectedNeighborhood : jsstring)
           (movie : FilmRecord) : bool :=
  str_eqb selectedNeighborhood (str "all")
  || strict_eq (Analysis_Neighborhood movie) selectedNeighborhood.

(** The position of a drag event after
    [Math.max(0, Math.min(bound, v))]. *)
Definition clampTo (bound v : number) : number :=
  Math_max (ofZ 0) (Math_min bound v).

(** The values of the controls of the page.  Sliders hold numbers
    (what [+slider.value] reads), selects hold strings. *)
Record Controls := {
  radiusA : number;
  radiusB : number;
  yearMin : number;
  yearMax : number;
  directorFilter : jsstring;
  neighborhoodFilter : jsstring
}.

Definition with_radiusA (v : number) (c : Controls) : Controls :=
  {| radiusA := v; radiusB := radiusB c; yearMin := yearMin c;
     yearMax := yearMax c; directorFilter := directorFilter c;
     neighborhoodFilter := neighborhoodFilter c |}.

Definition with_radiusB (v : number) (c : Controls) : Controls :=
  {| radiusA := radiusA c; radiusB := v; yearMin := yearMin c;
     yearMax := yearMax c; directorFilter := directorFilter c;
     neighborhoodFilter := neighborhoodFilter c |}.

Definition with_yearMin (v : number) (c : Controls) : Controls :=
  {| radiusA := radiusA c; radiusB := radiusB c; yearMin := v;
     yearMax := yearMax c; directorFilter := directorFilter c;
     neighborhoodFilter := neighborhoodFilter c |}.

Definition with_yearMax (v : number) (c : Controls) : Controls :=
  {| radiusA := radiusA c; radiusB := radiusB c; yearMin := yearMin c;
     yearMax := v; directorFilter := directorFilter c;
     neighborhoodFilter := neighborhoodFilter c |}.

Definition with_directorFilter (v : jsstring) (c : Controls) : Controls :=
  {| radiusA := radiusA c; radiusB := radiusB c; yearMin := yearMin c;
     yearMax := yearMax c; directorFilter := v;
     neighborhoodFilter := neighborhoodFilter c |}.

Definition with_neighborhoodFilter (v : jsstring) (c : Controls)
  : Controls :=
  {| radiusA := radiusA c; radiusB := radiusB c; yearMin := yearMin c;
     yearMax := yearMax c; directorFilter := directorFilter c;
     neighborhoodFilter := v |}.

(** The events the handlers of the page listen to.  An input event
    carries the value the browser has just stored in the control. *)
Inductive Event :=
| DragA (event_x event_y : number)
| DragB (event_x event_y : number)
| RadiusAInput (value : number)
| RadiusBInput (value : number)
| YearMinInput (value : number)
| YearMaxInput (value : number)
| DirectorChange (value : jsstring)
| NeighborhoodChange (value : jsstring)
| ResetClick.

End Shared.


(** ** [src/script.js]: one point per location, radii in pixels *)

Module ScriptJs.
Import JS Shared.

(** A value of [locationMap]. *)
Record Location := {
  longitude : option jsstring;
  latitude : option jsstring;
  movies : list FilmRecord;
  data : FilmRecord
}.

(** A [circle.location-point] element of the points layer: the
    attributes the script sets, and the datum bound to the element. *)
Record LocationPoint := {
  cx : number;
  cy : number;
  r : number;
  data_base_radius : number;
  data_movie_count : nat;
  fill : jsstring;
  opacity : number;
  datum : Location
}.

(** The globals of the script and the part of the page it writes. *)
Record State := {
  allData : list FilmRecord;
  circleA : Circle.t;
  circleB : Circle.t;
  controls : Controls;
  directorOptions : list jsstring;
  neighborhoodOptions : list jsstring;
  query_circles : list Circle.t;
  location_points : list LocationPoint;
  totalCount : nat;
  visibleCount : nat
}.

Definition set_circleA (c : Circle.t) (st : State) : State :=
  {| allData := allData st; circleA := c; circleB := circleB st;
     controls := controls st; directorOptions := directorOptions st;
     neighborhoodOptions := neighborhoodOptions st;
     query_circles := query_circles st;
     location_points := location_points st;
     totalCount := totalCount st; visibleCount := visibleCount st |}.

Definition set_circleB (c : Circle.t) (st : State) : State :=
  {| allData := allData st; circleA := circleA st; circleB := c;
     controls := controls st; directorOptions := directorOptions st;
     neighborhoodOptions := neighborhoodOptions st;
     query_circles := query_circles st;
     location_points := location_points st;
     totalCount := totalCount st; visibleCount := visibleCount st |}.

Definition set_controls (c : Controls) (st : State) : State :=
  {| allData := allData st; circleA := circleA st; circleB := circleB st;
     controls := c; directorOptions := directorOptions st;
     neighborhoodOptions := neighborhoodOptions st;
     query_circles := query_circles st;
     location_points := location_points st;
     totalCount := totalCount st; visibleCount := visibleCount st |}.

Definition set_query_circles (q : list Circle.t) (st : State) : State :=
  {| allData := allData st; circleA := circleA st; circleB := circleB st;
     controls := controls st; directorOptions := directorOptions st;
     neighborhoodOptions := neighborhoodOptions st;
     query_circles := q;
     location_points := location_points st;
     totalCount := totalCount st; visibleCount := visibleCount st |}.

Definition set_points (ps : list LocationPoint) (n : nat) (st : State)
  : State :=
  {| allData := allData st; circleA := circleA st; circleB := circleB st;
     controls := controls st; directorOptions := directorOptions st;
     neighborhoodOptions := neighborhoodOptions st;
     query_circles := query_circles st;
     location_points := ps;
     totalCount := totalCount st; visibleCount := n |}.

(** [{ x: mapWidth / 3, y: mapHeight / 2, radius: 50 }] and
    [{ x: (2 * mapWidth) / 3, y: mapHeight / 2, radius: 50 }]. *)
Definition circleA_start : Circle.t :=
  {| Circle.x := div mapWidth (ofZ 3);
     Circle.y := div mapHeight (ofZ 2);
     Circle.radius := ofZ 50 |}.

Definition circleB_start : Circle.t :=
  {| Circle.x := div (mul (ofZ 2) mapWidth) (ofZ 3);
     Circle.y := div mapHeight (ofZ 2);
     Circle.radius := ofZ 50 |}.

(** [isInCircle(px, py, circle)]. *)
Definition isInCircle (px py : number) (circle : Circle.t) : bool :=
  let dx := sub px (Circle.x circle) in
  let dy := sub py (Circle.y circle) in
  le (add (mul dx dx) (mul dy dy))
     (mul (Circle.radius circle) (Circle.radius circle)).

(** [isInIntersection(px, py)]; the two globals it reads are passed in. *)
Definition isInIntersection (circleA circleB : Circle.t) (px py : number)
  : bool :=
  isInCircle px py circleA && isInCircle px py circleB.

(** *** [locationMap]: a [Map] from coordinate keys to locations,
    iterated in insertion order *)

Definition LocationMap := list (jsstring * Location).

Definition map_has (key : jsstring) (m : LocationMap) : bool :=
  existsb (fun e => str_eqb (fst e) key) m.

Fixpoint map_set (key : jsstring) (v : Location) (m : LocationMap)
  : LocationMap :=
  match m with
  | [] => [(key, v)]
  | (k, w) :: m' =>
      if str_eqb k key then (k, v) :: m' else (k, w) :: map_set key v m'
  end.

(** [locationMap.get(key).movies.push(d)]: the location stored under
    [key] is mutated in place.  The script only reaches this call with
    [key] present; on a map without [key] nothing is pushed. *)
Fixpoint push_movie (key : jsstring) (d : FilmRecord) (m : LocationMap)
  : LocationMap :=
  match m with
  | [] => []
  | (k, loc) :: m' =>
      if str_eqb k key
      then (k, {| longitude := longitude loc; latitude := latitude loc;
                  movies := movies loc ++ [d]; data := data loc |}) :: m'
      else (k, loc) :: push_movie key d m'
  end.

(** [`${d.Longitude},${d.Latitude}`]. *)
Definition coordinateKey (d : FilmRecord) : jsstring :=
  ToString (Longitude d) ++ str "," ++ ToString (Latitude d).

(** The body of [allData.forEach(d => ...)] in [renderDataPoints]. *)
Definition addToLocationMap (locationMap : LocationMap) (d : FilmRecord)
  : LocationMap :=
  let key := coordinateKey d in
  let locationMap :=
    if negb (map_has key locationMap)
    then map_set key {| longitude := Longitude d; latitude := Latitude d;
                        movies := []; data := d |} locationMap
    else locationMap in
  push_movie key d locationMap.

Definition buildLocationMap (allData : list FilmRecord) : LocationMap :=
  fold_left addToLocationMap allData [].

(** [Array.from(locationMap.values())]. *)
Definition locationData (allData : list FilmRecord) : list Location :=
  map snd (buildLocationMap allData).

(** Modelled from the spec: [d3.max], which is library code outside
    [src/]: the largest member count across all locations, [undefined]
    when there is no location. *)
Definition d3_max (counts : list nat) : option nat :=
  match counts with
  | [] => None
  | n :: counts' => Some (fold_left Nat.max counts' n)
  end.

Definition ofNat (n : nat) : number := ofZ (Z.of_nat n).

Section Program.

(** Supplied by the platform, outside the repository: the coercion of a
    string to a number ([+s]), the fitted [d3.geoMercator] projection,
    and [d3.scaleSqrt().domain(...).range(...)]. *)
Variable StringToNumber : jsstring -> number.
Variable projection : number * number -> number * number.
Variable scaleSqrt : number * number -> number * number -> number -> number.

(** [renderDataPoints()]: the elements appended to the points layer. *)
Definition renderDataPoints (allData : list FilmRecord)
  : list LocationPoint :=
  let locationData := locationData allData in
  let maxMovies :=
    match d3_max (map (fun d => length (movies d)) locationData) with
    | Some n => ofNat n
    | None => NaN
    end in
  let radiusScale := scaleSqrt (ofZ 1, maxMovies) (ofZ 3, ofZ 10) in
  map (fun d =>
         let p := projection (ToNumber StringToNumber (longitude d),
                              ToNumber StringToNumber (latitude d)) in
         {| cx := fst p;
            cy := snd p;
            r := radiusScale (ofNat (length (movies d)));
            data_base_radius := radiusScale (ofNat (length (movies d)));
            data_movie_count := length (movies d);
            fill := str "red";
            opacity := decimal false 7 1;
            datum := d |})
      locationData.

(** The predicate of [d.movies.filter(movie => ...)] in [updateFilters]. *)
Definition movieMatches (yearMin yearMax : number)
           (selectedDirector selectedNeighborhood : jsstring)
           (movie : FilmRecord) : bool :=
  inYearRange StringToNumber yearMin yearMax movie
  && directorMatch selectedDirector movie
  && neighborhoodMatch selectedNeighborhood movie.

Definition matchingMovies (st : State) (d : Location) : list FilmRecord :=
  filter (movieMatches (yearMin (controls st)) (yearMax (controls st))
            (directorFilter (controls st))
            (neighborhoodFilter (controls st)))
         (movies d).

(** [visible] as computed for one element in [updateFilters]. *)
Definition isVisible (st : State) (circle : LocationPoint) : bool :=
  let px := attr_number (cx circle) in
  let py := attr_number (cy circle) in
  let inIntersection := isInIntersection (circleA st) (circleB st) px py in
  inIntersection && (0 <? length (matchingMovies st (datum circle))).

(** The body of [.each(function(d) { ... })]: the element restyled, and
    the running [visibleCount]. *)
Definition restylePoint (st : State) (acc : list LocationPoint * nat)
           (circle : LocationPoint) : list LocationPoint * nat :=
  let '(done, visibleCount) := acc in
  let baseRadius := attr_number (data_base_radius circle) in
  if isVisible st circle
  then (done ++ [ {| cx := cx circle; cy := cy circle;
                     r := baseRadius;
                     data_base_radius := data_base_radius circle;
                     data_movie_count := data_movie_count circle;
                     fill := str "red";
                     opacity := decimal false 7 1;
                     datum := datum circle |} ],
        visibleCount + length (matchingMovies st (datum circle)))
  else (done ++ [ {| cx := cx circle; cy := cy circle;
                     r := mul baseRadius (decimal false 7 1);
                     data_base_radius := data_base_radius circle;
                     data_movie_count := data_movie_count circle;
                     fill := str "gray";
                     opacity := decimal false 3 1;
                     datum := datum circle |} ],
        visibleCount).

(** [updateFilters()]. *)
Definition updateFilters (st : State) : State :=
  let '(points, visibleCount) :=
    fold_left (restylePoint st) (location_points st) ([], 0) in
  set_points points visibleCount st.

(** [renderQueryCircles()]: the two query circles are drawn anew from
    the globals. *)
Definition renderQueryCircles (st : State) : State :=
  set_query_circles [circleA st; circleB st] st.

(** The handlers registered by [renderQueryCircles] and
    [setupControls].  For an input or change event the browser has
    stored the new value in the control before the handler runs.  Both
    year sliders range over the same years, so a value read from one is
    stored unchanged in the other. *)
Definition handle (ev : Event) (st : State) : State :=
  match ev with
  | DragA event_x event_y =>
      let st := set_circleA
                  {| Circle.x := clampTo mapWidth event_x;
                     Circle.y := clampTo mapHeight event_y;
                     Circle.radius := Circle.radius (circleA st) |} st in
      updateFilters (renderQueryCircles st)
  | DragB event_x event_y =>
      let st := set_circleB
                  {| Circle.x := clampTo mapWidth event_x;
                     Circle.y := clampTo mapHeight event_y;
                     Circle.radius := Circle.radius (circleB st) |} st in
      updateFilters (renderQueryCircles st)
  | RadiusAInput value =>
      let st := set_controls (with_radiusA value (controls st)) st in
      let st := set_circleA
                  {| Circle.x := Circle.x (circleA st);
                     Circle.y := Circle.y (circleA st);
                     Circle.radius := radiusA (controls st) |} st in
      updateFilters (renderQueryCircles st)
  | RadiusBInput value =>
      let st := set_controls (with_radiusB value (controls st)) st in
      let st := set_circleB
                  {| Circle.x := Circle.x (circleB st);
                     Circle.y := Circle.y (circleB st);
                     Circle.radius := radiusB (controls st) |} st in
      updateFilters (renderQueryCircles st)
  | YearMinInput value =>
      let st := set_controls (with_yearMin value (controls st)) st in
      let minVal := yearMin (controls st) in
      let maxVal := yearMax (controls st) in
      let st := if gt minVal maxVal
                then set_controls (with_yearMax minVal (controls st)) st
                else st in
      updateFilters st
  | YearMaxInput value =>
      let st := set_controls (with_yearMax value (controls st)) st in
      let maxVal := yearMax (controls st) in
      let minVal := yearMin (controls st) in
      let st := if lt maxVal minVal
                then set_controls (with_yearMin maxVal (controls st)) st
                else st in
      updateFilters st
  | DirectorChange value =>
      updateFilters
        (set_controls (with_directorFilter value (controls st)) st)
  | NeighborhoodChange value =>
      updateFilters
        (set_controls (with_neighborhoodFilter value (controls st)) st)
  | ResetClick =>
      let st := set_circleB circleB_start (set_circleA circleA_start st) in
      let st := set_controls
                  {| radiusA := ofZ 50; radiusB := ofZ 50;
                     yearMin := ofZ 1915; yearMax := ofZ 2023;
                     directorFilter := str "all";
                     neighborhoodFilter := str "all" |} st in
      updateFilters (renderQueryCircles st)
  end.

(** The page before the data arrives: the globals at their start values,
    the controls as the document declares them, and each select holding
    its ["all"] option. *)
Definition initialState (page : Controls) : State :=
  {| allData := []; circleA := circleA_start; circleB := circleB_start;
     controls := page;
     directorOptions := [str "all"]; neighborhoodOptions := [str "all"];
     query_circles := []; location_points := [];
     totalCount := 0; visibleCount := 0 |}.

(** The callback of [d3.csv(...).then(data => ...)]. *)
Definition csvLoaded (data : list FilmRecord) (st : State) : State :=
  let allData := filter (hasValidCoordinates StringToNumber) data in
  let st :=
    {| allData := allData; circleA := circleA st; circleB := circleB st;
       controls := controls st;
       directorOptions :=
         directorOptions st ++ getUniqueValues allData Director;
       neighborhoodOptions :=
         neighborhoodOptions st
         ++ getUniqueValues allData Analysis_Neighborhood;
       query_circles := query_circles st;
       location_points := location_points st ++ renderDataPoints allData;
       totalCount := length allData;
       visibleCount := visibleCount st |} in
  updateFilters (renderQueryCircles st).

End Program.

End ScriptJs.


(** ** [src/unnamed/part_000]: one point per record, radii in kilometres *)

Module Part000.
Import JS Shared.

(** A [circle.location-point] element: the attributes the script sets,
    and the row bound to the element. *)
Record LocationPoint := {
  cx : number;
  cy : number;
  r : number;
  fill : jsstring;
  opacity : number;
  datum : FilmRecord
}.

(** A [text] element appended by [renderQueryCircles]: its class, its
    position, its fill and its content. *)
Record Label := {
  label_class : jsstring;
  label_x : number;
  label_y : number;
  label_fill : jsstring;
  label_text : jsstring
}.

(** The globals of the script and the part of the page it writes: the
    options of the selects, the [circle.query-circle] elements, the
    [text] elements of the svg, the points and the two counts. *)
Record State := {
  allData : list FilmRecord;
  circleA : Circle.t;
  circleB : Circle.t;
  controls : Controls;
  directorOptions : list jsstring;
  neighborhoodOptions : list jsstring;
  query_circles : list Circle.t;
  labels : list Label;
  location_points : list LocationPoint;
  totalCount : nat;
  visibleCount : nat
}.

Definition set_circleA (c : Circle.t) (st : State) : State :=
  {| allData := allData st; circleA := c; circleB := circleB st;
     controls := controls st; directorOptions := directorOptions st;
     neighborhoodOptions := neighborhoodOptions st;
     query_circles := query_circles st; labels := labels st;
     location_points := location_points st;
     totalCount := totalCount st; visibleCount := visibleCount st |}.

Definition set_circleB (c : Circle.t) (st : State) : State :=
  {| allData := allData st; circleA := circleA st; circleB := c;
     controls := controls st; directorOptions := directorOptions st;
     neighborhoodOptions := neighborhoodOptions st;
     query_circles := query_circles st; labels := labels st;
     location_points := location_points st;
     totalCount := totalCount st; visibleCount := visibleCount st |}.

Definition set_controls (c : Controls) (st : State) : State :=
  {| allData := allData st; circleA := circleA st; circleB := circleB st;
     controls := c; directorOptions := directorOptions st;
     neighborhoodOptions := neighborhoodOptions st;
     query_circles := query_circles st; labels := labels st;
     location_points := location_points st;
     totalCount := totalCount st; visibleCount := visibleCount st |}.

Definition set_query_circles (q : list Circle.t) (st : State) : State :=
  {| allData := allData st; circleA := circleA st; circleB := circleB st;
     controls := controls st; directorOptions := directorOptions st;
     neighborhoodOptions := neighborhoodOptions st;
     query_circles := q; labels := labels st;
     location_points := location_points st;
     totalCount := totalCount st; visibleCount := visibleCount st |}.

Definition set_labels (l : list Label) (st : State) : State :=
  {| allData := allData st; circleA := circleA st; circleB := circleB st;
     controls := controls st; directorOptions := directorOptions st;
     neighborhoodOptions := neighborhoodOptions st;
     query_circles := query_circles st; labels := l;
     location_points := location_points st;
     totalCount := totalCount st; visibleCount := visibleCount st |}.

Definition set_points (ps : list LocationPoint) (n : nat) (st : State)
  : State :=
  {| allData := allData st; circleA := circleA st; circleB := circleB st;
     controls := controls st; directorOptions := directorOptions st;
     neighborhoodOptions := neighborhoodOptions st;
     query_circles := query_circles st; labels := labels st;
     location_points := ps;
     totalCount := totalCount st; visibleCount := n |}.

(** [{ x: mapWidth / 3, y: mapHeight / 2, radius: 1.0 }] and
    [{ x: (2 * mapWidth) / 3, y: mapHeight / 2, radius: 1.0 }]. *)
Definition circleA_start : Circle.t :=
  {| Circle.x := div mapWidth (ofZ 3);
     Circle.y := div mapHeight (ofZ 2);
     Circle.radius := ofZ 1 |}.

Definition circleB_start : Circle.t :=
  {| Circle.x := div (mul (ofZ 2) mapWidth) (ofZ 3);
     Circle.y := div mapHeight (ofZ 2);
     Circle.radius := ofZ 1 |}.

Section Program.

(** Supplied by the platform, outside the repository: the coercion of a
    string to a number ([+s]), the fitted [d3.geoMercator] projection,
    and [Math.cos]. *)
Variable StringToNumber : jsstring -> number.
Variable projection : number * number -> number * number.
Variable Math_cos : number -> number.

(** [kmToPixels(km)]. *)
Definition kmToPixels (km : number) : number :=
  let avgLat := div (add (fst latitudeRange) (snd latitudeRange)) (ofZ 2) in
  let kmPerDegree :=
    mul (ofZ 111) (Math_cos (div (mul avgLat Math_PI) (ofZ 180))) in
  let degreesPerKm := div (ofZ 1) kmPerDegree in
  let centerLon :=
    div (add (fst longitudeRange) (snd longitudeRange)) (ofZ 2) in
  let p1 := projection (centerLon, avgLat) in
  let p2 := projection (add centerLon degreesPerKm, avgLat) in
  let pixelsPerKm := Math_abs (sub (fst p2) (fst p1)) in
  mul km pixelsPerKm.

(** [isInCircle(px, py, circle)]. *)
Definition isInCircle (px py : number) (circle : Circle.t) : bool :=
  let radiusPixels := kmToPixels (Circle.radius circle) in
  let dx := sub px (Circle.x circle) in
  let dy := sub py (Circle.y circle) in
  le (add (mul dx dx) (mul dy dy)) (mul radiusPixels radiusPixels).

(** [isInIntersection(px, py)]; the two globals it reads are passed in. *)
Definition isInIntersection (circleA circleB : Circle.t) (px py : number)
  : bool :=
  isInCircle px py circleA && isInCircle px py circleB.

(** [renderDataPoints()]: the elements appended to the svg. *)
Definition renderDataPoints (allData : list FilmRecord)
  : list LocationPoint :=
  map (fun d =>
         let p := projection (ToNumber StringToNumber (Longitude d),
                              ToNumber StringToNumber (Latitude d)) in
         {| cx := fst p;
            cy := snd p;
            r := ofZ 3;
            fill := str "#e74c3c";
            opacity := decimal false 7 1;
            datum := d |})
      allData.

(** The three conditions on the row of one element in [updateFilters]. *)
Definition recordMatches (yearMin yearMax : number)
           (selectedDirector selectedNeighborhood : jsstring)
           (d : FilmRecord) : bool :=
  inYearRange StringToNumber yearMin yearMax d
  && directorMatch selectedDirector d
  && neighborhoodMatch selectedNeighborhood d.

(** [visible] as computed for one element in [updateFilters]. *)
Definition isVisible (st : State) (circle : LocationPoint) : bool :=
  let px := attr_number (cx circle) in
  let py := attr_number (cy circle) in
  let inIntersection := isInIntersection (circleA st) (circleB st) px py in
  inIntersection
  && recordMatches (yearMin (controls st)) (yearMax (controls st))
       (directorFilter (controls st)) (neighborhoodFilter (controls st))
       (datum circle).

(** The body of [.each(function(d) { ... })]: the element restyled, and
    the running [visibleCount]. *)
Definition restylePoint (st : State) (acc : list LocationPoint * nat)
           (circle : LocationPoint) : list LocationPoint * nat :=
  let '(done, visibleCount) := acc in
  if isVisible st circle
  then (done ++ [ {| cx := cx circle; cy := cy circle;
                     r := ofZ 3;
                     fill := str "#e74c3c";
                     opacity := decimal false 7 1;
                     datum := datum circle |} ],
        visibleCount + 1)
  else (done ++ [ {| cx := cx circle; cy := cy circle;
                     r := ofZ 2;
                     fill := str "#bdc3c7";
                     opacity := decimal false 3 1;
                     datum := datum circle |} ],
        visibleCount).

(** [updateFilters()]. *)
Definition updateFilters (st : State) : State :=
  let '(points, visibleCount) :=
    fold_left (restylePoint st) (location_points st) ([], 0) in
  set_points points visibleCount st.

(** The [text] element [renderQueryCircles] appends for a circle.  The
    script sets its class twice: [.attr('class', 'query-circle-label')],
    then, after [x] and [y], [.attr('class', 'circle-label')], and the
    second call overwrites the first. *)
Definition circleLabel (c : Circle.t) (fill text : jsstring) : Label :=
  {| label_class := str "circle-label";
     label_x := Circle.x c;
     label_y := Circle.y c;
     label_fill := fill;
     label_text := text |}.

(** [renderQueryCircles()]: the elements of class [query-circle] and
    those of class [query-circle-label] are removed, then the two query
    circles are drawn from the globals, their radii converted to
    pixels, each followed by its [text] element. *)
Definition renderQueryCircles (st : State) : State :=
  let st := set_query_circles [] st in
  let st :=
    set_labels
      (filter (fun l =>
                 negb (str_eqb (label_class l) (str "query-circle-label")))
              (labels st))
      st in
  let radiusAPixels := kmToPixels (Circle.radius (circleA st)) in
  let st :=
    set_query_circles
      (query_circles st
       ++ [ {| Circle.x := Circle.x (circleA st);
               Circle.y := Circle.y (circleA st);
               Circle.radius := radiusAPixels |} ])
      st in
  let st :=
    set_labels
      (labels st ++ [circleLabel (circleA st) (str "#3498db") (str "A")])
      st in
  let radiusBPixels := kmToPixels (Circle.radius (circleB st)) in
  let st :=
    set_query_circles
      (query_circles st
       ++ [ {| Circle.x := Circle.x (circleB st);
               Circle.y := Circle.y (circleB st);
               Circle.radius := radiusBPixels |} ])
      st in
  set_labels
    (labels st ++ [circleLabel (circleB st) (str "#2ecc71") (str "B")])
    st.

(** The handlers registered by [renderQueryCircles] and
    [setupControls], under the same conventions as for [src/script.js]. *)
Definition handle (ev : Event) (st : State) : State :=
  match ev with
  | DragA event_x event_y =>
      let st := set_circleA
                  {| Circle.x := clampTo mapWidth event_x;
                     Circle.y := clampTo mapHeight event_y;
                     Circle.radius := Circle.radius (circleA st) |} st in
      updateFilters (renderQueryCircles st)
  | DragB event_x event_y =>
      let st := set_circleB
                  {| Circle.x := clampTo mapWidth event_x;
                     Circle.y := clampTo mapHeight event_y;
                     Circle.radius := Circle.radius (circleB st) |} st in
      updateFilters (renderQueryCircles st)
  | RadiusAInput value =>
      let st := set_controls (with_radiusA value (controls st)) st in
      let st := set_circleA
                  {| Circle.x := Circle.x (circleA st);
                     Circle.y := Circle.y (circleA st);
                     Circle.radius := radiusA (controls st) |} st in
      updateFilters (renderQueryCircles st)
  | RadiusBInput value =>
      let st := set_controls (with_radiusB value (controls st)) st in
      let st := set_circleB
                  {| Circle.x := Circle.x (circleB st);
                     Circle.y := Circle.y (circleB st);
                     Circle.radius := radiusB (controls st) |} st in
      updateFilters (renderQueryCircles st)
  | YearMinInput value =>
      let st := set_controls (with_yearMin value (controls st)) st in
      let minVal := yearMin (controls st) in
      let maxVal := yearMax (controls st) in
      let st := if gt minVal maxVal
                then set_controls (with_yearMax minVal (controls st)) st
                else st in
      updateFilters st
  | YearMaxInput value =>
      let st := set_controls (with_yearMax value (controls st)) st in
      let maxVal := yearMax (controls st) in
      let minVal := yearMin (controls st) in
      let st := if lt maxVal minVal
                then set_controls (with_yearMin maxVal (controls st)) st
                else st in
      updateFilters st
  | DirectorChange value =>
      updateFilters
        (set_controls (with_directorFilter value (controls st)) st)
  | NeighborhoodChange value =>
      updateFilters
        (set_controls (with_neighborhoodFilter value (controls st)) st)
  | ResetClick =>
      let st := set_circleB circleB_start (set_circleA circleA_start st) in
      let st := set_controls
                  {| radiusA := ofZ 1; radiusB := ofZ 1;
                     yearMin := ofZ 1940; yearMax := ofZ 2025;
                     directorFilter := str "all";
                     neighborhoodFilter := str "all" |} st in
      updateFilters (renderQueryCircles st)
  end.

(** The page before the data arrives: the globals at their start values,
    the controls as the document declares them, and each select holding
    its ["all"] option. *)
Definition initialState (page : Controls) : State :=
  {| allData := []; circleA := circleA_start; circleB := circleB_start;
     controls := page;
     directorOptions := [str "all"]; neighborhoodOptions := [str "all"];
     query_circles := []; labels := []; location_points := [];
     totalCount := 0; visibleCount := 0 |}.

(** The callback of [d3.csv(...).then(data => ...)]. *)
Definition csvLoaded (data : list FilmRecord) (st : State) : State :=
  let allData := filter (hasValidCoordinates StringToNumber) data in
  let st :=
    {| allData := allData; circleA := circleA st; circleB := circleB st;
       controls := controls st;
       directorOptions :=
         directorOptions st ++ getUniqueValues allData Director;
       neighborhoodOptions :=
         neighborhoodOptions st
         ++ getUniqueValues allData Analysis_Neighborhood;
       query_circles := query_circles st; labels := labels st;
       location_points := location_points st ++ renderDataPoints allData;
       totalCount := length allData;
       visibleCount := visibleCount st |} in
  updateFilters (renderQueryCircles st).

End Program.

End Part000.


(** ** Vocabulary of the properties *)

Module Props.
Import JS Shared.

(** The squared distance from [(px, py)] to the centre of [c], and the
    square of a radius, computed as the scripts compute them. *)
Definition sqDistance (px py : number) (c : Circle.t) : number :=
  add (mul (sub px (Circle.x c)) (sub px (Circle.x c)))
      (mul (sub py (Circle.y c)) (sub py (Circle.y c))).

Definition sqRadius (radiusPixels : number) : number :=
  mul radiusPixels radiusPixels.

(** A categorical field that is missing, empty or made of white space
    only. *)
Definition isBlank (v : option jsstring) : Prop :=
  match v with
  | None => True
  | Some s => trim s = []
  end.

(** The release year of a row is absent: the field is missing, or it
    does not read as a number (it coerces to NaN), or it is empty or
    zero (it coerces to 0, as the empty cell of a CSV file does). *)
Definition yearAbsent (StringToNumber : jsstring -> number)
           (record : FilmRecord) : bool :=
  match Release_Year record with
  | None => true
  | Some s =>
      match StringToNumber s with
      | S754_nan | S754_zero _ => true
      | S754_infinity _ | S754_finite _ _ _ => false
      end
  end.

(** The mark of a visible point: the fill [updateFilters] gives it. *)
Definition shownLocation (p : ScriptJs.LocationPoint) : bool :=
  str_eqb (ScriptJs.fill p) (str "red").

Definition shownRecord (p : Part000.LocationPoint) : bool :=
  str_eqb (Part000.fill p) (str "#e74c3c").

(** [p'] is the element [p] after a pass of [updateFilters] that found
    it visible or not as [visible] tells: same position and datum, and
    the fill of its verdict. *)
Definition restyledBy (visible : ScriptJs.LocationPoint -> bool)
           (p p' : ScriptJs.LocationPoint) : Prop :=
  ScriptJs.cx p' = ScriptJs.cx p /\ ScriptJs.cy p' = ScriptJs.cy p
  /\ ScriptJs.data_base_radius p' = ScriptJs.data_base_radius p
  /\ ScriptJs.datum p' = ScriptJs.datum p
  /\ shownLocation p' = visible p.

Definition restyledBy000 (visible : Part000.LocationPoint -> bool)
           (p p' : Part000.LocationPoint) : Prop :=
  Part000.cx p' = Part000.cx p /\ Part000.cy p' = Part000.cy p
  /\ Part000.datum p' = Part000.datum p
  /\ shownRecord p' = visible p.

(** The matching members of the points shown, added up. *)
Definition shownTotal (StringToNumber : jsstring -> number)
           (st : ScriptJs.State) (l : list ScriptJs.LocationPoint) : nat :=
  list_sum
    (map (fun p => length (ScriptJs.matchingMovies StringToNumber st
                             (ScriptJs.datum p)))
         (filter shownLocation l)).

(** Two rows have the same raw coordinates: the same longitude field
    and the same latitude field, as strings. *)
Definition sameCoordinates (d1 d2 : FilmRecord) : Prop :=
  Longitude d1 = Longitude d2 /\ Latitude d1 = Latitude d2.

Definition sameField (v w : option jsstring) : bool :=
  match v, w with
  | Some s, Some t => str_eqb s t
  | None, None => true
  | _, _ => false
  end.

(** The rows of [allData] with the raw coordinates of [d], in order. *)
Definition recordsAt (d : FilmRecord) (allData : list FilmRecord)
  : list FilmRecord :=
  filter (fun d' => sameField (Longitude d') (Longitude d)
                    && sameField (Latitude d') (Latitude d))
         allData.

(** The coordinates of a row are written as numbers are: both fields
    are there, and the longitude holds no comma (code unit 44), the
    character that separates the two fields in the key.  A string with
    a comma does not read as a number, so that the rows that pass the
    load filter of the language are of this kind. *)
Definition plainCoordinates (d : FilmRecord) : bool :=
  match Longitude d, Latitude d with
  | Some lon, Some _ => negb (existsb (N.eqb 44) lon)
  | _, _ => false
  end.

(** The rows of [allData] whose coordinate key is [key], in order. *)
Definition membersOf (key : jsstring) (allData : list FilmRecord)
  : list FilmRecord :=
  filter (fun d => str_eqb (ScriptJs.coordinateKey d) key) allData.

(** What holds of [locationMap] once the rows [done] are traversed: one
    entry per key, each holding the rows of its key, and an entry for
    the key of every row. *)
Definition grouped (done : list FilmRecord) (m : ScriptJs.LocationMap)
  : Prop :=
  NoDup (map fst m)
  /\ (forall key loc,
         In (key, loc) m ->
         ScriptJs.movies loc = membersOf key done
         /\ ScriptJs.movies loc <> [])
  /\ (forall d, In d done -> In (ScriptJs.coordinateKey d) (map fst m)).












(** The state with the two query circles exchanged. *)
Definition swapCircles (st : ScriptJs.State) : ScriptJs.State :=
  ScriptJs.set_circleB (ScriptJs.circleA st)
    (ScriptJs.set_circleA (ScriptJs.circleB st) st).

Definition swapCircles000 (st : Part000.State) : Part000.State :=
  Part000.set_circleB (Part000.circleA st)
    (Part000.set_circleA (Part000.circleB st) st).

(** A drag changed the centre of one circle, to the clamped position of
    the event, and nothing else of the two circles. *)
Definition movesOnlyCentre (event_x event_y : number)
           (dragged dragged' other other' : Circle.t) : Prop :=
  Circle.x dragged' = clampTo mapWidth event_x
  /\ Circle.y dragged' = clampTo mapHeight event_y
  /\ Circle.radius dragged' = Circle.radius dragged
  /\ other' = other.

(** The centre of a circle lies on the canvas. *)
Definition withinCanvas (c : Circle.t) : Prop :=
  le (ofZ 0) (Circle.x c) = true /\ le (Circle.x c) mapWidth = true
  /\ le (ofZ 0) (Circle.y c) = true /\ le (Circle.y c) mapHeight = true.

(** A radius slider changed the radius of one circle, to the value of
    the slider, and nothing else of the two circles. *)
Definition setsOnlyRadius (value : number)
           (resized resized' other other' : Circle.t) : Prop :=
  Circle.x resized' = Circle.x resized
  /\ Circle.y resized' = Circle.y resized
  /\ Circle.radius resized' = value
  /\ other' = other.

(** The year sliders after an input event on the lower one: that
    slider keeps the value of the event, and the upper one is raised to
    it when it was below. *)
Definition afterYearMinInput (value : number) (c c' : Controls) : Prop :=
  yearMin c' = value
  /\ yearMax c' = (if gt value (yearMax c) then value else yearMax c).

(** The year sliders after an input event on the upper one: that slider
    keeps the value of the event, and the lower one is lowered to it
    when it was above. *)
Definition afterYearMaxInput (value : number) (c c' : Controls) : Prop :=
  yearMax c' = value
  /\ yearMin c' = (if lt value (yearMin c) then value else yearMin c).

(** [yearMin <= yearMax]. *)
Definition yearsOrdered (c : Controls) : Prop :=
  le (yearMin c) (yearMax c) = true.

End Props.

(** ** Concrete inputs for the examples *)

Module Sample.
Import JS Shared.

Fixpoint digitsValue (acc : Z) (s : jsstring) : option Z :=
  match s with
  | [] => Some acc
  | c :: s' =>
      if ((48 <=? c) && (c <=? 57))%N
      then digitsValue (10 * acc + Z.of_N (c - 48)) s'
      else None
  end.

(** The coercion of a string to a number on the strings of the
    examples: a run of decimal digits reads as that integer and the
    empty string as 0, as in the language; any other string is mapped
    to NaN here. *)
Definition parseDigits (s : jsstring) : number :=
  match digitsValue 0 s with
  | Some z => ofZ z
  | None => NaN
  end.

(** A projection for the examples: coordinates are already pixels. *)
Definition pixelProjection (p : number * number) : number * number := p.

(** A cosine for the examples: the first terms of its series. *)
Definition cosSeries (v : number) : number :=
  let v2 := mul v v in
  add (sub (ofZ 1) (div v2 (ofZ 2))) (div (mul v2 v2) (ofZ 24)).

Definition film (year director neighborhood lon lat : string)
  : FilmRecord :=
  {| Title := Some (str "Film");
     Release_Year := Some (str year);
     Director := Some (str director);
     Actor_1 := Some (str ""); Actor_2 := Some (str "");
     Actor_3 := Some (str "");
     Locations := Some (str "Somewhere");
     Analysis_Neighborhood := Some (str neighborhood);
     Fun_Facts := Some (str "");
     Longitude := Some (str lon);
     Latitude := Some (str lat) |}.

Definition film1950 : FilmRecord := film "1950" "X" "Mission" "420" "300".
Definition film1980 : FilmRecord := film "1980" "Y" "Mission" "420" "300".
Definition film2010 : FilmRecord := film "2010" "X" "Mission" "420" "300".
Definition filmFar : FilmRecord := film "1990" "Z" "Marina" "0" "0".
Definition filmNoYear : FilmRecord := film "unknown" "X" "Mission" "420" "300".
Definition filmEmptyYear : FilmRecord := film "" "X" "Mission" "420" "300".
Definition filmBlank : FilmRecord := film "1990" "  " "" "420" "300".
Definition filmNoCoordinates : FilmRecord := film "1990" "X" "Mission" "n/a" "300".

Definition circle (cx cy radius : Z) : Circle.t :=
  {| Circle.x := ofZ cx; Circle.y := ofZ cy; Circle.radius := ofZ radius |}.

Definition page : Controls :=
  {| radiusA := ofZ 50; radiusB := ofZ 50;
     yearMin := ofZ 1960; yearMax := ofZ 2023;
     directorFilter := str "all"; neighborhoodFilter := str "all" |}.

Definition films : list FilmRecord :=
  [film1950; film1980; film2010; filmFar].

(** The page of [src/script.js] once [films] is loaded: the query
    circles are at their start positions and do not overlap. *)
Definition loaded : ScriptJs.State :=
  ScriptJs.csvLoaded parseDigits pixelProjection D3.scaleSqrt films
    (ScriptJs.initialState page).

(** The same page with both circles over the first three films. *)
Definition overlapping : ScriptJs.State :=
  ScriptJs.set_circleB (circle 450 300 100)
    (ScriptJs.set_circleA (circle 400 300 100) loaded).

(** The page of [src/unnamed/part_000] once [films] is loaded. *)
Definition loaded000 : Part000.State :=
  Part000.csvLoaded parseDigits pixelProjection cosSeries films
    (Part000.initialState page).

(** The page of [src/script.js] with the year sliders at 1915 and 1950,
    and the page of [src/unnamed/part_000] likewise. *)
Definition narrowed : ScriptJs.State :=
  ScriptJs.set_controls
    (with_yearMax (ofZ 1950) (with_yearMin (ofZ 1915) page)) loaded.

Definition narrowed000 : Part000.State :=
  Part000.set_controls
    (with_yearMax (ofZ 1950) (with_yearMin (ofZ 1915) page)) loaded000.

(** Two films at two places: every location has one record. *)
Definition singles : list FilmRecord := [film1950; filmFar].

(** The point [renderDataPoints] draws for the location of [film1950]
    when the rows are [singles]. *)
Definition singlePoint : ScriptJs.LocationPoint :=
  {| ScriptJs.cx := ofZ 420; ScriptJs.cy := ofZ 300;
     ScriptJs.r := decimal false 65 1;
     ScriptJs.data_base_radius := decimal false 65 1;
     ScriptJs.data_movie_count := 1;
     ScriptJs.fill := str "red"; ScriptJs.opacity := decimal false 7 1;
     ScriptJs.datum :=
       {| ScriptJs.longitude := Some (str "420");
          ScriptJs.latitude := Some (str "300");
          ScriptJs.movies := [film1950];
          ScriptJs.data := film1950 |} |}.

End Sample.

(** ** Sessions: sequences of events *)

Module Session.
Import JS Shared.

(** The events of a session are handled one after the other. *)
Definition run {State : Type} (handle : Event -> State -> State)
           (events : list Event) (st : State) : State :=
  fold_left (fun st ev => handle ev st) events st.

(** The coordinates of a drag event are numbers, not NaN. *)
Definition dragIsNumeric (ev : Event) : Prop :=
  match ev with
  | DragA event_x event_y | DragB event_x event_y =>
      isNaN event_x = false /\ isNaN event_y = false
  | _ => True
  end.

(** The value of a year slider event is a number, not NaN. *)
Definition yearIsNumeric (ev : Event) : Prop :=
  match ev with
  | YearMinInput value | YearMaxInput value => isNaN value = false
  | _ => True
  end.

(** What an event does to circle A, to circle B and to the controls,
    given the circles and controls a reset restores. *)
Definition nextCircleA (start : Circle.t) (ev : Event) (c : Circle.t)
  : Circle.t :=
  match ev with
  | DragA event_x event_y =>
      {| Circle.x := clampTo mapWidth event_x;
         Circle.y := clampTo mapHeight event_y;
         Circle.radius := Circle.radius c |}
  | RadiusAInput value =>
      {| Circle.x := Circle.x c; Circle.y := Circle.y c;
         Circle.radius := value |}
  | ResetClick => start
  | _ => c
  end.

Definition nextCircleB (start : Circle.t) (ev : Event) (c : Circle.t)
  : Circle.t :=
  match ev with
  | DragB event_x event_y =>
      {| Circle.x := clampTo mapWidth event_x;
         Circle.y := clampTo mapHeight event_y;
         Circle.radius := Circle.radius c |}
  | RadiusBInput value =>
      {| Circle.x := Circle.x c; Circle.y := Circle.y c;
         Circle.radius := value |}
  | ResetClick => start
  | _ => c
  end.

Definition nextControls (defaults : Controls) (ev : Event) (c : Controls)
  : Controls :=
  match ev with
  | DragA _ _ | DragB _ _ => c
  | RadiusAInput value => with_radiusA value c
  | RadiusBInput value => with_radiusB value c
  | YearMinInput value =>
      if gt value (yearMax c)
      then with_yearMax value (with_yearMin value c)
      else with_yearMin value c
  | YearMaxInput value =>
      if lt value (yearMin c)
      then with_yearMin value (with_yearMax value c)
      else with_yearMax value c
  | DirectorChange value => with_directorFilter value c
  | NeighborhoodChange value => with_neighborhoodFilter value c
  | ResetClick => defaults
  end.

(** The handlers that call [renderQueryCircles]: the two drags, the two
    radius sliders and the reset button. *)
Definition redraws (ev : Event) : bool :=
  match ev with
  | DragA _ _ | DragB _ _ | RadiusAInput _ | RadiusBInput _ | ResetClick =>
      true
  | _ => false
  end.

(** The controls a reset restores in [src/script.js] and in
    [src/unnamed/part_000]. *)
Definition defaults : Controls :=
  {| radiusA := ofZ 50; radiusB := ofZ 50;
     yearMin := ofZ 1915; yearMax := ofZ 2023;
     directorFilter := str "all"; neighborhoodFilter := str "all" |}.

Definition defaults000 : Controls :=
  {| radiusA := ofZ 1; radiusB := ofZ 1;
     yearMin := ofZ 1940; yearMax := ofZ 2025;
     directorFilter := str "all"; neighborhoodFilter := str "all" |}.

(** Each radius slider shows the radius of its circle. *)
Definition radiiInStep (a b : Circle.t) (c : Controls) : Prop :=
  Circle.radius a = radiusA c /\ Circle.radius b = radiusB c.

End Session.

(** ** More concrete inputs *)

Module Cases.
Import JS Shared.

(** A row whose director is written with a space on either side. *)
Definition filmPadded : FilmRecord :=
  Sample.film "1990" " Hitchcock " "Mission" "420" "300".

(** What a user may do in one visit: drag a circle beyond the border,
    widen it, narrow the years, choose a director, reset, and move a
    year slider again. *)
Definition session : list Event :=
  [DragA (ofZ 900) (ofZ (-5)); RadiusAInput (ofZ 80);
   YearMinInput (ofZ 1980); DirectorChange (str "Hitchcock");
   DragB (ofZ 120) (ofZ 700); ResetClick; YearMaxInput (ofZ 1930)].

End Cases.

(** ** More vocabulary *)

Module Terms.
Import JS Shared.

(** The member counts of the entries of [locationMap]. *)
Definition memberCounts (m : ScriptJs.LocationMap) : list nat :=
  map (fun e => length (ScriptJs.movies (snd e))) m.

(** The entry of [key] is headed by the row that created it: that row
    has the key, gave its coordinates to the entry, and is its first
    member. *)
Definition headedBy (key : jsstring) (loc : ScriptJs.Location) : Prop :=
  ScriptJs.coordinateKey (ScriptJs.data loc) = key
  /\ ScriptJs.longitude loc = Longitude (ScriptJs.data loc)
  /\ ScriptJs.latitude loc = Latitude (ScriptJs.data loc)
  /\ exists rest, ScriptJs.movies loc = ScriptJs.data loc :: rest.

(** One element after the body of the [.each] loop of [updateFilters]
    in [src/script.js], and what the body adds to [visibleCount]. *)
Definition restyle (StringToNumber : jsstring -> number)
           (st : ScriptJs.State) (circle : ScriptJs.LocationPoint)
  : ScriptJs.LocationPoint :=
  let baseRadius := attr_number (ScriptJs.data_base_radius circle) in
  if ScriptJs.isVisible StringToNumber st circle
  then {| ScriptJs.cx := ScriptJs.cx circle;
          ScriptJs.cy := ScriptJs.cy circle;
          ScriptJs.r := baseRadius;
          ScriptJs.data_base_radius := ScriptJs.data_base_radius circle;
          ScriptJs.data_movie_count := ScriptJs.data_movie_count circle;
          ScriptJs.fill := str "red";
          ScriptJs.opacity := decimal false 7 1;
          ScriptJs.datum := ScriptJs.datum circle |}
  else {| ScriptJs.cx := ScriptJs.cx circle;
          ScriptJs.cy := ScriptJs.cy circle;
          ScriptJs.r := mul baseRadius (decimal false 7 1);
          ScriptJs.data_base_radius := ScriptJs.data_base_radius circle;
          ScriptJs.data_movie_count := ScriptJs.data_movie_count circle;
          ScriptJs.fill := str "gray";
          ScriptJs.opacity := decimal false 3 1;
          ScriptJs.datum := ScriptJs.datum circle |}.

Definition counted (StringToNumber : jsstring -> number)
           (st : ScriptJs.State) (circle : ScriptJs.LocationPoint) : nat :=
  if ScriptJs.isVisible StringToNumber st circle
  then length (ScriptJs.matchingMovies StringToNumber st
                 (ScriptJs.datum circle))
  else 0.

(** The same for [src/unnamed/part_000]. *)
Definition restyle000 (StringToNumber : jsstring -> number)
           (projection : number * number -> number * number)
           (Math_cos : number -> number)
           (st : Part000.State) (circle : Part000.LocationPoint)
  : Part000.LocationPoint :=
  if Part000.isVisible StringToNumber projection Math_cos st circle
  then {| Part000.cx := Part000.cx circle; Part000.cy := Part000.cy circle;
          Part000.r := ofZ 3;
          Part000.fill := str "#e74c3c";
          Part000.opacity := decimal false 7 1;
          Part000.datum := Part000.datum circle |}
  else {| Part000.cx := Part000.cx circle; Part000.cy := Part000.cy circle;
          Part000.r := ofZ 2;
          Part000.fill := str "#bdc3c7";
          Part000.opacity := decimal false 3 1;
          Part000.datum := Part000.datum circle |}.

Definition counted000 (StringToNumber : jsstring -> number)
           (projection : number * number -> number * number)
           (Math_cos : number -> number)
           (st : Part000.State) (circle : Part000.LocationPoint) : nat :=
  if Part000.isVisible StringToNumber projection Math_cos st circle
  then 1 else 0.

(** One of the numbers [isInCircle] reads is NaN. *)
Definition notANumberIn (px py : number) (c : Circle.t) : Prop :=
  isNaN px = true \/ isNaN py = true
  \/ isNaN (Circle.x c) = true \/ isNaN (Circle.y c) = true
  \/ isNaN (Circle.radius c) = true.

(** The controls [c'] let pass whatever [c] lets pass: the same years,
    and each select as in [c] or at ["all"]. *)
Definition widens (c c' : Controls) : Prop :=
  yearMin c' = yearMin c /\ yearMax c' = yearMax c
  /\ (directorFilter c' = directorFilter c
      \/ directorFilter c' = str "all")
  /\ (neighborhoodFilter c' = neighborhoodFilter c
      \/ neighborhoodFilter c' = str "all").

(** [q] is the element [p] with, possibly, another style. *)
Definition sameElement (p q : ScriptJs.LocationPoint) : Prop :=
  ScriptJs.cx q = ScriptJs.cx p /\ ScriptJs.cy q = ScriptJs.cy p
  /\ ScriptJs.data_base_radius q = ScriptJs.data_base_radius p
  /\ ScriptJs.data_movie_count q = ScriptJs.data_movie_count p
  /\ ScriptJs.datum q = ScriptJs.datum p.

(** Nothing on the page of [src/script.js] is stale: a pass of
    [updateFilters] or a call of [renderQueryCircles] would change
    nothing; the elements are those [renderDataPoints] draws for
    [allData], whatever their style; and the two counts shown are the
    number of rows and a number of rows among them. *)
Definition settled (StringToNumber : jsstring -> number)
           (projection : number * number -> number * number)
           (scaleSqrt : number * number -> number * number ->
                        number -> number)
           (st : ScriptJs.State) : Prop :=
  ScriptJs.updateFilters StringToNumber st = st
  /\ ScriptJs.renderQueryCircles st = st
  /\ Forall2 sameElement
       (ScriptJs.renderDataPoints StringToNumber projection scaleSqrt
          (ScriptJs.allData st))
       (ScriptJs.location_points st)
  /\ ScriptJs.totalCount st = length (ScriptJs.allData st)
  /\ ScriptJs.visibleCount st <= ScriptJs.totalCount st.

(** The [circle.query-circle] elements and the [text] elements a call
    of [renderQueryCircles] of [src/unnamed/part_000] appends for the
    globals as they are. *)
Definition circlesOf000 (projection : number * number -> number * number)
           (Math_cos : number -> number) (st : Part000.State)
  : list Circle.t :=
  [ {| Circle.x := Circle.x (Part000.circleA st);
       Circle.y := Circle.y (Part000.circleA st);
       Circle.radius :=
         Part000.kmToPixels projection Math_cos
           (Circle.radius (Part000.circleA st)) |};
    {| Circle.x := Circle.x (Part000.circleB st);
       Circle.y := Circle.y (Part000.circleB st);
       Circle.radius :=
         Part000.kmToPixels projection Math_cos
           (Circle.radius (Part000.circleB st)) |} ].

Definition labelsOf000 (st : Part000.State) : list Part000.Label :=
  [ Part000.circleLabel (Part000.circleA st) (str "#3498db") (str "A");
    Part000.circleLabel (Part000.circleB st) (str "#2ecc71") (str "B") ].

(** The [text] elements of the page of [src/unnamed/part_000]: all of
    class [circle-label], the last two at the centres of the circles. *)
Definition labelled000 (st : Part000.State) : Prop :=
  Forall (fun l => Part000.label_class l = str "circle-label")
         (Part000.labels st)
  /\ exists older, Part000.labels st = older ++ labelsOf000 st.

(** The same for [src/unnamed/part_000], as far as it holds there: a
    pass of [updateFilters] would change nothing; the query circles
    drawn are those of the globals; there is one element per row of
    [allData], in order, at the projection of the coordinates of its
    row; the two counts are as above.  The [text] elements are left to
    [labelled000]: a call of [renderQueryCircles] does change them. *)
Definition settled000 (StringToNumber : jsstring -> number)
           (projection : number * number -> number * number)
           (Math_cos : number -> number)
           (st : Part000.State) : Prop :=
  Part000.updateFilters StringToNumber projection Math_cos st = st
  /\ Part000.query_circles st = circlesOf000 projection Math_cos st
  /\ map Part000.datum (Part000.location_points st) = Part000.allData st
  /\ Forall (fun p =>
               (Part000.cx p, Part000.cy p)
               = projection
                   (ToNumber StringToNumber (Longitude (Part000.datum p)),
                    ToNumber StringToNumber (Latitude (Part000.datum p))))
            (Part000.location_points st)
  /\ Part000.totalCount st = length (Part000.allData st)
  /\ Part000.visibleCount st <= Part000.totalCount st.

End Terms.

(** ** Hovering over a point, [src/script.js]

    The three handlers [renderDataPoints] binds to every point.  They
    write to the [#tooltip] element and to the hovered element; of the
    event they read [pageX] and [pageY]. *)

Module Hover.
Import JS Shared.

(** The part of [#tooltip] the handlers write: its content, the inline
    [display], the number of px of the inline [left] and [top] (the
    style is that number followed by [px]), and whether it has the class
    [visible]. *)
Record Tooltip := {
  html : jsstring;
  display : option jsstring;
  left : number;
  top : number;
  visible : bool
}.

(** A point with the outline the handlers give it. *)
Record Element := {
  point : ScriptJs.LocationPoint;
  stroke : option jsstring;
  stroke_width : option number
}.

(** ToBoolean on a field that may be missing. *)
Definition truthy (v : option jsstring) : bool :=
  match v with
  | Some s => truthy_string s
  | None => false
  end.

(** [a && a.trim() !== ''] ; [[]] is the empty string. *)
Definition filled (a : option jsstring) : bool :=
  match a with
  | Some s => truthy_string s && negb (str_eqb (trim s) [])
  | None => false
  end.

(** [Array.prototype.join]: a missing element counts as the empty
    string. *)
Definition joinItem (v : option jsstring) : jsstring :=
  match v with
  | Some s => s
  | None => []
  end.

Definition join (sep : jsstring) (l : list (option jsstring)) : jsstring :=
  match l with
  | [] => []
  | v :: l' => fold_left (fun acc w => acc ++ sep ++ joinItem w) l'
                         (joinItem v)
  end.

(** [`${n}`] for a length. *)
Definition natToString (n : nat) : jsstring :=
  str (NilEmpty.string_of_uint (Nat.to_uint n)).

(** The body of [d.movies.forEach((movie, index) => ...)]: the content
    so far and the index of the movie. *)
Definition appendMovie (acc : jsstring * nat) (movie : FilmRecord)
  : jsstring * nat :=
  let '(content, index) := acc in
  let content :=
    if 0 <? index then content ++ str "<br><br>" else content in
  let content :=
    content ++ str "<strong>" ++ ToString (Title movie) ++ str "</strong>" in
  let content :=
    if truthy (Release_Year movie)
    then content ++ str " (" ++ ToString (Release_Year movie) ++ str ")"
    else content in
  let content :=
    if truthy (Director movie)
    then content ++ str "<br><em>Director:</em> "
                 ++ ToString (Director movie)
    else content in
  let actors :=
    filter filled [Actor_1 movie; Actor_2 movie; Actor_3 movie] in
  let content :=
    if 0 <? length actors
    then content ++ str "<br><em>Actors:</em> " ++ join (str ", ") actors
    else content in
  let content :=
    if filled (Fun_Facts movie)
    then content ++ str "<br><em>Fun Fact:</em> "
                 ++ ToString (Fun_Facts movie)
    else content in
  (content, S index).

(** The content [mouseenter] builds for a location whose first movie is
    [first]. *)
Definition tooltipContent (first : FilmRecord) (d : ScriptJs.Location)
  : jsstring :=
  let content :=
    str "<strong>Location:</strong> "
    ++ (if truthy (Locations first) then ToString (Locations first)
        else str "Unknown")
    ++ str "<br>" in
  let content :=
    content ++ str "<strong>Number of Movies:</strong> "
            ++ natToString (length (ScriptJs.movies d))
            ++ str "<br><br>" in
  let content := fst (fold_left appendMovie (ScriptJs.movies d) (content, 0)) in
  if truthy (Analysis_Neighborhood first)
  then content ++ str "<br><br><strong>Neighborhood:</strong> "
               ++ ToString (Analysis_Neighborhood first)
  else content.

(** The hovered element with another [r]. *)
Definition with_r (value : number) (p : ScriptJs.LocationPoint)
  : ScriptJs.LocationPoint :=
  {| ScriptJs.cx := ScriptJs.cx p; ScriptJs.cy := ScriptJs.cy p;
     ScriptJs.r := value;
     ScriptJs.data_base_radius := ScriptJs.data_base_radius p;
     ScriptJs.data_movie_count := ScriptJs.data_movie_count p;
     ScriptJs.fill := ScriptJs.fill p;
     ScriptJs.opacity := ScriptJs.opacity p;
     ScriptJs.datum := ScriptJs.datum p |}.

(** [.on('mouseenter', function(event, d) { ... })].  With no movie at
    the location, [d.movies[0]] is [undefined] and reading [Locations]
    from it throws: [None]. *)
Definition mouseenter (pageX pageY : number) (el : Element)
           (tooltip : Tooltip) : option (Element * Tooltip) :=
  let d := ScriptJs.datum (point el) in
  match ScriptJs.movies d with
  | [] => None
  | first :: _ =>
      let content := tooltipContent first d in
      let tooltip :=
        {| html := content;
           display := Some (str "block");
           left := add pageX (ofZ 15);
           top := sub pageY (ofZ 10);
           visible := true |} in
      let baseRadius :=
        attr_number (ScriptJs.data_base_radius (point el)) in
      Some ({| point := with_r (add baseRadius (ofZ 3)) (point el);
               stroke := Some (str "white");
               stroke_width := Some (ofZ 2) |},
            tooltip)
  end.

(** [.on('mousemove', function(event) { ... })]. *)
Definition mousemove (pageX pageY : number) (tooltip : Tooltip) : Tooltip :=
  {| html := html tooltip;
     display := display tooltip;
     left := add pageX (ofZ 15);
     top := sub pageY (ofZ 10);
     visible := visible tooltip |}.

(** [.on('mouseleave', function() { ... })]. *)
Definition mouseleave (el : Element) (tooltip : Tooltip)
  : Element * Tooltip :=
  let tooltip :=
    {| html := html tooltip;
       display := Some (str "none");
       left := left tooltip;
       top := top tooltip;
       visible := false |} in
  let baseRadius := attr_number (ScriptJs.data_base_radius (point el)) in
  let currentFill := ScriptJs.fill (point el) in
  let isVisible :=
    str_eqb currentFill (str "rgb(231, 76, 60)")
    || str_eqb currentFill (str "red") in
  ({| point := with_r (if isVisible then baseRadius
                       else mul baseRadius (decimal false 7 1))
                      (point el);
      stroke := Some (str "none");
      stroke_width := stroke_width el |},
   tooltip).

(** The entry of one movie in the content of the tooltip. *)
Definition movieHtml (movie : FilmRecord) : jsstring :=
  fst (appendMovie ([], 0) movie).

(** The strings of [l] with [sep] between any two that follow each
    other. *)
Fixpoint separated (sep : jsstring) (l : list jsstring) : jsstring :=
  match l with
  | [] => []
  | [s] => s
  | s :: l' => s ++ sep ++ separated sep l'
  end.

End Hover.

(** ** Hovering over a point, [src/unnamed/part_000] *)

Module Hover000.
Import JS Shared.

Record Element := {
  point : Part000.LocationPoint;
  stroke : option jsstring;
  stroke_width : option number
}.

Definition with_r (value : number) (p : Part000.LocationPoint)
  : Part000.LocationPoint :=
  {| Part000.cx := Part000.cx p; Part000.cy := Part000.cy p;
     Part000.r := value;
     Part000.fill := Part000.fill p;
     Part000.opacity := Part000.opacity p;
     Part000.datum := Part000.datum p |}.

(** The content [mouseenter] builds for the row [d]. *)
Definition tooltipContent (d : FilmRecord) : jsstring :=
  let content :=
    str "<strong>" ++ ToString (Title d) ++ str "</strong>" in
  let content :=
    if Hover.truthy (Release_Year d)
    then content ++ str " (" ++ ToString (Release_Year d) ++ str ")"
    else content in
  let content := content ++ str "<br>" in
  let content :=
    if Hover.truthy (Locations d)
    then content ++ str "<br><strong>Location:</strong> "
                 ++ ToString (Locations d)
    else content in
  let content :=
    if Hover.truthy (Director d)
    then content ++ str "<br><strong>Director:</strong> "
                 ++ ToString (Director d)
    else content in
  let actors :=
    filter Hover.filled [Actor_1 d; Actor_2 d; Actor_3 d] in
  let content :=
    if 0 <? length actors
    then content ++ str "<br><strong>Actors:</strong> "
                 ++ Hover.join (str ", ") actors
    else content in
  let content :=
    if Hover.truthy (Analysis_Neighborhood d)
    then content ++ str "<br><strong>Neighborhood:</strong> "
                 ++ ToString (Analysis_Neighborhood d)
    else content in
  if Hover.filled (Fun_Facts d)
  then content ++ str "<br><br><strong>Fun Fact:</strong> "
               ++ ToString (Fun_Facts d)
  else content.

(** [.on('mouseenter', function(event, d) { ... })]. *)
Definition mouseenter (pageX pageY : number) (el : Element)
           (tooltip : Hover.Tooltip) : Element * Hover.Tooltip :=
  let d := Part000.datum (point el) in
  ({| point := with_r (ofZ 5) (point el);
      stroke := Some (str "#fff");
      stroke_width := Some (ofZ 2) |},
   {| Hover.html := tooltipContent d;
      Hover.display := Hover.display tooltip;
      Hover.left := add pageX (ofZ 15);
      Hover.top := sub pageY (ofZ 10);
      Hover.visible := true |}).

(** [.on('mousemove', function(event) { ... })]. *)
Definition mousemove (pageX pageY : number) (tooltip : Hover.Tooltip)
  : Hover.Tooltip :=
  {| Hover.html := Hover.html tooltip;
     Hover.display := Hover.display tooltip;
     Hover.left := add pageX (ofZ 15);
     Hover.top := sub pageY (ofZ 10);
     Hover.visible := Hover.visible tooltip |}.

(** [.on('mouseleave', function() { ... })]. *)
Definition mouseleave (el : Element) (tooltip : Hover.Tooltip)
  : Element * Hover.Tooltip :=
  let tooltip :=
    {| Hover.html := Hover.html tooltip;
       Hover.display := Hover.display tooltip;
       Hover.left := Hover.left tooltip;
       Hover.top := Hover.top tooltip;
       Hover.visible := false |} in
  let currentFill := Part000.fill (point el) in
  let isVisible :=
    str_eqb currentFill (str "rgb(231, 76, 60)")
    || str_eqb currentFill (str "#e74c3c") in
  ({| point := with_r (if isVisible then ofZ 3 else ofZ 2) (point el);
      stroke := Some (str "none");
      stroke_width := stroke_width el |},
   tooltip).

End Hover000.

(** ** Pages and elements to hover over *)

Module HoverCases.
Import JS Shared.

(** The two pages after the session of [Cases.session]. *)
Definition visited : ScriptJs.State :=
  Session.run (ScriptJs.handle Sample.parseDigits) Cases.session
    Sample.loaded.

Definition visited000 : Part000.State :=
  Session.run
    (Part000.handle Sample.parseDigits Sample.pixelProjection
       Sample.cosSeries)
    Cases.session Sample.loaded000.

(** The point [renderDataPoints] of [src/unnamed/part_000] draws for
    [Sample.film1950]. *)
Definition singlePoint000 : Part000.LocationPoint :=
  {| Part000.cx := ofZ 420; Part000.cy := ofZ 300;
     Part000.r := ofZ 3;
     Part000.fill := str "#e74c3c"; Part000.opacity := decimal false 7 1;
     Part000.datum := Sample.film1950 |}.

(** The first point of each page. *)
Definition hovered : ScriptJs.LocationPoint :=
  hd Sample.singlePoint (ScriptJs.location_points visited).

Definition hovered000 : Part000.LocationPoint :=
  hd singlePoint000 (Part000.location_points visited000).

(** The tooltip before any hover: empty and hidden. *)
Definition hidden : Hover.Tooltip :=
  {| Hover.html := []; Hover.display := None;
     Hover.left := ofZ 0; Hover.top := ofZ 0;
     Hover.visible := false |}.

(** A location of two movies, the first without a title. *)
Definition untitled : FilmRecord :=
  {| Title := None; Release_Year := Some (str "1950");
     Director := Some (str "Hitchcock");
     Actor_1 := Some (str "Kim Novak"); Actor_2 := None;
     Actor_3 := Some (str " ");
     Locations := None; Analysis_Neighborhood := Some (str "Mission");
     Fun_Facts := None;
     Longitude := Some (str "420"); Latitude := Some (str "300") |}.

Definition twoMovies : Hover.Element :=
  {| Hover.point :=
       {| ScriptJs.cx := ofZ 420; ScriptJs.cy := ofZ 300;
          ScriptJs.r := ofZ 3; ScriptJs.data_base_radius := ofZ 3;
          ScriptJs.data_movie_count := 2;
          ScriptJs.fill := str "red";
          ScriptJs.opacity := decimal false 7 1;
          ScriptJs.datum :=
            {| ScriptJs.longitude := Some (str "420");
               ScriptJs.latitude := Some (str "300");
               ScriptJs.movies := [untitled; Sample.film1950];
               ScriptJs.data := untitled |} |};
     Hover.stroke := None; Hover.stroke_width := None |}.

End HoverCases.

(** ** The highlighted part of the year track, [src/script.js] *)

Module Track.
Import JS Shared.

(** The custom properties [--range-left] and [--range-width] of the
    element [.range-track]: each holds a number followed by [%]. *)
Record RangeTrack := {
  range_left : number;
  range_width : number
}.

(** [updateYearRangeVisual()]; it reads the two year sliders. *)
Definition updateYearRangeVisual (c : Controls) : RangeTrack :=
  let minPercent :=
    mul (div (sub (yearMin c) (ofZ 1915)) (sub (ofZ 2023) (ofZ 1915)))
        (ofZ 100) in
  let maxPercent :=
    mul (div (sub (yearMax c) (ofZ 1915)) (sub (ofZ 2023) (ofZ 1915)))
        (ofZ 100) in
  {| range_left := minPercent;
     range_width := sub maxPercent minPercent |}.

(** The handlers of [setupControls] with the track: those of the two
    year sliders and of the reset button call [updateYearRangeVisual]
    once the sliders are written and before [updateFilters], which
    writes no slider; the other handlers leave the track alone. *)
Definition handle (StringToNumber : jsstring -> number) (ev : Event)
           (pg : ScriptJs.State * RangeTrack) : ScriptJs.State * RangeTrack :=
  let st := ScriptJs.handle StringToNumber ev (fst pg) in
  match ev with
  | YearMinInput _ | YearMaxInput _ | ResetClick =>
      (st, updateYearRangeVisual (ScriptJs.controls st))
  | _ => (st, snd pg)
  end.

(** The page once the callback of [d3.csv] is through: [setupControls]
    calls [updateYearRangeVisual] on the sliders as the document has
    them. *)
Definition csvLoaded (StringToNumber : jsstring -> number)
           (projection : number * number -> number * number)
           (scaleSqrt : number * number -> number * number ->
                        number -> number)
           (data : list FilmRecord) (page : Controls)
  : ScriptJs.State * RangeTrack :=
  (ScriptJs.csvLoaded StringToNumber projection scaleSqrt data
     (ScriptJs.initialState page),
   updateYearRangeVisual page).

(** The years a slider from 1915 to 2023 can hold. *)
Definition sliderYears : list Z :=
  map (fun n => (1915 + Z.of_nat n)%Z) (seq 0 109).

(** The highlight lies within the track. *)
Definition withinTrack (t : RangeTrack) : bool :=
  le (ofZ 0) (range_left t) && le (range_left t) (ofZ 100)
  && le (ofZ 0) (range_width t) && le (range_width t) (ofZ 100)
  && le (add (range_left t) (range_width t)) (ofZ 100).

Definition withYears (a b : Z) (c : Controls) : Controls :=
  with_yearMax (ofZ b) (with_yearMin (ofZ a) c).

End Track.

(** ** Properties of the numbers and strings *)

(** A decidable property of the elements of a list, checked by running
    it. *)
Lemma Forall_false_forallb {A : Type} (f : A -> bool) (l : list A) :
  forallb (fun a => negb (f a)) l = true -> Forall (fun a => f a = false) l.
Proof.
  intros H. apply Forall_forall. intros a Ha.
  rewrite forallb_forall in H. apply negb_true_iff. exact (H a Ha).
Qed.

Section NumberFacts.
Import JS.

Lemma SFcompare_antisym (a b : number) :
  SFcompare b a = option_map CompOpp (SFcompare a b).
Proof.
  destruct a as [sa|sa| |sa ma ea], b as [sb|sb| |sb mb eb]; simpl;
    try reflexivity; try (destruct sa; reflexivity);
    try (destruct sb; reflexivity);
    try (destruct sa, sb; reflexivity).
  destruct sa, sb; simpl; try reflexivity;
    rewrite (Z.compare_antisym ea eb);
    destruct (ea ?= eb)%Z; simpl; try reflexivity;
    change Eq with (CompOpp Eq) at 1;
    rewrite <- Pos.compare_cont_antisym; simpl;
    try rewrite CompOpp_involutive; reflexivity.
Qed.

Lemma SFcompare_defined (a b : number) :
  isNaN a = false -> isNaN b = false -> exists c, SFcompare a b = Some c.
Proof.
  destruct a, b; simpl; intros; try discriminate; eauto.
Qed.

Lemma SFcompare_not_nan (a b : number) (c : comparison) :
  SFcompare a b = Some c -> isNaN a = false /\ isNaN b = false.
Proof.
  destruct a, b; simpl; intros; try discriminate; auto.
Qed.

(** On numbers that are not NaN the comparison is total. *)
Lemma not_gt_le (a b : number) :
  isNaN a = false -> isNaN b = false -> gt a b = false -> le a b = true.
Proof.
  intros Ha Hb. unfold gt, le, SFltb, SFleb.
  rewrite (SFcompare_antisym a b).
  destruct (SFcompare_defined a b Ha Hb) as [c ->]. destruct c; simpl; congruence.
Qed.

Lemma gt_le (a b : number) : gt a b = true -> le b a = true.
Proof.
  unfold gt, le, SFltb, SFleb. destruct (SFcompare b a) as [[]|]; congruence.
Qed.

Lemma le_refl (a : number) : isNaN a = false -> le a a = true.
Proof.
  intros Ha. unfold le, SFleb.
  destruct (SFcompare_defined a a Ha Ha) as [c Hc].
  pose proof (SFcompare_antisym a a) as H. rewrite Hc in H. simpl in H.
  rewrite Hc. destruct c; simpl in H; congruence.
Qed.

Lemma num_eq_le (a b : number) : num_eq a b = true -> le a b = true.
Proof.
  unfold num_eq, le, SFeqb, SFleb. destruct (SFcompare a b) as [[]|]; congruence.
Qed.

Lemma le_not_nan (a b : number) :
  le a b = true -> isNaN a = false /\ isNaN b = false.
Proof.
  unfold le, SFleb. destruct (SFcompare a b) as [c|] eqn:E; try discriminate.
  intros _. exact (SFcompare_not_nan a b c E).
Qed.



End NumberFacts.

Section ClampFacts.
Import JS Shared.

Lemma Math_min_le (bound v : number) :
  isNaN bound = false -> isNaN v = false ->
  le (Math_min bound v) bound = true /\ isNaN (Math_min bound v) = false.
Proof.
  intros Hb Hv. unfold Math_min.
  destruct (SFcompare_defined bound v Hb Hv) as [c Hc]. rewrite Hc.
  assert (Hvb : le v bound = true -> le v bound = true /\ isNaN v = false)
    by auto.
  destruct c.
  - assert (le v bound = true).
    { unfold le, SFleb. rewrite (SFcompare_antisym bound v), Hc. reflexivity. }
    destruct bound as [[]| | |]; auto using le_refl.
  - auto using le_refl.
  - apply Hvb. unfold le, SFleb.
    rewrite (SFcompare_antisym bound v), Hc. reflexivity.
Qed.

Lemma Math_max_zero (m bound : number) :
  isNaN m = false -> le (ofZ 0) bound = true -> le m bound = true ->
  le (ofZ 0) (Math_max (ofZ 0) m) = true
  /\ le (Math_max (ofZ 0) m) bound = true.
Proof.
  intros Hm H0 Hmb. unfold Math_max.
  destruct (SFcompare_defined (ofZ 0) m eq_refl Hm) as [c Hc]. rewrite Hc.
  destruct c.
  - change (ofZ 0) with (S754_zero false). split; [reflexivity | exact H0].
  - split; [| exact Hmb]. unfold le, SFleb. rewrite Hc. reflexivity.
  - split; [reflexivity | exact H0].
Qed.

(** A clamped coordinate lies between 0 and the bound, provided the
    event coordinate is a number. *)
Lemma clampTo_range (bound v : number) :
  le (ofZ 0) bound = true -> isNaN v = false ->
  le (ofZ 0) (clampTo bound v) = true /\ le (clampTo bound v) bound = true.
Proof.
  intros H0 Hv. unfold clampTo.
  destruct (le_not_nan _ _ H0) as [_ Hb].
  destruct (Math_min_le bound v Hb Hv) as [Hle Hnan].
  apply Math_max_zero; assumption.
Qed.

Lemma mapWidth_positive : le (ofZ 0) mapWidth = true.
Proof. vm_compute. reflexivity. Qed.

Lemma mapHeight_positive : le (ofZ 0) mapHeight = true.
Proof. vm_compute. reflexivity. Qed.

End ClampFacts.

(** ** Frame properties of [updateFilters] *)

Section UpdateFiltersFrame.
Import JS Shared.
Variable StringToNumber : jsstring -> number.
Variable projection : number * number -> number * number.
Variable Math_cos : number -> number.

Lemma updateFilters_frame (st : ScriptJs.State) :
  let st' := ScriptJs.updateFilters StringToNumber st in
  ScriptJs.circleA st' = ScriptJs.circleA st
  /\ ScriptJs.circleB st' = ScriptJs.circleB st
  /\ ScriptJs.controls st' = ScriptJs.controls st
  /\ ScriptJs.allData st' = ScriptJs.allData st.
Proof.
  unfold ScriptJs.updateFilters.
  destruct (fold_left _ _ _) as [points n]. simpl. auto.
Qed.

Lemma updateFilters000_frame (st : Part000.State) :
  let st' := Part000.updateFilters StringToNumber projection Math_cos st in
  Part000.circleA st' = Part000.circleA st
  /\ Part000.circleB st' = Part000.circleB st
  /\ Part000.controls st' = Part000.controls st
  /\ Part000.allData st' = Part000.allData st.
Proof.
  unfold Part000.updateFilters.
  destruct (fold_left _ _ _) as [points n]. simpl. auto.
Qed.

End UpdateFiltersFrame.

(** ** What a pass of [updateFilters] computes *)

Section UpdateFiltersFacts.
Import JS Shared Props.
Variable StringToNumber : jsstring -> number.

Lemma restylePoint_spec (st : ScriptJs.State)
      (done : list ScriptJs.LocationPoint) (n : nat)
      (p : ScriptJs.LocationPoint) :
  exists p',
    ScriptJs.restylePoint StringToNumber st (done, n) p
    = (done ++ [p'],
       n + if ScriptJs.isVisible StringToNumber st p
           then length (ScriptJs.matchingMovies StringToNumber st
                          (ScriptJs.datum p))
           else 0)
    /\ restyledBy (ScriptJs.isVisible StringToNumber st) p p'.
Proof.
  unfold ScriptJs.restylePoint, restyledBy, shownLocation.
  destruct (ScriptJs.isVisible StringToNumber st p);
    rewrite ?Nat.add_0_r; eexists; (split; [reflexivity|]); simpl;
    repeat split; reflexivity.
Qed.

Lemma restyle_fold (st : ScriptJs.State) (l : list ScriptJs.LocationPoint) :
  forall done n, exists l',
    fold_left (ScriptJs.restylePoint StringToNumber st) l (done, n)
    = (done ++ l', n + shownTotal StringToNumber st l')
    /\ Forall2 (restyledBy (ScriptJs.isVisible StringToNumber st)) l l'.
Proof.
  induction l as [|p l IH]; intros done n.
  - exists []. simpl. rewrite app_nil_r, Nat.add_0_r. auto.
  - destruct (restylePoint_spec st done n p) as (p' & Hp & HR).
    cbn [fold_left]. rewrite Hp.
    destruct (IH (done ++ [p'])
                 (n + if ScriptJs.isVisible StringToNumber st p
                      then length (ScriptJs.matchingMovies StringToNumber st
                                     (ScriptJs.datum p))
                      else 0)) as (l' & Hl & HF).
    exists (p' :: l'). split; [| constructor; assumption].
    rewrite Hl, <- app_assoc. simpl. f_equal.
    unfold shownTotal. simpl.
    destruct HR as (_ & _ & _ & Hd & Hs). rewrite Hs.
    destruct (ScriptJs.isVisible StringToNumber st p); simpl;
      rewrite ?Hd; lia.
Qed.

Lemma updateFilters_spec (st : ScriptJs.State) :
  let st' := ScriptJs.updateFilters StringToNumber st in
  Forall2 (restyledBy (ScriptJs.isVisible StringToNumber st))
          (ScriptJs.location_points st) (ScriptJs.location_points st')
  /\ ScriptJs.visibleCount st'
     = shownTotal StringToNumber st (ScriptJs.location_points st').
Proof.
  unfold ScriptJs.updateFilters.
  destruct (restyle_fold st (ScriptJs.location_points st) [] 0)
    as (l' & Hl & HF).
  rewrite Hl. simpl. auto.
Qed.

End UpdateFiltersFacts.

Section UpdateFilters000Facts.
Import JS Shared Props.
Variable StringToNumber : jsstring -> number.
Variable projection : number * number -> number * number.
Variable Math_cos : number -> number.

Local Abbreviation isVisible :=
  (Part000.isVisible StringToNumber projection Math_cos).
Local Abbreviation restylePoint :=
  (Part000.restylePoint StringToNumber projection Math_cos).

Lemma restylePoint000_spec (st : Part000.State)
      (done : list Part000.LocationPoint) (n : nat)
      (p : Part000.LocationPoint) :
  exists p',
    restylePoint st (done, n) p
    = (done ++ [p'], n + if isVisible st p then 1 else 0)
    /\ restyledBy000 (isVisible st) p p'.
Proof.
  unfold Part000.restylePoint, restyledBy000, shownRecord.
  destruct (Part000.isVisible StringToNumber projection Math_cos st p);
    rewrite ?Nat.add_0_r; eexists; (split; [reflexivity|]); simpl;
    repeat split; reflexivity.
Qed.

Lemma restyle000_fold (st : Part000.State) (l : list Part000.LocationPoint) :
  forall done n, exists l',
    fold_left (restylePoint st) l (done, n)
    = (done ++ l', n + length (filter shownRecord l'))
    /\ Forall2 (restyledBy000 (isVisible st)) l l'.
Proof.
  induction l as [|p l IH]; intros done n.
  - exists []. simpl. rewrite app_nil_r, Nat.add_0_r. auto.
  - destruct (restylePoint000_spec st done n p) as (p' & Hp & HR).
    cbn [fold_left]. rewrite Hp.
    destruct (IH (done ++ [p']) (n + if isVisible st p then 1 else 0))
      as (l' & Hl & HF).
    exists (p' :: l'). split; [| constructor; assumption].
    rewrite Hl, <- app_assoc. simpl. f_equal.
    destruct HR as (_ & _ & _ & Hs). rewrite Hs.
    destruct (isVisible st p); simpl; lia.
Qed.

Lemma updateFilters000_spec (st : Part000.State) :
  let st' := Part000.updateFilters StringToNumber projection Math_cos st in
  Forall2 (restyledBy000 (isVisible st))
          (Part000.location_points st) (Part000.location_points st')
  /\ Part000.visibleCount st'
     = length (filter shownRecord (Part000.location_points st')).
Proof.
  unfold Part000.updateFilters.
  destruct (restyle000_fold st (Part000.location_points st) [] 0)
    as (l' & Hl & HF).
  rewrite Hl. simpl. auto.
Qed.

End UpdateFilters000Facts.

(** ** The query region model *)

Section QueryRegions.
Import JS Shared Props.

(** C2.  A point is in a query circle exactly when its squared distance
    to the centre is at most the squared radius in pixels, the radius
    being converted from kilometres by [kmToPixels] in
    [src/unnamed/part_000]; a point whose squared distance equals the
    squared radius is contained. *)
Theorem isInCircle_closed_disc
        (projection : number * number -> number * number)
        (Math_cos : number -> number)
        (px py : number) (circle : Circle.t) :
  (ScriptJs.isInCircle px py circle = true
   <-> le (sqDistance px py circle) (sqRadius (Circle.radius circle)) = true)
  /\ (num_eq (sqDistance px py circle) (sqRadius (Circle.radius circle)) = true
      -> ScriptJs.isInCircle px py circle = true)
  /\ (Part000.isInCircle projection Math_cos px py circle = true
      <-> le (sqDistance px py circle)
             (sqRadius (Part000.kmToPixels projection Math_cos
                          (Circle.radius circle))) = true)
  /\ (num_eq (sqDistance px py circle)
             (sqRadius (Part000.kmToPixels projection Math_cos
                          (Circle.radius circle))) = true
      -> Part000.isInCircle projection Math_cos px py circle = true).
Proof.
  unfold ScriptJs.isInCircle, Part000.isInCircle, sqDistance, sqRadius.
  repeat split; intros H; try exact H; apply num_eq_le; exact H.
Qed.

Lemma isInCircle_closed_disc_witness :
  (num_eq (sqDistance (ofZ 3) (ofZ 4) (Sample.circle 0 0 5))
          (sqRadius (ofZ 5)) = true
   /\ ScriptJs.isInCircle (ofZ 3) (ofZ 4) (Sample.circle 0 0 5) = true)
  /\ Part000.isInCircle Sample.pixelProjection Sample.cosSeries
       (Part000.kmToPixels Sample.pixelProjection Sample.cosSeries (ofZ 1))
       (ofZ 0) (Sample.circle 0 0 1) = true.
Proof.
  split.
  - destruct (isInCircle_closed_disc Sample.pixelProjection Sample.cosSeries
                (ofZ 3) (ofZ 4) (Sample.circle 0 0 5)) as (_ & H & _).
    assert (E : num_eq (sqDistance (ofZ 3) (ofZ 4) (Sample.circle 0 0 5))
                       (sqRadius (ofZ 5)) = true)
      by (vm_compute; reflexivity).
    split; [exact E | exact (H E)].
  - destruct (isInCircle_closed_disc Sample.pixelProjection Sample.cosSeries
                (Part000.kmToPixels Sample.pixelProjection Sample.cosSeries
                   (ofZ 1))
                (ofZ 0) (Sample.circle 0 0 1)) as (_ & _ & _ & H).
    apply H. vm_compute. reflexivity.
Defined.

End QueryRegions.

Section Intersection.
Import JS Shared Props.
Variable StringToNumber : jsstring -> number.
Variable projection : number * number -> number * number.
Variable Math_cos : number -> number.

Lemma none_visible_none_shown (visible : ScriptJs.LocationPoint -> bool)
      (l l' : list ScriptJs.LocationPoint) :
  Forall2 (restyledBy visible) l l' ->
  Forall (fun p => visible p = false) l ->
  filter shownLocation l' = [].
Proof.
  induction 1 as [|p p' l l' HR _ IH]; intros HF; [reflexivity|].
  inversion HF as [|? ? Hp Hl]; subst. simpl.
  destruct HR as (_ & _ & _ & _ & Hs). rewrite Hs, Hp. auto.
Qed.

Lemma none_visible_none_shown000 (visible : Part000.LocationPoint -> bool)
      (l l' : list Part000.LocationPoint) :
  Forall2 (restyledBy000 visible) l l' ->
  Forall (fun p => visible p = false) l ->
  filter shownRecord l' = [].
Proof.
  induction 1 as [|p p' l l' HR _ IH]; intros HF; [reflexivity|].
  inversion HF as [|? ? Hp Hl]; subst. simpl.
  destruct HR as (_ & _ & _ & Hs). rewrite Hs, Hp. auto.
Qed.

Lemma filter_nil_Forall {A : Type} (f : A -> bool) (l : list A) :
  filter f l = [] -> Forall (fun a => f a = false) l.
Proof.
  induction l as [|a l IH]; simpl; [constructor|].
  destruct (f a) eqn:E; [discriminate|]. auto.
Qed.

(** C3.  The intersection test is the conjunction of the two membership
    tests and does not depend on which circle is called A; when no
    point lies in both circles, a pass of [updateFilters] completes
    with no point shown and a visible count of 0. *)
Theorem isInIntersection_conjunction
        (st : ScriptJs.State) (st0 : Part000.State) (px py : number) :
  (ScriptJs.isInIntersection (ScriptJs.circleA st) (ScriptJs.circleB st) px py
   = ScriptJs.isInCircle px py (ScriptJs.circleA st)
     && ScriptJs.isInCircle px py (ScriptJs.circleB st)
   /\ ScriptJs.isInIntersection (ScriptJs.circleA (swapCircles st))
        (ScriptJs.circleB (swapCircles st)) px py
      = ScriptJs.isInIntersection (ScriptJs.circleA st) (ScriptJs.circleB st)
          px py
   /\ (Forall (fun p =>
                 ScriptJs.isInIntersection (ScriptJs.circleA st)
                   (ScriptJs.circleB st)
                   (attr_number (ScriptJs.cx p)) (attr_number (ScriptJs.cy p))
                 = false)
              (ScriptJs.location_points st) ->
       let st' := ScriptJs.updateFilters StringToNumber st in
       Forall (fun p' => shownLocation p' = false)
              (ScriptJs.location_points st')
       /\ ScriptJs.visibleCount st' = 0))
  /\ (Part000.isInIntersection projection Math_cos
        (Part000.circleA st0) (Part000.circleB st0) px py
      = Part000.isInCircle projection Math_cos px py (Part000.circleA st0)
        && Part000.isInCircle projection Math_cos px py (Part000.circleB st0)
      /\ Part000.isInIntersection projection Math_cos
           (Part000.circleA (swapCircles000 st0))
           (Part000.circleB (swapCircles000 st0)) px py
         = Part000.isInIntersection projection Math_cos
             (Part000.circleA st0) (Part000.circleB st0) px py
      /\ (Forall (fun p =>
                    Part000.isInIntersection projection Math_cos
                      (Part000.circleA st0) (Part000.circleB st0)
                      (attr_number (Part000.cx p))
                      (attr_number (Part000.cy p))
                    = false)
                 (Part000.location_points st0) ->
          let st' :=
            Part000.updateFilters StringToNumber projection Math_cos st0 in
          Forall (fun p' => shownRecord p' = false)
                 (Part000.location_points st')
          /\ Part000.visibleCount st' = 0)).
Proof.
  split; (split; [reflexivity|]); (split; [apply andb_comm|]); intros HF.
  - destruct (updateFilters_spec StringToNumber st) as (H2 & Hn).
    assert (E : filter shownLocation
                  (ScriptJs.location_points
                     (ScriptJs.updateFilters StringToNumber st)) = []).
    { apply (none_visible_none_shown _ _ _ H2).
      eapply Forall_impl; [|exact HF]. intros p Hp.
      unfold ScriptJs.isVisible. rewrite Hp. reflexivity. }
    split; [apply filter_nil_Forall; exact E|].
    rewrite Hn. unfold shownTotal. rewrite E. reflexivity.
  - destruct (updateFilters000_spec StringToNumber projection Math_cos st0)
      as (H2 & Hn).
    assert (E : filter shownRecord
                  (Part000.location_points
                     (Part000.updateFilters StringToNumber projection
                        Math_cos st0)) = []).
    { apply (none_visible_none_shown000 _ _ _ H2).
      eapply Forall_impl; [|exact HF]. intros p Hp.
      unfold Part000.isVisible. rewrite Hp. reflexivity. }
    split; [apply filter_nil_Forall; exact E|].
    rewrite Hn, E. reflexivity.
Qed.

End Intersection.

Lemma isInIntersection_conjunction_witness :
  ScriptJs.visibleCount
    (ScriptJs.updateFilters Sample.parseDigits Sample.loaded) = 0
  /\ Part000.visibleCount
       (Part000.updateFilters Sample.parseDigits Sample.pixelProjection
          Sample.cosSeries Sample.loaded000) = 0.
Proof.
  destruct (isInIntersection_conjunction Sample.parseDigits
              Sample.pixelProjection Sample.cosSeries
              Sample.loaded Sample.loaded000 (JS.ofZ 0) (JS.ofZ 0))
    as ((_ & _ & H) & (_ & _ & H0)).
  split.
  - apply H. apply Forall_false_forallb. vm_compute. reflexivity.
  - apply H0. apply Forall_false_forallb. vm_compute. reflexivity.
Defined.

(** ** The handlers of the controls *)

Section Handlers.
Import JS Shared Props.
Variable StringToNumber : jsstring -> number.
Variable projection : number * number -> number * number.
Variable Math_cos : number -> number.

Lemma handle_circles (ev : Event) (st : ScriptJs.State) :
  let st' := ScriptJs.handle StringToNumber ev st in
  match ev with
  | DragA event_x event_y =>
      movesOnlyCentre event_x event_y
        (ScriptJs.circleA st) (ScriptJs.circleA st')
        (ScriptJs.circleB st) (ScriptJs.circleB st')
  | DragB event_x event_y =>
      movesOnlyCentre event_x event_y
        (ScriptJs.circleB st) (ScriptJs.circleB st')
        (ScriptJs.circleA st) (ScriptJs.circleA st')
  | RadiusAInput value =>
      setsOnlyRadius value
        (ScriptJs.circleA st) (ScriptJs.circleA st')
        (ScriptJs.circleB st) (ScriptJs.circleB st')
  | RadiusBInput value =>
      setsOnlyRadius value
        (ScriptJs.circleB st) (ScriptJs.circleB st')
        (ScriptJs.circleA st) (ScriptJs.circleA st')
  | _ => True
  end.
Proof.
  destruct ev; cbv zeta; try exact I; unfold ScriptJs.handle;
    match goal with
    | |- context [ScriptJs.updateFilters _ ?s] =>
        destruct (updateFilters_frame StringToNumber s) as (-> & -> & _)
    end;
    unfold movesOnlyCentre, setsOnlyRadius; repeat split.
Qed.

Lemma handle000_circles (ev : Event) (st : Part000.State) :
  let st' := Part000.handle StringToNumber projection Math_cos ev st in
  match ev with
  | DragA event_x event_y =>
      movesOnlyCentre event_x event_y
        (Part000.circleA st) (Part000.circleA st')
        (Part000.circleB st) (Part000.circleB st')
  | DragB event_x event_y =>
      movesOnlyCentre event_x event_y
        (Part000.circleB st) (Part000.circleB st')
        (Part000.circleA st) (Part000.circleA st')
  | RadiusAInput value =>
      setsOnlyRadius value
        (Part000.circleA st) (Part000.circleA st')
        (Part000.circleB st) (Part000.circleB st')
  | RadiusBInput value =>
      setsOnlyRadius value
        (Part000.circleB st) (Part000.circleB st')
        (Part000.circleA st) (Part000.circleA st')
  | _ => True
  end.
Proof.
  destruct ev; cbv zeta; try exact I; unfold Part000.handle;
    match goal with
    | |- context [Part000.updateFilters _ _ _ ?s] =>
        destruct (updateFilters000_frame StringToNumber projection Math_cos s)
          as (-> & -> & _)
    end;
    unfold movesOnlyCentre, setsOnlyRadius; repeat split.
Qed.

Lemma clamped_withinCanvas (event_x event_y : number) (c : Circle.t) :
  isNaN event_x = false -> isNaN event_y = false ->
  Circle.x c = clampTo mapWidth event_x ->
  Circle.y c = clampTo mapHeight event_y ->
  withinCanvas c.
Proof.
  unfold withinCanvas. intros Hx Hy -> ->.
  destruct (clampTo_range mapWidth event_x mapWidth_positive Hx).
  destruct (clampTo_range mapHeight event_y mapHeight_positive Hy).
  repeat split; assumption.
Qed.

(** C10.  A drag event on a query circle changes the centre of that
    circle only, to the position of the event clamped to the canvas; its
    radius and the other circle are untouched.  An input event of a
    radius slider changes the radius of its circle only.  This holds in
    both scripts; the centre lies on the canvas as soon as the
    coordinates of the event are numbers. *)
Theorem drag_and_radius_frame
        (st : ScriptJs.State) (st0 : Part000.State)
        (event_x event_y value : number) :
  isNaN event_x = false -> isNaN event_y = false ->
  let handle := ScriptJs.handle StringToNumber in
  let handle0 := Part000.handle StringToNumber projection Math_cos in
  (movesOnlyCentre event_x event_y
     (ScriptJs.circleA st)
     (ScriptJs.circleA (handle (DragA event_x event_y) st))
     (ScriptJs.circleB st)
     (ScriptJs.circleB (handle (DragA event_x event_y) st))
   /\ withinCanvas (ScriptJs.circleA (handle (DragA event_x event_y) st))
   /\ movesOnlyCentre event_x event_y
        (ScriptJs.circleB st)
        (ScriptJs.circleB (handle (DragB event_x event_y) st))
        (ScriptJs.circleA st)
        (ScriptJs.circleA (handle (DragB event_x event_y) st))
   /\ withinCanvas (ScriptJs.circleB (handle (DragB event_x event_y) st))
   /\ setsOnlyRadius value
        (ScriptJs.circleA st)
        (ScriptJs.circleA (handle (RadiusAInput value) st))
        (ScriptJs.circleB st)
        (ScriptJs.circleB (handle (RadiusAInput value) st))
   /\ setsOnlyRadius value
        (ScriptJs.circleB st)
        (ScriptJs.circleB (handle (RadiusBInput value) st))
        (ScriptJs.circleA st)
        (ScriptJs.circleA (handle (RadiusBInput value) st)))
  /\ (movesOnlyCentre event_x event_y
        (Part000.circleA st0)
        (Part000.circleA (handle0 (DragA event_x event_y) st0))
        (Part000.circleB st0)
        (Part000.circleB (handle0 (DragA event_x event_y) st0))
      /\ withinCanvas (Part000.circleA (handle0 (DragA event_x event_y) st0))
      /\ movesOnlyCentre event_x event_y
           (Part000.circleB st0)
           (Part000.circleB (handle0 (DragB event_x event_y) st0))
           (Part000.circleA st0)
           (Part000.circleA (handle0 (DragB event_x event_y) st0))
      /\ withinCanvas (Part000.circleB (handle0 (DragB event_x event_y) st0))
      /\ setsOnlyRadius value
           (Part000.circleA st0)
           (Part000.circleA (handle0 (RadiusAInput value) st0))
           (Part000.circleB st0)
           (Part000.circleB (handle0 (RadiusAInput value) st0))
      /\ setsOnlyRadius value
           (Part000.circleB st0)
           (Part000.circleB (handle0 (RadiusBInput value) st0))
           (Part000.circleA st0)
           (Part000.circleA (handle0 (RadiusBInput value) st0))).
Proof.
  intros Hx Hy handle handle0. subst handle handle0.
  pose proof (handle_circles (DragA event_x event_y) st) as HA.
  pose proof (handle_circles (DragB event_x event_y) st) as HB.
  pose proof (handle_circles (RadiusAInput value) st) as HRA.
  pose proof (handle_circles (RadiusBInput value) st) as HRB.
  pose proof (handle000_circles (DragA event_x event_y) st0) as HA0.
  pose proof (handle000_circles (DragB event_x event_y) st0) as HB0.
  pose proof (handle000_circles (RadiusAInput value) st0) as HRA0.
  pose proof (handle000_circles (RadiusBInput value) st0) as HRB0.
  cbv zeta in *.
  assert (canvas : forall dragged c other other',
             movesOnlyCentre event_x event_y dragged c other other' ->
             withinCanvas c).
  { intros dragged c other other' (Ex & Ey & _).
    exact (clamped_withinCanvas event_x event_y c Hx Hy Ex Ey). }
  split.
  - split; [exact HA|]. split; [exact (canvas _ _ _ _ HA)|].
    split; [exact HB|]. split; [exact (canvas _ _ _ _ HB)|].
    split; [exact HRA | exact HRB].
  - split; [exact HA0|]. split; [exact (canvas _ _ _ _ HA0)|].
    split; [exact HB0|]. split; [exact (canvas _ _ _ _ HB0)|].
    split; [exact HRA0 | exact HRB0].
Qed.

End Handlers.

Lemma drag_and_radius_frame_witness :
  Props.withinCanvas
    (ScriptJs.circleA
       (ScriptJs.handle Sample.parseDigits
          (Shared.DragA (JS.ofZ 900) (JS.ofZ (-5))) Sample.loaded))
  /\ Props.withinCanvas
       (Part000.circleB
          (Part000.handle Sample.parseDigits Sample.pixelProjection
             Sample.cosSeries
             (Shared.DragB (JS.ofZ 900) (JS.ofZ (-5))) Sample.loaded000)).
Proof.
  pose proof (drag_and_radius_frame Sample.parseDigits Sample.pixelProjection
                Sample.cosSeries Sample.loaded Sample.loaded000
                (JS.ofZ 900) (JS.ofZ (-5)) (JS.ofZ 80) eq_refl eq_refl) as H.
  cbv zeta in H.
  destruct H as ((_ & HA & _) & (_ & _ & _ & HB & _)).
  split; [exact HA | exact HB].
Defined.

Section YearSliders.
Import JS Shared Props.
Variable StringToNumber : jsstring -> number.
Variable projection : number * number -> number * number.
Variable Math_cos : number -> number.

Lemma handle_years (value : number) (st : ScriptJs.State) :
  afterYearMinInput value (ScriptJs.controls st)
    (ScriptJs.controls (ScriptJs.handle StringToNumber (YearMinInput value) st))
  /\ afterYearMaxInput value (ScriptJs.controls st)
       (ScriptJs.controls
          (ScriptJs.handle StringToNumber (YearMaxInput value) st)).
Proof.
  unfold ScriptJs.handle, afterYearMinInput, afterYearMaxInput.
  split;
    match goal with
    | |- context [ScriptJs.updateFilters _ ?s] =>
        destruct (updateFilters_frame StringToNumber s) as (_ & _ & -> & _)
    end;
    cbn [ScriptJs.controls ScriptJs.set_controls with_yearMin with_yearMax
         yearMin yearMax];
    match goal with |- context [if ?b then _ else _] => destruct b end;
    split; reflexivity.
Qed.

Lemma handle000_years (value : number) (st : Part000.State) :
  afterYearMinInput value (Part000.controls st)
    (Part000.controls
       (Part000.handle StringToNumber projection Math_cos
          (YearMinInput value) st))
  /\ afterYearMaxInput value (Part000.controls st)
       (Part000.controls
          (Part000.handle StringToNumber projection Math_cos
             (YearMaxInput value) st)).
Proof.
  unfold Part000.handle, afterYearMinInput, afterYearMaxInput.
  split;
    match goal with
    | |- context [Part000.updateFilters _ _ _ ?s] =>
        destruct (updateFilters000_frame StringToNumber projection Math_cos s)
          as (_ & _ & -> & _)
    end;
    cbn [Part000.controls Part000.set_controls with_yearMin with_yearMax
         yearMin yearMax];
    match goal with |- context [if ?b then _ else _] => destruct b end;
    split; reflexivity.
Qed.

Lemma afterYearMinInput_ordered (value : number) (c c' : Controls) :
  isNaN value = false -> isNaN (yearMax c) = false ->
  afterYearMinInput value c c' -> yearsOrdered c'.
Proof.
  intros Hv Hm (Emin & Emax). unfold yearsOrdered. rewrite Emin, Emax.
  destruct (gt value (yearMax c)) eqn:E.
  - apply le_refl. exact Hv.
  - apply not_gt_le; assumption.
Qed.

Lemma afterYearMaxInput_ordered (value : number) (c c' : Controls) :
  isNaN value = false -> isNaN (yearMin c) = false ->
  afterYearMaxInput value c c' -> yearsOrdered c'.
Proof.
  intros Hv Hm (Emax & Emin). unfold yearsOrdered. rewrite Emin, Emax.
  destruct (lt value (yearMin c)) eqn:E.
  - apply le_refl. exact Hv.
  - apply not_gt_le; assumption.
Qed.

(** C7, as the scripts have it.  After an input event of a year slider,
    [yearMin <= yearMax] holds; the slider that was moved keeps the
    value of the event, and the other slider is moved to that value when
    the two would cross.  The values of the sliders are numbers. *)
Theorem year_sliders_stay_ordered
        (st : ScriptJs.State) (st0 : Part000.State) (value : number) :
  isNaN value = false ->
  isNaN (yearMin (ScriptJs.controls st)) = false ->
  isNaN (yearMax (ScriptJs.controls st)) = false ->
  isNaN (yearMin (Part000.controls st0)) = false ->
  isNaN (yearMax (Part000.controls st0)) = false ->
  let handle := ScriptJs.handle StringToNumber in
  let handle0 := Part000.handle StringToNumber projection Math_cos in
  (afterYearMinInput value (ScriptJs.controls st)
     (ScriptJs.controls (handle (YearMinInput value) st))
   /\ yearsOrdered (ScriptJs.controls (handle (YearMinInput value) st))
   /\ afterYearMaxInput value (ScriptJs.controls st)
        (ScriptJs.controls (handle (YearMaxInput value) st))
   /\ yearsOrdered (ScriptJs.controls (handle (YearMaxInput value) st)))
  /\ (afterYearMinInput value (Part000.controls st0)
        (Part000.controls (handle0 (YearMinInput value) st0))
      /\ yearsOrdered (Part000.controls (handle0 (YearMinInput value) st0))
      /\ afterYearMaxInput value (Part000.controls st0)
           (Part000.controls (handle0 (YearMaxInput value) st0))
      /\ yearsOrdered (Part000.controls (handle0 (YearMaxInput value) st0))).
Proof.
  intros Hv Hmin Hmax Hmin0 Hmax0 handle handle0. subst handle handle0.
  destruct (handle_years value st) as (H1 & H2).
  destruct (handle000_years value st0) as (H3 & H4).
  split.
  - split; [exact H1|].
    split; [exact (afterYearMinInput_ordered _ _ _ Hv Hmax H1)|].
    split; [exact H2|].
    exact (afterYearMaxInput_ordered _ _ _ Hv Hmin H2).
  - split; [exact H3|].
    split; [exact (afterYearMinInput_ordered _ _ _ Hv Hmax0 H3)|].
    split; [exact H4|].
    exact (afterYearMaxInput_ordered _ _ _ Hv Hmin0 H4).
Qed.

End YearSliders.

Lemma year_sliders_stay_ordered_witness :
  Props.yearsOrdered
    (ScriptJs.controls
       (ScriptJs.handle Sample.parseDigits
          (Shared.YearMinInput (JS.ofZ 1980)) Sample.narrowed))
  /\ Props.yearsOrdered
       (Part000.controls
          (Part000.handle Sample.parseDigits Sample.pixelProjection
             Sample.cosSeries
             (Shared.YearMaxInput (JS.ofZ 1980)) Sample.narrowed000)).
Proof.
  pose proof (year_sliders_stay_ordered Sample.parseDigits
                Sample.pixelProjection Sample.cosSeries
                Sample.narrowed Sample.narrowed000 (JS.ofZ 1980)
                eq_refl eq_refl eq_refl eq_refl eq_refl) as H.
  cbv zeta in H.
  destruct H as ((_ & HA & _) & (_ & _ & _ & HB)).
  split; [exact HA | exact HB].
Defined.

(** C7, as the spec has it, fails: with the sliders at 1915 and 1950, an
    input event moving the lower slider to 1980 leaves that slider at
    1980, above the former upper bound, and moves the upper slider,
    which the user did not touch, from 1950 to 1980. *)
Lemma year_slider_moved_bound_not_clamped :
  Shared.yearMax (ScriptJs.controls Sample.narrowed) = JS.ofZ 1950
  /\ Shared.yearMin
       (ScriptJs.controls
          (ScriptJs.handle Sample.parseDigits
             (Shared.YearMinInput (JS.ofZ 1980)) Sample.narrowed))
     = JS.ofZ 1980
  /\ Shared.yearMax
       (ScriptJs.controls
          (ScriptJs.handle Sample.parseDigits
             (Shared.YearMinInput (JS.ofZ 1980)) Sample.narrowed))
     = JS.ofZ 1980
  /\ JS.le
       (Shared.yearMin
          (ScriptJs.controls
             (ScriptJs.handle Sample.parseDigits
                (Shared.YearMinInput (JS.ofZ 1980)) Sample.narrowed)))
       (Shared.yearMax (ScriptJs.controls Sample.narrowed))
     = false.
Proof.
  vm_compute. repeat split; reflexivity.
Qed.

(** ** The conditions on one row *)

Section RowConditions.
Import JS Shared Props.
Variable StringToNumber : jsstring -> number.

(** C8.  A row passes the year condition for every range exactly when
    its release year is absent: missing, not a number, or empty.  For
    such a row the bounds play no part, NaN bounds included, and
    whether the row matches is decided by the director and the
    neighbourhood alone, in both scripts. *)
Theorem missing_year_matches_any_range (movie : FilmRecord) :
  (yearAbsent StringToNumber movie = true
   <-> forall yearMin yearMax,
         inYearRange StringToNumber yearMin yearMax movie = true)
  /\ (yearAbsent StringToNumber movie = true ->
      forall yearMin yearMax selectedDirector selectedNeighborhood,
        ScriptJs.movieMatches StringToNumber yearMin yearMax
          selectedDirector selectedNeighborhood movie
        = directorMatch selectedDirector movie
          && neighborhoodMatch selectedNeighborhood movie
        /\ Part000.recordMatches StringToNumber yearMin yearMax
             selectedDirector selectedNeighborhood movie
           = directorMatch selectedDirector movie
             && neighborhoodMatch selectedNeighborhood movie).
Proof.
  assert (Hall : yearAbsent StringToNumber movie = true ->
                 forall yearMin yearMax,
                   inYearRange StringToNumber yearMin yearMax movie = true).
  { unfold yearAbsent, inYearRange, ToNumber. intros H yearMin yearMax.
    destruct (Release_Year movie) as [s|]; [|reflexivity].
    destruct (StringToNumber s); try discriminate; reflexivity. }
  split; [split; [exact Hall|] |].
  - intros H. specialize (H NaN NaN).
    unfold yearAbsent. unfold inYearRange, ToNumber in H.
    destruct (Release_Year movie) as [s|]; [|reflexivity].
    destruct (StringToNumber s) as [sg|sg| |sg m e];
      try reflexivity; discriminate H.
  - intros H yearMin yearMax selectedDirector selectedNeighborhood.
    unfold ScriptJs.movieMatches, Part000.recordMatches.
    rewrite (Hall H). auto.
Qed.

End RowConditions.

Lemma missing_year_matches_any_range_witness :
  Shared.inYearRange Sample.parseDigits (JS.ofZ 1960) (JS.ofZ 2023)
    Sample.filmNoYear = true
  /\ Shared.inYearRange Sample.parseDigits (JS.ofZ 1960) (JS.ofZ 2023)
       Sample.filmEmptyYear = true
  /\ Props.yearAbsent Sample.parseDigits Sample.film1950 = false.
Proof.
  split; [|split].
  - apply (proj1 (missing_year_matches_any_range Sample.parseDigits
                    Sample.filmNoYear)). reflexivity.
  - apply (proj1 (missing_year_matches_any_range Sample.parseDigits
                    Sample.filmEmptyYear)). reflexivity.
  - reflexivity.
Defined.

(** ** Strings, sets of strings and the options of the selects *)

Section Strings.
Import JS Shared Props.

Lemma str_eqb_eq (s t : jsstring) : str_eqb s t = true <-> s = t.
Proof.
  unfold str_eqb. destruct (str_eq_dec s t); split; congruence.
Qed.

Lemma str_eqb_refl (s : jsstring) : str_eqb s s = true.
Proof. apply str_eqb_eq. reflexivity. Qed.

Lemma str_eqb_neq (s t : jsstring) : str_eqb s t = false <-> s <> t.
Proof.
  unfold str_eqb. destruct (str_eq_dec s t); split; congruence.
Qed.

(** [trimStart] returns a suffix that is empty or starts with a code
    unit that is not white space. *)
Lemma trimStart_suffix (s : jsstring) :
  exists ws, s = ws ++ trimStart s.
Proof.
  induction s as [|c s (ws & IH)]; [exists []; reflexivity|]. simpl.
  destruct (is_whitespace c).
  - exists (c :: ws). simpl. congruence.
  - exists []. reflexivity.
Qed.

Lemma trimStart_fixed (c : N) (s : jsstring) :
  is_whitespace c = false -> trimStart (c :: s) = c :: s.
Proof. intros H. simpl. rewrite H. reflexivity. Qed.

Lemma trimStart_head (s : jsstring) :
  trimStart s = []
  \/ exists c s', trimStart s = c :: s' /\ is_whitespace c = false.
Proof.
  induction s as [|c s IH]; [left; reflexivity|]. simpl.
  destruct (is_whitespace c) eqn:E; [exact IH|]. right. eauto.
Qed.

Lemma trimStart_idempotent (s : jsstring) :
  trimStart (trimStart s) = trimStart s.
Proof.
  destruct (trimStart_head s) as [-> | (c & s' & -> & Hc)]; [reflexivity|].
  apply trimStart_fixed. exact Hc.
Qed.

(** A prefix of a string that starts with no white space starts with no
    white space either. *)
Lemma trimStart_prefix (c : N) (s t u : jsstring) :
  is_whitespace c = false -> c :: s = t ++ u -> trimStart t = t.
Proof.
  intros Hc E. destruct t as [|c' t]; [reflexivity|].
  simpl in E. injection E as <- _. apply trimStart_fixed. exact Hc.
Qed.

Lemma trim_idempotent (s : jsstring) : trim (trim s) = trim s.
Proof.
  unfold trim, trimEnd.
  set (u := trimStart s).
  set (v := trimStart (rev u)).
  assert (Hv : trimStart (rev v) = rev v).
  { destruct (trimStart_head s) as [E | (c & s' & E & Hc)]; fold u in E.
    - subst v. rewrite E. reflexivity.
    - destruct (trimStart_suffix (rev u)) as (ws & Hws). fold v in Hws.
      apply (trimStart_prefix c s' (rev v) (rev ws) Hc).
      rewrite <- E, <- rev_app_distr, <- Hws, rev_involutive. reflexivity. }
  rewrite Hv, rev_involutive. subst v. rewrite trimStart_idempotent.
  reflexivity.
Qed.

Lemma sort_insert_In (x v : jsstring) (l : list jsstring) :
  In x (sort_insert v l) <-> x = v \/ In x l.
Proof.
  induction l as [|w l IH]; simpl; [intuition congruence|].
  destruct (str_leb v w); simpl; rewrite ?IH; intuition congruence.
Qed.

(** Sorting neither adds nor drops an option. *)
Lemma sort_In (x : jsstring) (l : list jsstring) : In x (sort l) <-> In x l.
Proof.
  unfold sort. induction l as [|w l IH]; simpl; [tauto|].
  rewrite sort_insert_In, IH. intuition congruence.
Qed.

Lemma set_add_In (x v : jsstring) (s : list jsstring) :
  In x (set_add v s) <-> x = v \/ In x s.
Proof.
  unfold set_add, set_has. destruct (existsb (str_eqb v) s) eqn:E.
  - apply existsb_exists in E. destruct E as (w & Hw & Hv).
    apply str_eqb_eq in Hv. subst w. intuition congruence.
  - rewrite in_app_iff. simpl. intuition congruence.
Qed.

Lemma trim_nil : trim [] = [].
Proof. reflexivity. Qed.

Lemma uniqueValues_fold (field : FilmRecord -> option jsstring)
      (data : list FilmRecord) :
  forall (values : list jsstring) (x : jsstring),
    In x (fold_left
            (fun values d =>
               match field d with
               | Some value =>
                   if truthy_string value
                      && negb (str_eqb (trim value) (str ""))
                   then set_add (trim value) values
                   else values
               | None => values
               end)
            data values)
    <-> In x values
        \/ exists d value, In d data /\ field d = Some value
                           /\ trim value = x /\ x <> [].
Proof.
  induction data as [|d data IH]; intros values x; simpl.
  - split; [auto | intros [H | (d & v & [] & _)]; exact H].
  - rewrite IH. clear IH. split.
    + intros [H | (d' & v & Hd & Hf & Ht & Hx)].
      * destruct (field d) as [value|] eqn:Ef; [|auto].
        destruct (truthy_string value
                  && negb (str_eqb (trim value) (str ""))) eqn:Eb; [|auto].
        apply set_add_In in H. destruct H as [-> | H]; [|auto].
        right. exists d, value. apply andb_true_iff in Eb.
        destruct Eb as (_ & Eb). apply negb_true_iff, str_eqb_neq in Eb.
        auto.
      * right. exists d', v. auto.
    + intros [H | (d' & v & [<- | Hd] & Hf & Ht & Hx)].
      * left. destruct (field d) as [value|]; [|exact H].
        destruct (truthy_string value
                  && negb (str_eqb (trim value) (str ""))); [|exact H].
        apply set_add_In. auto.
      * left. rewrite Hf.
        assert (Eb : truthy_string v
                     && negb (str_eqb (trim v) (str "")) = true).
        { apply andb_true_iff. split.
          - destruct v; [|reflexivity]. rewrite trim_nil in Ht. congruence.
          - apply negb_true_iff, str_eqb_neq. rewrite Ht. exact Hx. }
        rewrite Eb. apply set_add_In. auto.
      * right. exists d', v. auto.
Qed.

(** The options [getUniqueValues] produces are the trimmed values of the
    field that are not empty. *)
Lemma getUniqueValues_In (data : list FilmRecord)
      (field : FilmRecord -> option jsstring) (x : jsstring) :
  In x (getUniqueValues data field)
  <-> exists d value, In d data /\ field d = Some value
                      /\ trim value = x /\ x <> [].
Proof.
  unfold getUniqueValues. rewrite sort_In, uniqueValues_fold. simpl.
  intuition.
Qed.

(** A blank field is no option, and no option equals it. *)
Lemma blank_not_option (data : list FilmRecord)
      (field : FilmRecord -> option jsstring) (v : option jsstring)
      (selected : jsstring) :
  isBlank v -> In selected (getUniqueValues data field) ->
  strict_eq v selected = false.
Proof.
  intros Hb Hs. destruct v as [value|]; [|reflexivity]. simpl in *.
  apply str_eqb_neq. intros ->.
  apply getUniqueValues_In in Hs. destruct Hs as (d & w & _ & _ & Ht & Hx).
  apply Hx. rewrite <- Hb, <- Ht. symmetry. apply trim_idempotent.
Qed.

End Strings.

Section BlankCategories.
Import JS Shared Props.
Variable StringToNumber : jsstring -> number.

(** C9.  A row whose director (or neighbourhood) is missing, empty or
    white space only contributes no option to the select of that field:
    its raw value is not among the options.  When a specific option,
    other than ["all"], is selected, the row fails the comparison on
    that field and is not counted by either script. *)
Theorem blank_category_never_matches
        (data : list FilmRecord) (d : FilmRecord) (selected other : jsstring)
        (yearMin yearMax : number) :
  selected <> str "all" ->
  (isBlank (Director d) ->
   (forall value, Director d = Some value ->
                  ~ In value (getUniqueValues data Director))
   /\ (In selected (getUniqueValues data Director) ->
       directorMatch selected d = false
       /\ ScriptJs.movieMatches StringToNumber yearMin yearMax
            selected other d = false
       /\ Part000.recordMatches StringToNumber yearMin yearMax
            selected other d = false))
  /\ (isBlank (Analysis_Neighborhood d) ->
      (forall value, Analysis_Neighborhood d = Some value ->
                     ~ In value (getUniqueValues data Analysis_Neighborhood))
      /\ (In selected (getUniqueValues data Analysis_Neighborhood) ->
          neighborhoodMatch selected d = false
          /\ ScriptJs.movieMatches StringToNumber yearMin yearMax
               other selected d = false
          /\ Part000.recordMatches StringToNumber yearMin yearMax
               other selected d = false)).
Proof.
  intros Hall. apply str_eqb_neq in Hall.
  assert (raw : forall field value,
             isBlank (field d) -> field d = Some value ->
             ~ In value (getUniqueValues data field)).
  { intros field value Hb Hf Hin. rewrite Hf in Hb. simpl in Hb.
    apply getUniqueValues_In in Hin.
    destruct Hin as (d' & w & _ & _ & Ht & Hx).
    apply Hx. rewrite <- Hb, <- Ht. symmetry. apply trim_idempotent. }
  split; intros Hb; (split; [intros value; apply raw; exact Hb|]);
    intros Hin.
  - assert (E : directorMatch selected d = false).
    { unfold directorMatch. rewrite Hall.
      rewrite (blank_not_option data Director _ selected Hb Hin).
      reflexivity. }
    unfold ScriptJs.movieMatches, Part000.recordMatches. rewrite E.
    rewrite !andb_false_r. auto.
  - assert (E : neighborhoodMatch selected d = false).
    { unfold neighborhoodMatch. rewrite Hall.
      rewrite (blank_not_option data Analysis_Neighborhood _ selected Hb Hin).
      reflexivity. }
    unfold ScriptJs.movieMatches, Part000.recordMatches. rewrite E.
    rewrite !andb_false_r. auto.
Qed.

End BlankCategories.

Lemma blank_category_never_matches_witness :
  ScriptJs.movieMatches Sample.parseDigits (JS.ofZ 1915) (JS.ofZ 2023)
    (JS.str "X") (JS.str "all") Sample.filmBlank = false
  /\ Part000.recordMatches Sample.parseDigits (JS.ofZ 1915) (JS.ofZ 2023)
       (JS.str "all") (JS.str "Mission") Sample.filmBlank = false.
Proof.
  assert (HX : JS.str "X" <> JS.str "all") by discriminate.
  assert (HM : JS.str "Mission" <> JS.str "all") by discriminate.
  destruct (blank_category_never_matches Sample.parseDigits
              [Sample.film1950; Sample.filmBlank] Sample.filmBlank
              (JS.str "X") (JS.str "all") (JS.ofZ 1915) (JS.ofZ 2023) HX)
    as (HD & _).
  destruct (blank_category_never_matches Sample.parseDigits
              [Sample.film1950; Sample.filmBlank] Sample.filmBlank
              (JS.str "Mission") (JS.str "all") (JS.ofZ 1915) (JS.ofZ 2023) HM)
    as (_ & HN).
  split.
  - apply HD; [reflexivity | left; reflexivity].
  - apply HN; [reflexivity | left; reflexivity].
Defined.

(** ** The location aggregator of [src/script.js] *)

Section Aggregator.
Import JS Shared Props ScriptJs.

Lemma map_has_In (key : jsstring) (m : LocationMap) :
  map_has key m = true <-> In key (map fst m).
Proof.
  unfold map_has. rewrite existsb_exists, in_map_iff. split.
  - intros (e & He & Hk). apply str_eqb_eq in Hk. eauto.
  - intros (e & Hk & He). exists e. split; [exact He|].
    apply str_eqb_eq. exact Hk.
Qed.

Lemma map_set_absent (key : jsstring) (v : Location) (m : LocationMap) :
  map_has key m = false -> map_set key v m = m ++ [(key, v)].
Proof.
  unfold map_has. induction m as [|[k w] m IH]; simpl; [reflexivity|].
  intros H. apply orb_false_iff in H. destruct H as (Hk & Hm).
  rewrite Hk, (IH Hm). reflexivity.
Qed.

Lemma push_movie_keys (key : jsstring) (d : FilmRecord) (m : LocationMap) :
  map fst (push_movie key d m) = map fst m.
Proof.
  induction m as [|[k loc] m IH]; simpl; [reflexivity|].
  destruct (str_eqb k key); simpl; congruence.
Qed.

(** With one entry per key, [push_movie] changes the entry of [key] and
    no other. *)
Lemma push_movie_In (key : jsstring) (d : FilmRecord) (m : LocationMap) :
  NoDup (map fst m) ->
  forall k' loc',
    In (k', loc') (push_movie key d m) ->
    (k' <> key /\ In (k', loc') m)
    \/ (k' = key
        /\ exists loc, In (key, loc) m /\ movies loc' = movies loc ++ [d]).
Proof.
  induction m as [|[k loc] m IH]; simpl; intros Hnd k' loc' Hin; [tauto|].
  inversion Hnd as [|? ? Hk Hnd']; subst.
  destruct (str_eqb k key) eqn:E.
  - apply str_eqb_eq in E. subst k. destruct Hin as [Hin | Hin].
    + injection Hin as <- <-. right. split; [reflexivity|].
      exists loc. auto.
    + left. split; [|auto]. intros ->. apply Hk.
      apply in_map_iff. exists (key, loc'). auto.
  - apply str_eqb_neq in E. destruct Hin as [Hin | Hin].
    + injection Hin as <- <-. auto.
    + destruct (IH Hnd' k' loc' Hin) as [(Hne & H) | (-> & l & H & Hm)].
      * auto.
      * right. split; [reflexivity|]. exists l. auto.
Qed.

Lemma membersOf_snoc (key : jsstring) (done : list FilmRecord)
      (d : FilmRecord) :
  membersOf key (done ++ [d])
  = membersOf key done ++ (if str_eqb (coordinateKey d) key then [d] else []).
Proof.
  unfold membersOf. rewrite filter_app. simpl.
  destruct (str_eqb (coordinateKey d) key); reflexivity.
Qed.

Lemma grouped_step (done : list FilmRecord) (m : LocationMap)
      (d : FilmRecord) :
  grouped done m -> grouped (done ++ [d]) (addToLocationMap m d).
Proof.
  intros (Hnd & Hmem & Hkeys). unfold addToLocationMap.
  set (key := coordinateKey d).
  set (fresh := {| longitude := Longitude d; latitude := Latitude d;
                   movies := []; data := d |}).
  set (m1 := if negb (map_has key m) then map_set key fresh m else m).
  assert (Hfresh : map_has key m = false -> membersOf key done = []).
  { intros Hno. unfold membersOf.
    destruct (filter _ done) as [|d' l] eqn:E; [reflexivity|].
    assert (Hd' : In d' (filter (fun d0 => str_eqb (coordinateKey d0) key)
                           done)) by (rewrite E; left; reflexivity).
    apply filter_In in Hd'. destruct Hd' as (Hd' & Hk).
    apply str_eqb_eq in Hk. apply Hkeys in Hd'. rewrite Hk in Hd'.
    apply map_has_In in Hd'. congruence. }
  assert (H1 : NoDup (map fst m1)
               /\ In key (map fst m1)
               /\ (forall k, In k (map fst m) -> In k (map fst m1))
               /\ (forall k loc, In (k, loc) m1 ->
                                 movies loc = membersOf k done
                                 /\ (k <> key -> movies loc <> []))).
  { subst m1. destruct (map_has key m) eqn:Eh; simpl.
    - repeat split; auto.
      + apply map_has_In. exact Eh.
      + apply (Hmem k loc H).
      + intros _. apply (Hmem k loc H).
    - rewrite (map_set_absent key fresh m Eh), map_app. simpl.
      repeat split.
      + apply NoDup_app; [exact Hnd | repeat constructor; simpl; tauto |].
        intros k Hk [<- | []]. apply map_has_In in Hk. congruence.
      + apply in_or_app. right. left. reflexivity.
      + intros k Hk. apply in_or_app. auto.
      + apply in_app_or in H. destruct H as [H | [H | []]].
        * apply (Hmem k loc H).
        * injection H as <- <-. simpl. symmetry. apply Hfresh. reflexivity.
      + apply in_app_or in H. destruct H as [H | [H | []]].
        * intros _. apply (Hmem k loc H).
        * injection H as <- <-. intros Hne. congruence. }
  destruct H1 as (Hnd1 & Hkey1 & Hsub1 & Hmem1).
  split; [rewrite push_movie_keys; exact Hnd1|]. split.
  - intros k' loc' Hin.
    destruct (push_movie_In key d m1 Hnd1 k' loc' Hin)
      as [(Hne & H) | (-> & loc & H & Hm)].
    + destruct (Hmem1 k' loc' H) as (E1 & E2).
      rewrite membersOf_snoc. fold key.
      assert (E : str_eqb key k' = false) by (apply str_eqb_neq; congruence).
      rewrite E, app_nil_r. auto.
    + destruct (Hmem1 key loc H) as (E1 & _).
      rewrite membersOf_snoc, Hm, E1. fold key. rewrite str_eqb_refl.
      split; [reflexivity|]. destruct (membersOf key done); discriminate.
  - intros d' Hd'. rewrite push_movie_keys.
    apply in_app_or in Hd'. destruct Hd' as [Hd' | [<- | []]].
    + apply Hsub1, Hkeys, Hd'.
    + exact Hkey1.
Qed.

Lemma grouped_fold (l : list FilmRecord) :
  forall done m, grouped done m ->
                 grouped (done ++ l) (fold_left addToLocationMap l m).
Proof.
  induction l as [|d l IH]; intros done m H; simpl.
  - rewrite app_nil_r. exact H.
  - replace (done ++ d :: l) with ((done ++ [d]) ++ l)
      by (rewrite <- app_assoc; reflexivity).
    apply IH, grouped_step, H.
Qed.

Lemma buildLocationMap_grouped (allData : list FilmRecord) :
  grouped allData (buildLocationMap allData).
Proof.
  apply (grouped_fold allData [] []).
  split; [constructor|]. split; simpl; intros; tauto.
Qed.

End Aggregator.

Section AggregatorClaims.
Import JS Shared Props ScriptJs.

Lemma NoDup_fst_functional {A B : Type} (m : list (A * B)) (k : A)
      (v w : B) :
  NoDup (map fst m) -> In (k, v) m -> In (k, w) m -> v = w.
Proof.
  induction m as [|[k0 v0] m IH]; simpl; intros Hnd Hv Hw; [tauto|].
  inversion Hnd as [|? ? Hk Hnd']; subst.
  assert (Hfst : forall u, In (k0, u) m -> False).
  { intros u Hu. apply Hk. apply in_map_iff. exists (k0, u). auto. }
  destruct Hv as [Hv | Hv], Hw as [Hw | Hw].
  - congruence.
  - injection Hv as <- <-. destruct (Hfst w Hw).
  - injection Hw as <- <-. destruct (Hfst v Hv).
  - exact (IH Hnd' Hv Hw).
Qed.

(** The aggregator by keys: one location per coordinate key, the
    location of a key holding the rows of that key, and every row in
    the location of its key only. *)
Lemma locationMap_by_key (allData : list FilmRecord) :
  let locationMap := buildLocationMap allData in
  NoDup (map fst locationMap)
  /\ (forall key loc,
         In (key, loc) locationMap ->
         movies loc = membersOf key allData /\ movies loc <> [])
  /\ (forall d,
         In d allData ->
         exists loc,
           In (coordinateKey d, loc) locationMap
           /\ In loc (locationData allData)
           /\ In d (movies loc)
           /\ forall loc', In loc' (locationData allData) ->
                           In d (movies loc') -> loc' = loc).
Proof.
  destruct (buildLocationMap_grouped allData) as (Hnd & Hmem & Hkeys).
  cbv zeta. split; [exact Hnd|]. split; [exact Hmem|].
  intros d Hd.
  pose proof (Hkeys d Hd) as Hk. apply in_map_iff in Hk.
  destruct Hk as ([k loc] & Ek & Hin). simpl in Ek. subst k.
  assert (Hmine : forall key' loc',
             In (key', loc') (buildLocationMap allData) ->
             In d (movies loc') -> key' = coordinateKey d).
  { intros key' loc' Hin' Hd'. destruct (Hmem key' loc' Hin') as (E & _).
    rewrite E in Hd'. apply filter_In in Hd'. destruct Hd' as (_ & Hd').
    apply str_eqb_eq in Hd'. congruence. }
  exists loc. split; [exact Hin|]. split.
  { unfold locationData. apply in_map_iff. exists (coordinateKey d, loc).
    auto. }
  split.
  { destruct (Hmem _ loc Hin) as (E & _). rewrite E.
    apply filter_In. split; [exact Hd | apply str_eqb_refl]. }
  intros loc' Hloc' Hd'. unfold locationData in Hloc'.
  apply in_map_iff in Hloc'. destruct Hloc' as ([k' l'] & El & Hin').
  simpl in El. subst l'.
  rewrite (Hmine k' loc' Hin' Hd') in Hin'.
  exact (NoDup_fst_functional _ _ _ _ Hnd Hin' Hin).
Qed.

Lemma sameField_eq (v w : option jsstring) :
  sameField v w = true <-> v = w.
Proof.
  destruct v as [s|], w as [t|]; simpl; try (split; congruence).
  rewrite str_eqb_eq. split; congruence.
Qed.

(** A string without a comma, then a comma, then a string: the three
    parts can be read back. *)
Lemma comma_splits (s1 s2 t1 t2 : jsstring) :
  existsb (N.eqb 44) s1 = false -> existsb (N.eqb 44) s2 = false ->
  s1 ++ 44%N :: t1 = s2 ++ 44%N :: t2 -> s1 = s2 /\ t1 = t2.
Proof.
  revert s2. induction s1 as [|c s1 IH]; intros [|c2 s2] H1 H2 E; simpl in *.
  - injection E as E. auto.
  - injection E as Ec E. subst c2. discriminate H2.
  - injection E as Ec E. subst c. discriminate H1.
  - injection E as Ec E. subst c2.
    apply orb_false_iff in H1. apply orb_false_iff in H2.
    destruct (IH s2 (proj2 H1) (proj2 H2) E) as (-> & ->). auto.
Qed.

(** On rows with plain coordinates the key tells the coordinates. *)
Lemma coordinateKey_tells (d1 d2 : FilmRecord) :
  plainCoordinates d1 = true -> plainCoordinates d2 = true ->
  (coordinateKey d1 = coordinateKey d2 <-> sameCoordinates d1 d2).
Proof.
  unfold plainCoordinates, coordinateKey, sameCoordinates.
  destruct (Longitude d1) as [lon1|], (Latitude d1) as [lat1|];
    try discriminate;
    destruct (Longitude d2) as [lon2|], (Latitude d2) as [lat2|];
    try discriminate.
  intros H1 H2. apply negb_true_iff in H1. apply negb_true_iff in H2.
  cbn [ToString]. split.
  - intros E. change (str ",") with [44%N] in E. cbn [app] in E.
    destruct (comma_splits _ _ _ _ H1 H2 E) as (-> & ->). auto.
  - intros (E1 & E2). congruence.
Qed.

Lemma membersOf_recordsAt (allData : list FilmRecord) (d : FilmRecord) :
  forallb plainCoordinates allData = true -> In d allData ->
  membersOf (coordinateKey d) allData = recordsAt d allData.
Proof.
  intros Hplain Hd. rewrite forallb_forall in Hplain.
  unfold membersOf, recordsAt. apply filter_ext_in. intros d' Hd'.
  pose proof (coordinateKey_tells d' d (Hplain d' Hd') (Hplain d Hd)) as H.
  unfold sameCoordinates in H. rewrite <- !sameField_eq in H.
  rewrite <- andb_true_iff, <- str_eqb_eq in H.
  destruct (str_eqb (coordinateKey d') (coordinateKey d)),
    (sameField (Longitude d') (Longitude d)
     && sameField (Latitude d') (Latitude d));
    try reflexivity; destruct H as (H1 & H2);
    [discriminate (H1 eq_refl) | discriminate (H2 eq_refl)].
Qed.

(** C4.  On rows whose coordinates are written as numbers are, the
    aggregator keeps one location per pair of raw coordinates.  Two
    rows have the same key exactly when they have the same raw
    longitude and latitude; the location of a row holds exactly the
    rows of [allData] with the coordinates of that row, in their order,
    so its member count is their number; every row of [allData] is a
    member of one location and of no other; and rows with the same
    coordinates are members of the same location. *)
Theorem aggregator_one_location_per_key (allData : list FilmRecord) :
  forallb plainCoordinates allData = true ->
  let locationMap := buildLocationMap allData in
  NoDup (map fst locationMap)
  /\ (forall d1 d2,
         In d1 allData -> In d2 allData ->
         (coordinateKey d1 = coordinateKey d2 <-> sameCoordinates d1 d2))
  /\ (forall key loc,
         In (key, loc) locationMap ->
         movies loc <> []
         /\ forall d,
              In d (movies loc) ->
              key = coordinateKey d
              /\ movies loc = recordsAt d allData
              /\ length (movies loc) = length (recordsAt d allData))
  /\ (forall d,
         In d allData ->
         exists loc,
           In loc (locationData allData)
           /\ In d (movies loc)
           /\ forall loc', In loc' (locationData allData) ->
                           In d (movies loc') -> loc' = loc)
  /\ (forall d1 d2 loc1 loc2,
         In loc1 (locationData allData) -> In loc2 (locationData allData) ->
         In d1 (movies loc1) -> In d2 (movies loc2) ->
         sameCoordinates d1 d2 -> loc1 = loc2).
Proof.
  intros Hplain. cbv zeta.
  destruct (locationMap_by_key allData) as (Hnd & Hmem & Hone).
  cbv zeta in Hnd, Hmem, Hone.
  assert (Hp : forall d, In d allData -> plainCoordinates d = true)
    by (apply forallb_forall; exact Hplain).
  assert (Hmember : forall key loc d,
             In (key, loc) (buildLocationMap allData) ->
             In d (movies loc) ->
             In d allData /\ key = coordinateKey d).
  { intros key loc d Hin Hd. destruct (Hmem key loc Hin) as (E & _).
    rewrite E in Hd. apply filter_In in Hd. destruct Hd as (Hd & Hk).
    apply str_eqb_eq in Hk. auto. }
  split; [exact Hnd|]. split.
  { intros d1 d2 H1 H2. apply coordinateKey_tells; auto. }
  split.
  { intros key loc Hin. destruct (Hmem key loc Hin) as (E & Hne).
    split; [exact Hne|]. intros d Hd.
    destruct (Hmember key loc d Hin Hd) as (Hd' & Ek).
    split; [exact Ek|].
    assert (E' : movies loc = recordsAt d allData)
      by (rewrite E, Ek; apply membersOf_recordsAt; assumption).
    split; [exact E' | rewrite E'; reflexivity]. }
  split.
  { intros d Hd. destruct (Hone d Hd) as (loc & _ & Hloc & Hdl & Huniq).
    exists loc. auto. }
  intros d1 d2 loc1 loc2 Hl1 Hl2 Hd1 Hd2 Hsame.
  unfold locationData in Hl1, Hl2.
  apply in_map_iff in Hl1. destruct Hl1 as ([k1 l1] & E1 & Hin1).
  apply in_map_iff in Hl2. destruct Hl2 as ([k2 l2] & E2 & Hin2).
  simpl in E1, E2. subst l1 l2.
  destruct (Hmember k1 loc1 d1 Hin1 Hd1) as (Ha1 & Ek1).
  destruct (Hmember k2 loc2 d2 Hin2 Hd2) as (Ha2 & Ek2).
  assert (Ek : k2 = k1).
  { rewrite Ek1, Ek2. symmetry. apply coordinateKey_tells; auto. }
  rewrite Ek in Hin2. exact (NoDup_fst_functional _ _ _ _ Hnd Hin1 Hin2).
Qed.

(** Where the coercion of strings to numbers gives no finite number
    for a string with a comma, as in the language, the rows kept at
    load time have plain coordinates. *)
Lemma loaded_rows_plain (StringToNumber : jsstring -> number)
      (data : list FilmRecord) :
  (forall s, Number_isFinite (StringToNumber s) = true ->
             existsb (N.eqb 44) s = false) ->
  forallb plainCoordinates (filter (hasValidCoordinates StringToNumber) data)
  = true.
Proof.
  intros Hcomma. apply forallb_forall. intros d Hd.
  apply filter_In in Hd. destruct Hd as (_ & Hv).
  unfold hasValidCoordinates in Hv. cbv zeta in Hv.
  apply andb_true_iff in Hv. destruct Hv as (Hlon & Hlat).
  unfold plainCoordinates, ToNumber in *.
  destruct (Longitude d) as [lon|]; [|discriminate Hlon].
  destruct (Latitude d) as [lat|]; [|discriminate Hlat].
  rewrite (Hcomma lon Hlon). reflexivity.
Qed.

End AggregatorClaims.

Lemma aggregator_one_location_per_key_witness :
  NoDup (map fst (ScriptJs.buildLocationMap Sample.films))
  /\ (ScriptJs.coordinateKey Sample.film1950
      = ScriptJs.coordinateKey Sample.film1980
      <-> Props.sameCoordinates Sample.film1950 Sample.film1980)
  /\ (ScriptJs.coordinateKey Sample.film1950
      = ScriptJs.coordinateKey Sample.filmFar
      <-> Props.sameCoordinates Sample.film1950 Sample.filmFar).
Proof.
  pose proof (aggregator_one_location_per_key Sample.films eq_refl) as H.
  cbv zeta in H. destruct H as (H1 & H2 & _).
  split; [exact H1|]. split; apply H2; vm_compute; auto.
Defined.

(** ** Loading the rows *)

Section Loading.
Import JS Shared Props.
Variable StringToNumber : jsstring -> number.
Variable projection : number * number -> number * number.
Variable scaleSqrt : number * number -> number * number -> number -> number.
Variable Math_cos : number -> number.

Lemma hasValidCoordinates_spec (d : FilmRecord) :
  hasValidCoordinates StringToNumber d = true
  <-> Number_isFinite (ToNumber StringToNumber (Longitude d)) = true
      /\ Number_isFinite (ToNumber StringToNumber (Latitude d)) = true.
Proof. unfold hasValidCoordinates. apply andb_true_iff. Qed.

Lemma restyled_datum (visible : ScriptJs.LocationPoint -> bool)
      (l l' : list ScriptJs.LocationPoint) (p' : ScriptJs.LocationPoint) :
  Forall2 (restyledBy visible) l l' -> In p' l' ->
  exists p, In p l /\ ScriptJs.datum p' = ScriptJs.datum p.
Proof.
  induction 1 as [|p q l l' HR _ IH]; simpl; [tauto|].
  intros [<- | Hin].
  - exists p. split; [auto | apply HR].
  - destruct (IH Hin) as (p0 & Hp0 & E). eauto.
Qed.

Lemma restyled000_datum (visible : Part000.LocationPoint -> bool)
      (l l' : list Part000.LocationPoint) (p' : Part000.LocationPoint) :
  Forall2 (restyledBy000 visible) l l' -> In p' l' ->
  exists p, In p l /\ Part000.datum p' = Part000.datum p.
Proof.
  induction 1 as [|p q l l' HR _ IH]; simpl; [tauto|].
  intros [<- | Hin].
  - exists p. split; [auto | apply HR].
  - destruct (IH Hin) as (p0 & Hp0 & E). eauto.
Qed.

Lemma csvLoaded_allData (data : list FilmRecord) (st : ScriptJs.State) :
  ScriptJs.allData
    (ScriptJs.csvLoaded StringToNumber projection scaleSqrt data st)
  = filter (hasValidCoordinates StringToNumber) data.
Proof.
  unfold ScriptJs.csvLoaded.
  match goal with
  | |- context [ScriptJs.updateFilters _ ?s] =>
      destruct (updateFilters_frame StringToNumber s) as (_ & _ & _ & ->)
  end.
  reflexivity.
Qed.

Lemma csvLoaded000_allData (data : list FilmRecord) (st : Part000.State) :
  Part000.allData
    (Part000.csvLoaded StringToNumber projection Math_cos data st)
  = filter (hasValidCoordinates StringToNumber) data.
Proof.
  unfold Part000.csvLoaded.
  match goal with
  | |- context [Part000.updateFilters _ _ _ ?s] =>
      destruct (updateFilters000_frame StringToNumber projection Math_cos s)
        as (_ & _ & _ & ->)
  end.
  reflexivity.
Qed.

(** The points on the page after loading are the points rendered from
    the rows kept, restyled. *)
Lemma csvLoaded_points (page : Controls) (data : list FilmRecord)
      (p' : ScriptJs.LocationPoint) :
  In p' (ScriptJs.location_points
           (ScriptJs.csvLoaded StringToNumber projection scaleSqrt data
              (ScriptJs.initialState page))) ->
  exists p,
    In p (ScriptJs.renderDataPoints StringToNumber projection scaleSqrt
            (filter (hasValidCoordinates StringToNumber) data))
    /\ ScriptJs.datum p' = ScriptJs.datum p.
Proof.
  unfold ScriptJs.csvLoaded.
  match goal with
  | |- context [ScriptJs.updateFilters _ ?s] =>
      destruct (updateFilters_spec StringToNumber s) as (HF & _)
  end.
  intros Hin. exact (restyled_datum _ _ _ _ HF Hin).
Qed.

Lemma csvLoaded000_points (page : Controls) (data : list FilmRecord)
      (p' : Part000.LocationPoint) :
  In p' (Part000.location_points
           (Part000.csvLoaded StringToNumber projection Math_cos data
              (Part000.initialState page))) ->
  exists p,
    In p (Part000.renderDataPoints StringToNumber projection
            (filter (hasValidCoordinates StringToNumber) data))
    /\ Part000.datum p' = Part000.datum p.
Proof.
  unfold Part000.csvLoaded.
  match goal with
  | |- context [Part000.updateFilters _ _ _ ?s] =>
      destruct (updateFilters000_spec StringToNumber projection Math_cos s)
        as (HF & _)
  end.
  intros Hin. exact (restyled000_datum _ _ _ _ HF Hin).
Qed.

Lemma rendered_datum (allData : list FilmRecord)
      (p : ScriptJs.LocationPoint) :
  In p (ScriptJs.renderDataPoints StringToNumber projection scaleSqrt allData)
  -> In (ScriptJs.datum p) (ScriptJs.locationData allData).
Proof.
  unfold ScriptJs.renderDataPoints. intros Hin. apply in_map_iff in Hin.
  destruct Hin as (loc & <- & Hloc). exact Hloc.
Qed.

Lemma location_members (allData : list FilmRecord) (loc : ScriptJs.Location)
      (d : FilmRecord) :
  In loc (ScriptJs.locationData allData) -> In d (ScriptJs.movies loc) ->
  In d allData.
Proof.
  unfold ScriptJs.locationData. intros Hloc Hd. apply in_map_iff in Hloc.
  destruct Hloc as ([k l] & <- & Hin). simpl in Hd.
  destruct (buildLocationMap_grouped allData) as (_ & Hmem & _).
  destruct (Hmem k l Hin) as (E & _). rewrite E in Hd.
  apply filter_In in Hd. apply Hd.
Qed.

(** C5.  The rows kept at load time are exactly the rows whose longitude
    and latitude both read as finite numbers, in their order; no other
    row is a member of a location ([src/script.js]) or bound to a point
    ([src/unnamed/part_000]). *)
Theorem load_keeps_exactly_finite_coordinates
        (page : Controls) (data : list FilmRecord) :
  let st := ScriptJs.csvLoaded StringToNumber projection scaleSqrt data
              (ScriptJs.initialState page) in
  let st0 := Part000.csvLoaded StringToNumber projection Math_cos data
               (Part000.initialState page) in
  (ScriptJs.allData st = filter (hasValidCoordinates StringToNumber) data
   /\ (forall d,
          In d (ScriptJs.allData st)
          <-> In d data
              /\ Number_isFinite (ToNumber StringToNumber (Longitude d)) = true
              /\ Number_isFinite (ToNumber StringToNumber (Latitude d)) = true)
   /\ (forall p d,
          In p (ScriptJs.location_points st) ->
          In d (ScriptJs.movies (ScriptJs.datum p)) ->
          In d (ScriptJs.allData st)))
  /\ (Part000.allData st0 = filter (hasValidCoordinates StringToNumber) data
      /\ (forall d,
             In d (Part000.allData st0)
             <-> In d data
                 /\ Number_isFinite (ToNumber StringToNumber (Longitude d))
                    = true
                 /\ Number_isFinite (ToNumber StringToNumber (Latitude d))
                    = true)
      /\ (forall p,
             In p (Part000.location_points st0) ->
             In (Part000.datum p) (Part000.allData st0))).
Proof.
  cbv zeta. rewrite csvLoaded_allData, csvLoaded000_allData.
  assert (Hiff : forall d,
             In d (filter (hasValidCoordinates StringToNumber) data)
             <-> In d data
                 /\ Number_isFinite (ToNumber StringToNumber (Longitude d))
                    = true
                 /\ Number_isFinite (ToNumber StringToNumber (Latitude d))
                    = true).
  { intros d. rewrite filter_In, hasValidCoordinates_spec. tauto. }
  split; (split; [reflexivity|]); (split; [exact Hiff|]).
  - intros p' d Hp' Hd. destruct (csvLoaded_points page data p' Hp')
      as (p & Hp & E).
    rewrite E in Hd.
    exact (location_members _ _ _ (rendered_datum _ _ Hp) Hd).
  - intros p' Hp'. destruct (csvLoaded000_points page data p' Hp')
      as (p & Hp & E).
    rewrite E. unfold Part000.renderDataPoints in Hp.
    apply in_map_iff in Hp. destruct Hp as (d & <- & Hd). exact Hd.
Qed.

End Loading.

(** ** The display radius of a location *)

Section DisplayRadius.
Import JS Shared Props ScriptJs.
Variable StringToNumber : jsstring -> number.
Variable projection : number * number -> number * number.

Lemma fold_max_spec (l : list nat) :
  forall n, In (fold_left Nat.max l n) (n :: l)
            /\ n <= fold_left Nat.max l n
            /\ Forall (fun k => k <= fold_left Nat.max l n) l.
Proof.
  induction l as [|k l IH]; intros n; cbn [fold_left].
  - split; [left; reflexivity|]. split; [lia | constructor].
  - destruct (IH (Nat.max n k)) as (Hin & Hle & Hall).
    split; [|split].
    + destruct Hin as [Hin | Hin]; [|right; right; exact Hin].
      destruct (Nat.max_spec n k) as [(_ & E) | (_ & E)];
        rewrite E in Hin at 1; [right; left | left]; exact Hin.
    + lia.
    + constructor; [lia | exact Hall].
Qed.

Lemma d3_max_spec (counts : list nat) :
  counts <> [] ->
  exists m, d3_max counts = Some m
            /\ In m counts /\ Forall (fun k => k <= m) counts.
Proof.
  destruct counts as [|n l]; [congruence|]. intros _.
  destruct (fold_max_spec l n) as (Hin & Hle & Hall).
  exists (fold_left Nat.max l n). simpl. auto.
Qed.

(** The radius stored for a point is the scale of domain
    [1, maxMovies] and range [3, 10] applied to the member count of its
    location, where [maxMovies] is the largest member count, whatever
    scale the library supplies; when every location has one record,
    [maxMovies] is 1. *)
Lemma rendered_radius
      (scaleSqrt : number * number -> number * number -> number -> number)
      (allData : list FilmRecord) (p : LocationPoint) :
  In p (renderDataPoints StringToNumber projection scaleSqrt allData) ->
  exists maxMovies,
    d3_max (map (fun d => length (movies d)) (locationData allData))
    = Some maxMovies
    /\ (forall loc, In loc (locationData allData) ->
                    1 <= length (movies loc) <= maxMovies)
    /\ data_base_radius p
       = scaleSqrt (ofZ 1, ofNat maxMovies) (ofZ 3, ofZ 10)
           (ofNat (length (movies (datum p))))
    /\ r p = data_base_radius p
    /\ ((forall loc, In loc (locationData allData) ->
                     length (movies loc) = 1) ->
        maxMovies = 1 /\ length (movies (datum p)) = 1).
Proof.
  unfold renderDataPoints. intros Hin. apply in_map_iff in Hin.
  destruct Hin as (loc0 & Ep & Hloc0).
  set (counts := map (fun d => length (movies d)) (locationData allData))
    in *.
  assert (Hne : counts <> []).
  { subst counts. destruct (locationData allData); [destruct Hloc0|].
    discriminate. }
  destruct (d3_max_spec counts Hne) as (m & Em & Hm & Hall).
  rewrite Em in Ep. exists m. split; [exact Em|].
  assert (Hpos : forall loc, In loc (locationData allData) ->
                             1 <= length (movies loc)).
  { intros loc Hloc. unfold locationData in Hloc. apply in_map_iff in Hloc.
    destruct Hloc as ([k l] & <- & Hkl). simpl.
    destruct (buildLocationMap_grouped allData) as (_ & Hmem & _).
    destruct (Hmem k l Hkl) as (_ & Hnil).
    destruct (movies l); [congruence | simpl; lia]. }
  split.
  { intros loc Hloc. split; [exact (Hpos loc Hloc)|].
    rewrite Forall_forall in Hall. apply Hall. subst counts.
    apply in_map_iff. exists loc. auto. }
  subst p. cbn [data_base_radius r datum]. split; [reflexivity|].
  split; [reflexivity|].
  intros Hone. split; [|exact (Hone loc0 Hloc0)].
  subst counts. apply in_map_iff in Hm.
  destruct Hm as (loc & <- & Hloc). exact (Hone loc Hloc).
Qed.

(** The scale of the library on the domain [1, 1]: no division takes
    place, and the value is the middle of the range. *)
Lemma scaleSqrt_collapsed :
  D3.scaleSqrt (ofZ 1, ofNat 1) (ofZ 3, ofZ 10) (ofNat 1)
  = decimal false 65 1.
Proof. vm_compute. reflexivity. Qed.

(** C6, as the page computes it.  The radius stored for a point is the
    square-root scale of the library, with domain [1, maxMovies] and
    range [3, 10], applied to the member count of its location, where
    [maxMovies] is the largest member count.  When every location has
    one record, [maxMovies] is 1; on this one-point domain the scale
    does not divide by zero, and the radius is 6.5, the middle of the
    range. *)
Theorem display_radius_is_sqrt_scale
        (allData : list FilmRecord) (p : LocationPoint) :
  In p (renderDataPoints StringToNumber projection D3.scaleSqrt allData) ->
  exists maxMovies,
    d3_max (map (fun d => length (movies d)) (locationData allData))
    = Some maxMovies
    /\ (forall loc, In loc (locationData allData) ->
                    1 <= length (movies loc) <= maxMovies)
    /\ data_base_radius p
       = D3.scaleSqrt (ofZ 1, ofNat maxMovies) (ofZ 3, ofZ 10)
           (ofNat (length (movies (datum p))))
    /\ r p = data_base_radius p
    /\ ((forall loc, In loc (locationData allData) ->
                     length (movies loc) = 1) ->
        maxMovies = 1
        /\ data_base_radius p = decimal false 65 1
        /\ Number_isFinite (data_base_radius p) = true).
Proof.
  intros Hin.
  destruct (rendered_radius D3.scaleSqrt allData p Hin)
    as (m & Em & Hm & Er & Ep & Hone).
  exists m. split; [exact Em|]. split; [exact Hm|].
  split; [exact Er|]. split; [exact Ep|].
  intros H1. destruct (Hone H1) as (-> & E1).
  split; [reflexivity|]. rewrite Er, E1, scaleSqrt_collapsed.
  split; reflexivity.
Qed.

End DisplayRadius.

Lemma display_radius_is_sqrt_scale_witness :
  ScriptJs.data_base_radius Sample.singlePoint = JS.decimal false 65 1.
Proof.
  destruct (display_radius_is_sqrt_scale Sample.parseDigits
              Sample.pixelProjection Sample.singles Sample.singlePoint)
    as (maxMovies & _ & _ & _ & _ & H).
  - left. vm_compute. reflexivity.
  - apply H. intros loc Hloc.
    assert (F : forallb (fun l => Nat.eqb (length (ScriptJs.movies l)) 1)
                  (ScriptJs.locationData Sample.singles) = true)
      by (vm_compute; reflexivity).
    rewrite forallb_forall in F. apply Nat.eqb_eq. exact (F loc Hloc).
Defined.

(** C6, as the spec has it, fails: with two films at two places every
    location has one record, and the radius of each point is 6.5, not
    3, the low end of the range. *)
Lemma one_record_radius_is_not_low_end :
  forallb (fun loc => Nat.eqb (length (ScriptJs.movies loc)) 1)
          (ScriptJs.locationData Sample.singles) = true
  /\ map ScriptJs.data_base_radius
         (ScriptJs.renderDataPoints Sample.parseDigits
            Sample.pixelProjection D3.scaleSqrt Sample.singles)
     = [JS.decimal false 65 1; JS.decimal false 65 1]
  /\ JS.num_eq (JS.decimal false 65 1) (JS.ofZ 3) = false.
Proof. repeat split; vm_compute; reflexivity. Qed.

(** ** The filter evaluator *)

Section FilterEvaluator.
Import JS Shared Props.
Variable StringToNumber : jsstring -> number.
Variable projection : number * number -> number * number.
Variable scaleSqrt : number * number -> number * number -> number -> number.
Variable Math_cos : number -> number.











End FilterEvaluator.

Section Scenario.
Import JS Shared Props.
Variable StringToNumber : jsstring -> number.
Variable projection : number * number -> number * number.
Variable scaleSqrt : number * number -> number * number -> number -> number.
Variable Math_cos : number -> number.






End Scenario.


(** ** Runs of the two scripts on the sample rows *)

Section Runs.
Import JS Shared Props.

(** A row whose longitude is not a number is dropped at load time. *)
Example load_drops_row_without_coordinates :
  ScriptJs.allData
    (ScriptJs.csvLoaded Sample.parseDigits Sample.pixelProjection
       D3.scaleSqrt
       (Sample.filmNoCoordinates :: Sample.films)
       (ScriptJs.initialState Sample.page))
  = Sample.films.
Proof. vm_compute. reflexivity. Qed.

(** The three films at (420, 300) form one location, the fourth film
    another. *)
Example films_grouped :
  map (fun loc => (ScriptJs.longitude loc, length (ScriptJs.movies loc)))
      (ScriptJs.locationData Sample.films)
  = [(Some (str "420"), 3); (Some (str "0"), 1)].
Proof. vm_compute. reflexivity. Qed.

(** The options of the director select: blank values give none. *)
Example films_directors :
  getUniqueValues (Sample.filmBlank :: Sample.films) Director
  = [str "X"; str "Y"; str "Z"].
Proof. vm_compute. reflexivity. Qed.

(** Dragging beyond the canvas stops at its border: [mapWidth] is 820. *)
Example drag_stops_at_border :
  clampTo mapWidth (ofZ 900) = ofZ 820
  /\ clampTo mapWidth (ofZ (-5)) = ofZ 0
  /\ clampTo mapHeight (ofZ 300) = ofZ 300.
Proof. vm_compute. repeat split; reflexivity. Qed.

(** With both circles over (420, 300) and the lower year at 1960, two
    films are counted and the shared location alone is shown. *)
Example overlapping_counts_two :
  ScriptJs.visibleCount
    (ScriptJs.updateFilters Sample.parseDigits Sample.overlapping) = 2
  /\ map shownLocation
       (ScriptJs.location_points
          (ScriptJs.updateFilters Sample.parseDigits Sample.overlapping))
     = [true; false].
Proof. vm_compute. split; reflexivity. Qed.

(** In [src/unnamed/part_000], once both radius sliders are moved far
    enough for the circles to cover (420, 300), the points of the films
    of 1980 and 2010 are shown. *)
Example sliders_widen_circles :
  map shownRecord
      (Part000.location_points
         (Part000.handle Sample.parseDigits Sample.pixelProjection
            Sample.cosSeries (RadiusBInput (ofZ 20000))
            (Part000.handle Sample.parseDigits Sample.pixelProjection
               Sample.cosSeries (RadiusAInput (ofZ 20000))
               Sample.loaded000)))
  = [false; true; true; false].
Proof. vm_compute. reflexivity. Qed.

End Runs.

(** * Further properties of the two scripts *)

(** ** The options of the selects are sorted and distinct *)

Section SortedOptions.
Import JS Shared Props.

Lemma str_leb_total (s t : jsstring) :
  str_leb s t = false -> str_leb t s = true.
Proof.
  revert t. induction s as [|c s IH]; intros [|d t]; simpl;
    try discriminate; try reflexivity.
  destruct (N.ltb_spec c d), (N.ltb_spec d c); try discriminate;
    try reflexivity; try lia. apply IH.
Qed.

Lemma str_leb_trans (a b c : jsstring) :
  str_leb a b = true -> str_leb b c = true -> str_leb a c = true.
Proof.
  revert b c. induction a as [|x a IH]; intros [|y b] [|z c]; simpl;
    try discriminate; try reflexivity.
  destruct (N.ltb_spec x y), (N.ltb_spec y x), (N.ltb_spec y z),
    (N.ltb_spec z y), (N.ltb_spec x z), (N.ltb_spec z x);
    try discriminate; try reflexivity; try lia.
  apply IH.
Qed.

Lemma sort_insert_sorted (v : jsstring) (l : list jsstring) :
  StronglySorted (fun s t => str_leb s t = true) l ->
  StronglySorted (fun s t => str_leb s t = true) (sort_insert v l).
Proof.
  induction 1 as [|w l Hl IH Hw]; simpl.
  - repeat constructor.
  - destruct (str_leb v w) eqn:E.
    + constructor; [constructor; assumption|].
      constructor; [exact E|].
      eapply Forall_impl; [|exact Hw]. intros t Ht.
      exact (str_leb_trans v w t E Ht).
    + constructor; [exact IH|]. apply Forall_forall. intros t Ht.
      apply sort_insert_In in Ht. destruct Ht as [-> | Ht].
      * apply str_leb_total. exact E.
      * rewrite Forall_forall in Hw. exact (Hw t Ht).
Qed.

Lemma sort_sorted (l : list jsstring) :
  StronglySorted (fun s t => str_leb s t = true) (sort l).
Proof.
  unfold sort. induction l as [|v l IH]; simpl; [constructor|].
  apply sort_insert_sorted. exact IH.
Qed.

Lemma sort_insert_NoDup (v : jsstring) (l : list jsstring) :
  ~ In v l -> NoDup l -> NoDup (sort_insert v l).
Proof.
  induction l as [|w l IH]; simpl; intros Hv Hl.
  - repeat constructor. tauto.
  - inversion Hl as [|? ? Hw Hl']; subst.
    destruct (str_leb v w).
    + constructor; [simpl; tauto | exact Hl].
    + constructor.
      * rewrite sort_insert_In. intros [-> | H]; tauto.
      * apply IH; tauto.
Qed.

Lemma sort_NoDup (l : list jsstring) : NoDup l -> NoDup (sort l).
Proof.
  unfold sort. induction 1 as [|v l Hv Hl IH]; simpl; [constructor|].
  apply sort_insert_NoDup; [|exact IH].
  intros H. apply Hv. apply (sort_In v l). exact H.
Qed.

Lemma set_add_NoDup (v : jsstring) (s : list jsstring) :
  NoDup s -> NoDup (set_add v s).
Proof.
  intros Hs. unfold set_add, set_has.
  destruct (existsb (str_eqb v) s) eqn:E; [exact Hs|].
  apply NoDup_app; [exact Hs | repeat constructor; simpl; tauto |].
  intros x Hx [Ex | []]. subst x.
  assert (H : existsb (str_eqb v) s = true).
  { apply existsb_exists. exists v. split; [exact Hx | apply str_eqb_refl]. }
  congruence.
Qed.

Lemma uniqueValues_fold_NoDup (field : FilmRecord -> option jsstring)
      (data : list FilmRecord) :
  forall values : list jsstring,
    NoDup values ->
    NoDup (fold_left
             (fun values d =>
                match field d with
                | Some value =>
                    if truthy_string value
                       && negb (str_eqb (trim value) (str ""))
                    then set_add (trim value) values
                    else values
                | None => values
                end)
             data values).
Proof.
  induction data as [|d data IH]; intros values Hv; simpl; [exact Hv|].
  apply IH. destruct (field d) as [value|]; [|exact Hv].
  destruct (truthy_string value && negb (str_eqb (trim value) (str "")));
    [|exact Hv].
  apply set_add_NoDup. exact Hv.
Qed.

(** X1.  The options [getUniqueValues] returns are in the order of
    [Array.prototype.sort], that is, each is at or below every later
    one code unit by code unit; no option occurs twice; and every
    option is a trimmed value, not empty, of some row. *)
Theorem getUniqueValues_sorted_distinct
        (data : list FilmRecord) (field : FilmRecord -> option jsstring) :
  StronglySorted (fun s t => str_leb s t = true) (getUniqueValues data field)
  /\ NoDup (getUniqueValues data field)
  /\ (forall x,
         In x (getUniqueValues data field)
         <-> exists d value, In d data /\ field d = Some value
                             /\ trim value = x /\ x <> [])
  /\ (forall x, In x (getUniqueValues data field) -> trim x = x).
Proof.
  split; [apply sort_sorted|]. split.
  { apply sort_NoDup, uniqueValues_fold_NoDup. constructor. }
  split; [intros x; apply getUniqueValues_In|].
  intros x Hx. apply getUniqueValues_In in Hx.
  destruct Hx as (d & value & _ & _ & <- & _). apply trim_idempotent.
Qed.

End SortedOptions.

(** ** Options come trimmed, rows are compared raw *)

Section PaddedValues.
Import JS Shared Props.
Variable StringToNumber : jsstring -> number.

(** X2.  The options are trimmed values, while [updateFilters] compares
    the selected option with the raw value of the row.  So a row whose
    director (or neighbourhood) has white space around it puts its
    trimmed value among the options, and selecting that option does not
    match the row itself. *)
Theorem padded_value_option_misses_its_row
        (data : list FilmRecord) (d : FilmRecord) (value other : jsstring)
        (yearMin yearMax : number) :
  In d data -> trim value <> value -> trim value <> [] ->
  trim value <> str "all" ->
  (Director d = Some value ->
   In (trim value) (getUniqueValues data Director)
   /\ directorMatch (trim value) d = false
   /\ ScriptJs.movieMatches StringToNumber yearMin yearMax
        (trim value) other d = false
   /\ Part000.recordMatches StringToNumber yearMin yearMax
        (trim value) other d = false)
  /\ (Analysis_Neighborhood d = Some value ->
      In (trim value) (getUniqueValues data Analysis_Neighborhood)
      /\ neighborhoodMatch (trim value) d = false
      /\ ScriptJs.movieMatches StringToNumber yearMin yearMax
           other (trim value) d = false
      /\ Part000.recordMatches StringToNumber yearMin yearMax
           other (trim value) d = false).
Proof.
  intros Hd Hpad Hne Hall.
  apply str_eqb_neq in Hall.
  assert (Hraw : str_eqb value (trim value) = false)
    by (apply str_eqb_neq; congruence).
  split; intros Hf.
  - split.
    { apply getUniqueValues_In. exists d, value. auto. }
    assert (E : directorMatch (trim value) d = false).
    { unfold directorMatch. rewrite Hall, Hf. simpl. exact Hraw. }
    unfold ScriptJs.movieMatches, Part000.recordMatches. rewrite E.
    rewrite !andb_false_r. auto.
  - split.
    { apply getUniqueValues_In. exists d, value. auto. }
    assert (E : neighborhoodMatch (trim value) d = false).
    { unfold neighborhoodMatch. rewrite Hall, Hf. simpl. exact Hraw. }
    unfold ScriptJs.movieMatches, Part000.recordMatches. rewrite E.
    rewrite !andb_false_r. auto.
Qed.

End PaddedValues.

Lemma padded_value_option_misses_its_row_witness :
  In (JS.str "Hitchcock")
     (Shared.getUniqueValues [Cases.filmPadded] Shared.Director)
  /\ ScriptJs.movieMatches Sample.parseDigits (JS.ofZ 1915) (JS.ofZ 2023)
       (JS.str "Hitchcock") (JS.str "all") Cases.filmPadded = false.
Proof.
  assert (H1 : In Cases.filmPadded [Cases.filmPadded])
    by (left; reflexivity).
  assert (H2 : JS.trim (JS.str " Hitchcock ") <> JS.str " Hitchcock ")
    by (intros E; vm_compute in E; discriminate E).
  assert (H3 : JS.trim (JS.str " Hitchcock ") <> [])
    by (intros E; vm_compute in E; discriminate E).
  assert (H4 : JS.trim (JS.str " Hitchcock ") <> JS.str "all")
    by (intros E; vm_compute in E; discriminate E).
  destruct (padded_value_option_misses_its_row Sample.parseDigits
              [Cases.filmPadded] Cases.filmPadded (JS.str " Hitchcock ")
              (JS.str "all") (JS.ofZ 1915) (JS.ofZ 2023) H1 H2 H3 H4)
    as (H & _).
  destruct (H eq_refl) as (Hin & _ & Hm & _).
  split; [exact Hin | exact Hm].
Defined.

(** ** More on the location aggregator *)

Section AggregatorMore.
Import JS Shared Props ScriptJs Terms.

Lemma push_movie_total (key : jsstring) (d : FilmRecord) (m : LocationMap) :
  map_has key m = true ->
  list_sum (memberCounts (push_movie key d m))
  = S (list_sum (memberCounts m)).
Proof.
  unfold map_has, memberCounts.
  induction m as [|[k loc] m IH]; simpl; [discriminate|].
  destruct (str_eqb k key) eqn:E; simpl.
  - intros _. rewrite length_app. simpl. lia.
  - intros H. rewrite (IH H). lia.
Qed.

Lemma map_has_set (key : jsstring) (v : Location) (m : LocationMap) :
  map_has key (map_set key v m) = true.
Proof.
  unfold map_has. induction m as [|[k w] m IH]; simpl.
  - rewrite str_eqb_refl. reflexivity.
  - destruct (str_eqb k key) eqn:E; simpl; rewrite ?E, ?IH; auto.
Qed.

Lemma addToLocationMap_total (m : LocationMap) (d : FilmRecord) :
  list_sum (memberCounts (addToLocationMap m d))
  = S (list_sum (memberCounts m)).
Proof.
  unfold addToLocationMap. destruct (map_has (coordinateKey d) m) eqn:E; simpl.
  - apply push_movie_total. exact E.
  - rewrite push_movie_total by apply map_has_set.
    rewrite (map_set_absent _ _ _ E). unfold memberCounts.
    rewrite map_app, list_sum_app. simpl. lia.
Qed.

Lemma buildLocationMap_total_from (l : list FilmRecord) :
  forall m, list_sum (memberCounts (fold_left addToLocationMap l m))
            = list_sum (memberCounts m) + length l.
Proof.
  induction l as [|d l IH]; intros m; simpl; [lia|].
  rewrite IH, addToLocationMap_total. lia.
Qed.

(** The member counts of the locations add up to the number of rows. *)
Lemma locationData_total (allData : list FilmRecord) :
  list_sum (map (fun loc => length (movies loc)) (locationData allData))
  = length allData.
Proof.
  unfold locationData. rewrite map_map.
  exact (buildLocationMap_total_from allData []).
Qed.

Lemma str_eqb_sym (s t : jsstring) : str_eqb s t = str_eqb t s.
Proof.
  unfold str_eqb. destruct (str_eq_dec s t), (str_eq_dec t s); congruence.
Qed.

Lemma set_has_map_has (key : jsstring) (m : LocationMap) :
  set_has key (map fst m) = map_has key m.
Proof.
  unfold set_has, map_has. induction m as [|[k w] m IH];
    cbn [map existsb fst]; [reflexivity|].
  rewrite IH, (str_eqb_sym key k). reflexivity.
Qed.

Lemma addToLocationMap_keys (m : LocationMap) (d : FilmRecord) :
  map fst (addToLocationMap m d) = set_add (coordinateKey d) (map fst m).
Proof.
  unfold addToLocationMap, set_add. rewrite push_movie_keys, set_has_map_has.
  destruct (map_has (coordinateKey d) m) eqn:E; simpl; [reflexivity|].
  rewrite (map_set_absent _ _ _ E), map_app. reflexivity.
Qed.

Lemma buildLocationMap_keys_from (l : list FilmRecord) :
  forall m,
    map fst (fold_left addToLocationMap l m)
    = fold_left (fun keys d => set_add (coordinateKey d) keys) l (map fst m).
Proof.
  induction l as [|d l IH]; intros m; simpl; [reflexivity|].
  rewrite IH, addToLocationMap_keys. reflexivity.
Qed.

(** With one entry per key, [push_movie] appends [d] to the members of
    the entry of [key] and changes nothing else. *)
Lemma push_movie_entry (key : jsstring) (d : FilmRecord) (m : LocationMap) :
  NoDup (map fst m) ->
  forall k' loc',
    In (k', loc') (push_movie key d m) ->
    (k' <> key /\ In (k', loc') m)
    \/ (k' = key
        /\ exists loc,
             In (key, loc) m
             /\ loc' = {| longitude := longitude loc;
                          latitude := latitude loc;
                          movies := movies loc ++ [d];
                          data := data loc |}).
Proof.
  induction m as [|[k loc] m IH]; simpl; intros Hnd k' loc' Hin; [tauto|].
  inversion Hnd as [|? ? Hk Hnd']; subst.
  destruct (str_eqb k key) eqn:E.
  - apply str_eqb_eq in E. subst k. destruct Hin as [Hin | Hin].
    + injection Hin as <- <-. right. split; [reflexivity|].
      exists loc. auto.
    + left. split; [|auto]. intros ->. apply Hk.
      apply in_map_iff. exists (key, loc'). auto.
  - apply str_eqb_neq in E. destruct Hin as [Hin | Hin].
    + injection Hin as <- <-. auto.
    + destruct (IH Hnd' k' loc' Hin) as [(Hne & H) | (-> & l & H & Hm)].
      * auto.
      * right. split; [reflexivity|]. exists l. auto.
Qed.

Lemma headedBy_step (done : list FilmRecord) (m : LocationMap)
      (d : FilmRecord) :
  grouped done m ->
  (forall key loc, In (key, loc) m -> headedBy key loc) ->
  forall key loc, In (key, loc) (addToLocationMap m d) -> headedBy key loc.
Proof.
  intros (Hnd & _ & _) Hhead key loc. unfold addToLocationMap.
  set (k := coordinateKey d).
  set (fresh := {| longitude := Longitude d; latitude := Latitude d;
                   movies := []; data := d |}).
  assert (Hpush : forall loc0,
             headedBy k loc0 ->
             headedBy k {| longitude := longitude loc0;
                           latitude := latitude loc0;
                           movies := movies loc0 ++ [d];
                           data := data loc0 |}).
  { intros loc0 (Hk & Hlon & Hlat & rest & Hmov). unfold headedBy. simpl.
    repeat split; try assumption. exists (rest ++ [d]). rewrite Hmov.
    reflexivity. }
  destruct (map_has k m) eqn:Eh; simpl; intros Hin.
  - destruct (push_movie_entry k d m Hnd key loc Hin)
      as [(_ & H) | (-> & loc0 & H & ->)]; [exact (Hhead _ _ H)|].
    apply Hpush. exact (Hhead _ _ H).
  - rewrite (map_set_absent k fresh m Eh) in Hin.
    assert (Hnd1 : NoDup (map fst (m ++ [(k, fresh)]))).
    { rewrite map_app. apply NoDup_app;
        [exact Hnd | repeat constructor; simpl; tauto |].
      intros k0 Hk0 [E | []]. simpl in E. rewrite <- E in Hk0.
      apply map_has_In in Hk0. congruence. }
    destruct (push_movie_entry k d _ Hnd1 key loc Hin)
      as [(Hne & H) | (-> & loc0 & H & ->)].
    + apply in_app_or in H. destruct H as [H | [H | []]];
        [exact (Hhead _ _ H)|]. injection H as E _. congruence.
    + apply in_app_or in H. destruct H as [H | [H | []]].
      * apply Hpush. exact (Hhead _ _ H).
      * injection H as <-. unfold headedBy, fresh. simpl.
        repeat split. exists []. reflexivity.
Qed.

Lemma headedBy_fold (l : list FilmRecord) :
  forall done m,
    grouped done m ->
    (forall key loc, In (key, loc) m -> headedBy key loc) ->
    forall key loc, In (key, loc) (fold_left addToLocationMap l m) ->
                    headedBy key loc.
Proof.
  induction l as [|d l IH]; intros done m Hg Hhead; simpl; [exact Hhead|].
  apply (IH (done ++ [d])).
  - apply grouped_step. exact Hg.
  - exact (headedBy_step done m d Hg Hhead).
Qed.

(** X3.  The aggregator loses and invents no row: the member counts of
    the locations add up to the number of rows.  The locations stand in
    the order in which their keys first occur, the order of a [Set] fed
    with the keys.  Each location carries the coordinates of the row
    that created it, which is its first member and has the key of the
    location. *)
Theorem aggregator_conserves_rows (allData : list FilmRecord) :
  list_sum (map (fun loc => length (movies loc)) (locationData allData))
  = length allData
  /\ map fst (buildLocationMap allData)
     = fold_left (fun keys d => set_add (coordinateKey d) keys) allData []
  /\ (forall key loc,
         In (key, loc) (buildLocationMap allData) -> headedBy key loc).
Proof.
  split; [apply locationData_total|]. split.
  - exact (buildLocationMap_keys_from allData []).
  - apply (headedBy_fold allData [] []).
    + split; [constructor|]. split; simpl; intros; tauto.
    + simpl. tauto.
Qed.

End AggregatorMore.

(** ** A pass of [updateFilters], element by element *)

Section PassByElement.
Import JS Shared Props Terms.
Variable StringToNumber : jsstring -> number.
Variable projection : number * number -> number * number.
Variable Math_cos : number -> number.

Lemma restylePoint_restyle (st : ScriptJs.State)
      (done : list ScriptJs.LocationPoint) (n : nat)
      (p : ScriptJs.LocationPoint) :
  ScriptJs.restylePoint StringToNumber st (done, n) p
  = (done ++ [restyle StringToNumber st p], n + counted StringToNumber st p).
Proof.
  unfold ScriptJs.restylePoint, restyle, counted.
  destruct (ScriptJs.isVisible StringToNumber st p);
    rewrite ?Nat.add_0_r; reflexivity.
Qed.

Lemma restyle_fold_map (st : ScriptJs.State)
      (l : list ScriptJs.LocationPoint) :
  forall done n,
    fold_left (ScriptJs.restylePoint StringToNumber st) l (done, n)
    = (done ++ map (restyle StringToNumber st) l,
       n + list_sum (map (counted StringToNumber st) l)).
Proof.
  induction l as [|p l IH]; intros done n; cbn [fold_left map list_sum].
  - rewrite app_nil_r, Nat.add_0_r. reflexivity.
  - rewrite restylePoint_restyle, IH, <- app_assoc. simpl. f_equal. lia.
Qed.

Lemma updateFilters_map (st : ScriptJs.State) :
  ScriptJs.updateFilters StringToNumber st
  = ScriptJs.set_points
      (map (restyle StringToNumber st) (ScriptJs.location_points st))
      (list_sum (map (counted StringToNumber st)
                     (ScriptJs.location_points st)))
      st.
Proof.
  unfold ScriptJs.updateFilters. rewrite restyle_fold_map. reflexivity.
Qed.

Lemma restylePoint000_restyle (st : Part000.State)
      (done : list Part000.LocationPoint) (n : nat)
      (p : Part000.LocationPoint) :
  Part000.restylePoint StringToNumber projection Math_cos st (done, n) p
  = (done ++ [restyle000 StringToNumber projection Math_cos st p],
     n + counted000 StringToNumber projection Math_cos st p).
Proof.
  unfold Part000.restylePoint, restyle000, counted000.
  destruct (Part000.isVisible StringToNumber projection Math_cos st p);
    rewrite ?Nat.add_0_r; reflexivity.
Qed.

Lemma restyle000_fold_map (st : Part000.State)
      (l : list Part000.LocationPoint) :
  forall done n,
    fold_left (Part000.restylePoint StringToNumber projection Math_cos st)
              l (done, n)
    = (done ++ map (restyle000 StringToNumber projection Math_cos st) l,
       n + list_sum
             (map (counted000 StringToNumber projection Math_cos st) l)).
Proof.
  induction l as [|p l IH]; intros done n; cbn [fold_left map list_sum].
  - rewrite app_nil_r, Nat.add_0_r. reflexivity.
  - rewrite restylePoint000_restyle, IH, <- app_assoc. simpl. f_equal. lia.
Qed.

Lemma updateFilters000_map (st : Part000.State) :
  Part000.updateFilters StringToNumber projection Math_cos st
  = Part000.set_points
      (map (restyle000 StringToNumber projection Math_cos st)
           (Part000.location_points st))
      (list_sum (map (counted000 StringToNumber projection Math_cos st)
                     (Part000.location_points st)))
      st.
Proof.
  unfold Part000.updateFilters. rewrite restyle000_fold_map. reflexivity.
Qed.

(** What [isVisible] reads: the two circles, the controls, and the
    position and datum of the element. *)
Lemma isVisible_reads (st st' : ScriptJs.State)
      (p p' : ScriptJs.LocationPoint) :
  ScriptJs.circleA st' = ScriptJs.circleA st ->
  ScriptJs.circleB st' = ScriptJs.circleB st ->
  ScriptJs.controls st' = ScriptJs.controls st ->
  ScriptJs.cx p' = ScriptJs.cx p -> ScriptJs.cy p' = ScriptJs.cy p ->
  ScriptJs.datum p' = ScriptJs.datum p ->
  ScriptJs.isVisible StringToNumber st' p'
  = ScriptJs.isVisible StringToNumber st p
  /\ ScriptJs.matchingMovies StringToNumber st' (ScriptJs.datum p')
     = ScriptJs.matchingMovies StringToNumber st (ScriptJs.datum p).
Proof.
  intros EA EB EC Ex Ey Ed.
  unfold ScriptJs.isVisible, ScriptJs.matchingMovies.
  rewrite EA, EB, EC, Ex, Ey, Ed. auto.
Qed.

Lemma isVisible000_reads (st st' : Part000.State)
      (p p' : Part000.LocationPoint) :
  Part000.circleA st' = Part000.circleA st ->
  Part000.circleB st' = Part000.circleB st ->
  Part000.controls st' = Part000.controls st ->
  Part000.cx p' = Part000.cx p -> Part000.cy p' = Part000.cy p ->
  Part000.datum p' = Part000.datum p ->
  Part000.isVisible StringToNumber projection Math_cos st' p'
  = Part000.isVisible StringToNumber projection Math_cos st p.
Proof.
  intros EA EB EC Ex Ey Ed. unfold Part000.isVisible.
  rewrite EA, EB, EC, Ex, Ey, Ed. reflexivity.
Qed.

Lemma restyle_twice (st st' : ScriptJs.State) (p : ScriptJs.LocationPoint) :
  ScriptJs.circleA st' = ScriptJs.circleA st ->
  ScriptJs.circleB st' = ScriptJs.circleB st ->
  ScriptJs.controls st' = ScriptJs.controls st ->
  restyle StringToNumber st' (restyle StringToNumber st p)
  = restyle StringToNumber st p
  /\ counted StringToNumber st' (restyle StringToNumber st p)
     = counted StringToNumber st p.
Proof.
  intros EA EB EC.
  assert (Hq : ScriptJs.cx (restyle StringToNumber st p) = ScriptJs.cx p
               /\ ScriptJs.cy (restyle StringToNumber st p) = ScriptJs.cy p
               /\ ScriptJs.datum (restyle StringToNumber st p)
                  = ScriptJs.datum p).
  { unfold restyle. destruct (ScriptJs.isVisible StringToNumber st p);
      repeat split. }
  destruct Hq as (Ex & Ey & Ed).
  destruct (isVisible_reads st st' p (restyle StringToNumber st p)
              EA EB EC Ex Ey Ed) as (Ev & Em).
  split.
  - unfold restyle at 1. rewrite Ev. unfold restyle.
    destruct (ScriptJs.isVisible StringToNumber st p); reflexivity.
  - unfold counted. rewrite Ev, Em. reflexivity.
Qed.

Lemma restyle000_twice (st st' : Part000.State)
      (p : Part000.LocationPoint) :
  Part000.circleA st' = Part000.circleA st ->
  Part000.circleB st' = Part000.circleB st ->
  Part000.controls st' = Part000.controls st ->
  restyle000 StringToNumber projection Math_cos st'
    (restyle000 StringToNumber projection Math_cos st p)
  = restyle000 StringToNumber projection Math_cos st p
  /\ counted000 StringToNumber projection Math_cos st'
       (restyle000 StringToNumber projection Math_cos st p)
     = counted000 StringToNumber projection Math_cos st p.
Proof.
  intros EA EB EC.
  assert (Hq : Part000.cx (restyle000 StringToNumber projection Math_cos st p)
               = Part000.cx p
               /\ Part000.cy
                    (restyle000 StringToNumber projection Math_cos st p)
                  = Part000.cy p
               /\ Part000.datum
                    (restyle000 StringToNumber projection Math_cos st p)
                  = Part000.datum p).
  { unfold restyle000.
    destruct (Part000.isVisible StringToNumber projection Math_cos st p);
      repeat split. }
  destruct Hq as (Ex & Ey & Ed).
  pose proof (isVisible000_reads st st' p
                (restyle000 StringToNumber projection Math_cos st p)
                EA EB EC Ex Ey Ed) as Ev.
  split.
  - unfold restyle000 at 1. rewrite Ev. unfold restyle000.
    destruct (Part000.isVisible StringToNumber projection Math_cos st p);
      reflexivity.
  - unfold counted000. rewrite Ev. reflexivity.
Qed.

Lemma set_points_same (st : ScriptJs.State) :
  ScriptJs.set_points (ScriptJs.location_points st)
    (ScriptJs.visibleCount st) st = st.
Proof. destruct st. reflexivity. Qed.

Lemma set_points000_same (st : Part000.State) :
  Part000.set_points (Part000.location_points st)
    (Part000.visibleCount st) st = st.
Proof. destruct st. reflexivity. Qed.

Lemma updateFilters_again (st : ScriptJs.State) :
  ScriptJs.updateFilters StringToNumber
    (ScriptJs.updateFilters StringToNumber st)
  = ScriptJs.updateFilters StringToNumber st.
Proof.
  destruct (updateFilters_frame StringToNumber st) as (EA & EB & EC & _).
  assert (Hpts : ScriptJs.location_points
                   (ScriptJs.updateFilters StringToNumber st)
                 = map (restyle StringToNumber st)
                       (ScriptJs.location_points st))
    by (rewrite updateFilters_map; reflexivity).
  assert (Hn : ScriptJs.visibleCount
                 (ScriptJs.updateFilters StringToNumber st)
               = list_sum (map (counted StringToNumber st)
                               (ScriptJs.location_points st)))
    by (rewrite updateFilters_map; reflexivity).
  remember (ScriptJs.updateFilters StringToNumber st) as st1 eqn:E1.
  rewrite (updateFilters_map st1).
  replace (map (restyle StringToNumber st1) (ScriptJs.location_points st1))
    with (ScriptJs.location_points st1).
  - replace (list_sum (map (counted StringToNumber st1)
                           (ScriptJs.location_points st1)))
      with (ScriptJs.visibleCount st1); [apply set_points_same|].
    rewrite Hn, Hpts, map_map. f_equal. apply map_ext. intros p.
    symmetry. apply (restyle_twice st st1 p EA EB EC).
  - rewrite Hpts, map_map. apply map_ext. intros p.
    symmetry. apply (restyle_twice st st1 p EA EB EC).
Qed.

Lemma updateFilters000_again (st : Part000.State) :
  Part000.updateFilters StringToNumber projection Math_cos
    (Part000.updateFilters StringToNumber projection Math_cos st)
  = Part000.updateFilters StringToNumber projection Math_cos st.
Proof.
  destruct (updateFilters000_frame StringToNumber projection Math_cos st)
    as (EA & EB & EC & _).
  assert (Hpts : Part000.location_points
                   (Part000.updateFilters StringToNumber projection
                      Math_cos st)
                 = map (restyle000 StringToNumber projection Math_cos st)
                       (Part000.location_points st))
    by (rewrite updateFilters000_map; reflexivity).
  assert (Hn : Part000.visibleCount
                 (Part000.updateFilters StringToNumber projection Math_cos st)
               = list_sum
                   (map (counted000 StringToNumber projection Math_cos st)
                        (Part000.location_points st)))
    by (rewrite updateFilters000_map; reflexivity).
  remember (Part000.updateFilters StringToNumber projection Math_cos st)
    as st1 eqn:E1.
  rewrite (updateFilters000_map st1).
  replace (map (restyle000 StringToNumber projection Math_cos st1)
               (Part000.location_points st1))
    with (Part000.location_points st1).
  - replace (list_sum
               (map (counted000 StringToNumber projection Math_cos st1)
                    (Part000.location_points st1)))
      with (Part000.visibleCount st1); [apply set_points000_same|].
    rewrite Hn, Hpts, map_map. f_equal. apply map_ext. intros p.
    symmetry. apply (restyle000_twice st st1 p EA EB EC).
  - rewrite Hpts, map_map. apply map_ext. intros p.
    symmetry. apply (restyle000_twice st st1 p EA EB EC).
Qed.

(** X4.  A pass of [updateFilters] over a page it has just restyled
    changes nothing: with the circles and the controls as they are, a
    second pass gives every element the same style and the same visible
    count, in both scripts. *)
Theorem updateFilters_idempotent
        (st : ScriptJs.State) (st0 : Part000.State) :
  ScriptJs.updateFilters StringToNumber
    (ScriptJs.updateFilters StringToNumber st)
  = ScriptJs.updateFilters StringToNumber st
  /\ Part000.updateFilters StringToNumber projection Math_cos
       (Part000.updateFilters StringToNumber projection Math_cos st0)
     = Part000.updateFilters StringToNumber projection Math_cos st0.
Proof.
  split; [apply updateFilters_again | apply updateFilters000_again].
Qed.

End PassByElement.

(** ** Nothing on the page is ever stale *)

Section Settled.
Import JS Shared Props Terms.
Variable StringToNumber : jsstring -> number.
Variable projection : number * number -> number * number.
Variable scaleSqrt : number * number -> number * number -> number -> number.

Lemma renderQueryCircles_fixed (st : ScriptJs.State) :
  ScriptJs.renderQueryCircles st = st
  <-> ScriptJs.query_circles st
      = [ScriptJs.circleA st; ScriptJs.circleB st].
Proof.
  split.
  - intros E. rewrite <- E at 1. reflexivity.
  - intros E. destruct st. simpl in E. subst. reflexivity.
Qed.

Lemma updateFilters_keeps_drawing (st : ScriptJs.State) :
  ScriptJs.renderQueryCircles st = st ->
  ScriptJs.renderQueryCircles (ScriptJs.updateFilters StringToNumber st)
  = ScriptJs.updateFilters StringToNumber st.
Proof.
  rewrite !renderQueryCircles_fixed, updateFilters_map. intros E. exact E.
Qed.

Lemma counted_le (st : ScriptJs.State) (p : ScriptJs.LocationPoint) :
  counted StringToNumber st p
  <= length (ScriptJs.movies (ScriptJs.datum p)).
Proof.
  unfold counted, ScriptJs.matchingMovies.
  destruct (ScriptJs.isVisible StringToNumber st p); [|lia].
  apply filter_length_le.
Qed.

Lemma sameElement_members (l l' : list ScriptJs.LocationPoint) :
  Forall2 sameElement l l' ->
  map (fun p => length (ScriptJs.movies (ScriptJs.datum p))) l'
  = map (fun p => length (ScriptJs.movies (ScriptJs.datum p))) l.
Proof.
  induction 1 as [|p q l l' (_ & _ & _ & _ & Ed) _ IH]; simpl;
    [reflexivity|].
  rewrite Ed, IH. reflexivity.
Qed.

Lemma sameElement_restyled (st : ScriptJs.State)
      (l l' : list ScriptJs.LocationPoint) :
  Forall2 sameElement l l' ->
  Forall2 sameElement l (map (restyle StringToNumber st) l').
Proof.
  induction 1 as [|p q l l' (Ex & Ey & Eb & Ec & Ed) _ IH]; simpl;
    constructor; [|exact IH].
  unfold sameElement, restyle.
  destruct (ScriptJs.isVisible StringToNumber st q); simpl; auto.
Qed.

Lemma rendered_members (allData : list FilmRecord) :
  list_sum
    (map (fun p => length (ScriptJs.movies (ScriptJs.datum p)))
         (ScriptJs.renderDataPoints StringToNumber projection scaleSqrt
            allData))
  = length allData.
Proof.
  unfold ScriptJs.renderDataPoints. rewrite map_map. simpl.
  apply locationData_total.
Qed.

Lemma list_sum_le (f g : ScriptJs.LocationPoint -> nat)
      (l : list ScriptJs.LocationPoint) :
  (forall p, f p <= g p) -> list_sum (map f l) <= list_sum (map g l).
Proof.
  intros H. induction l as [|p l IH]; simpl; [lia|].
  specialize (H p). lia.
Qed.

(** A pass over elements drawn for [allData] settles the page. *)
Lemma pass_settles (st : ScriptJs.State) :
  ScriptJs.renderQueryCircles st = st ->
  Forall2 sameElement
    (ScriptJs.renderDataPoints StringToNumber projection scaleSqrt
       (ScriptJs.allData st))
    (ScriptJs.location_points st) ->
  ScriptJs.totalCount st = length (ScriptJs.allData st) ->
  settled StringToNumber projection scaleSqrt
    (ScriptJs.updateFilters StringToNumber st).
Proof.
  intros Hq Hpts Htot. unfold settled.
  split; [apply updateFilters_again|].
  split; [apply updateFilters_keeps_drawing; exact Hq|].
  rewrite updateFilters_map. cbn [ScriptJs.set_points ScriptJs.allData
    ScriptJs.location_points ScriptJs.totalCount ScriptJs.visibleCount].
  split; [apply sameElement_restyled; exact Hpts|].
  split; [exact Htot|].
  rewrite Htot, <- (rendered_members (ScriptJs.allData st)).
  rewrite <- (sameElement_members _ _ Hpts).
  apply list_sum_le. apply counted_le.
Qed.

Lemma handle_is_pass (ev : Event) (st : ScriptJs.State) :
  ScriptJs.renderQueryCircles st = st ->
  exists s,
    ScriptJs.handle StringToNumber ev st
    = ScriptJs.updateFilters StringToNumber s
    /\ ScriptJs.renderQueryCircles s = s
    /\ ScriptJs.allData s = ScriptJs.allData st
    /\ ScriptJs.location_points s = ScriptJs.location_points st
    /\ ScriptJs.totalCount s = ScriptJs.totalCount st.
Proof.
  intros Hq. apply renderQueryCircles_fixed in Hq.
  destruct ev; unfold ScriptJs.handle;
    try (eexists; split; [reflexivity|];
         split; [apply renderQueryCircles_fixed; try exact Hq; reflexivity|];
         repeat split).
  - match goal with |- context [if ?b then _ else _] => destruct b end;
      (eexists; split; [reflexivity|];
       split; [apply renderQueryCircles_fixed; exact Hq|]; repeat split).
  - match goal with |- context [if ?b then _ else _] => destruct b end;
      (eexists; split; [reflexivity|];
       split; [apply renderQueryCircles_fixed; exact Hq|]; repeat split).
Qed.

Lemma handle_settled (ev : Event) (st : ScriptJs.State) :
  settled StringToNumber projection scaleSqrt st ->
  settled StringToNumber projection scaleSqrt
    (ScriptJs.handle StringToNumber ev st)
  /\ ScriptJs.allData (ScriptJs.handle StringToNumber ev st)
     = ScriptJs.allData st.
Proof.
  intros (_ & Hq & Hpts & Htot & _).
  destruct (handle_is_pass ev st Hq) as (s & -> & Hqs & Ea & Ep & Et).
  split.
  - apply pass_settles; [exact Hqs | rewrite Ea, Ep; exact Hpts |].
    rewrite Et, Ea. exact Htot.
  - destruct (updateFilters_frame StringToNumber s) as (_ & _ & _ & ->).
    exact Ea.
Qed.

Lemma csvLoaded_settled (page : Controls) (data : list FilmRecord) :
  settled StringToNumber projection scaleSqrt
    (ScriptJs.csvLoaded StringToNumber projection scaleSqrt data
       (ScriptJs.initialState page)).
Proof.
  unfold ScriptJs.csvLoaded. apply pass_settles.
  - reflexivity.
  - cbn [ScriptJs.renderQueryCircles ScriptJs.set_query_circles
         ScriptJs.allData ScriptJs.location_points ScriptJs.initialState app].
    set (l := ScriptJs.renderDataPoints _ _ _ _). clearbody l.
    induction l; constructor; [repeat split | assumption].
  - reflexivity.
Qed.

(** X5.  In [src/script.js], once the rows are loaded and after any
    sequence of events, nothing on the page is stale: running
    [updateFilters] or [renderQueryCircles] once more would change
    nothing, so every point has the style of its verdict under the
    circles and controls as they are and the circles drawn are the
    circles tested.  The points are still those drawn for the rows kept
    at load time, and the visible count does not exceed the total. *)
Theorem page_never_stale
        (page : Controls) (data : list FilmRecord) (events : list Event) :
  let st := Session.run (ScriptJs.handle StringToNumber) events
              (ScriptJs.csvLoaded StringToNumber projection scaleSqrt data
                 (ScriptJs.initialState page)) in
  settled StringToNumber projection scaleSqrt st
  /\ ScriptJs.allData st = filter (hasValidCoordinates StringToNumber) data.
Proof.
  cbv zeta. unfold Session.run.
  assert (H : forall st0,
             settled StringToNumber projection scaleSqrt st0 ->
             settled StringToNumber projection scaleSqrt
               (fold_left (fun st ev => ScriptJs.handle StringToNumber ev st)
                          events st0)
             /\ ScriptJs.allData
                  (fold_left
                     (fun st ev => ScriptJs.handle StringToNumber ev st)
                     events st0)
                = ScriptJs.allData st0).
  { induction events as [|ev events IH]; intros st0 H0; simpl; [auto|].
    destruct (handle_settled ev st0 H0) as (H1 & E1).
    destruct (IH _ H1) as (H2 & E2). split; [exact H2 | congruence]. }
  destruct (H _ (csvLoaded_settled page data)) as (H1 & E1).
  split; [exact H1|]. rewrite E1. apply csvLoaded_allData.
Qed.

End Settled.

Section Settled000.
Import JS Shared Props Terms.
Variable StringToNumber : jsstring -> number.
Variable projection : number * number -> number * number.
Variable Math_cos : number -> number.

Lemma renderQueryCircles000_shape (st : Part000.State) :
  Part000.renderQueryCircles projection Math_cos st
  = Part000.set_labels
      (filter (fun l =>
                 negb (str_eqb (Part000.label_class l)
                               (str "query-circle-label")))
              (Part000.labels st)
       ++ labelsOf000 st)
      (Part000.set_query_circles (circlesOf000 projection Math_cos st) st).
Proof.
  destruct st as [a cA cB c dO nO q ls ps tot vis].
  unfold Part000.renderQueryCircles, circlesOf000, labelsOf000.
  cbn [Part000.set_labels Part000.set_query_circles
       Part000.circleA Part000.circleB Part000.allData Part000.controls
       Part000.directorOptions Part000.neighborhoodOptions
       Part000.query_circles Part000.labels
       Part000.location_points Part000.totalCount Part000.visibleCount app].
  rewrite <- app_assoc. reflexivity.
Qed.

Lemma kept_labels (l : list Part000.Label) :
  Forall (fun l => Part000.label_class l = str "circle-label") l ->
  filter (fun l =>
            negb (str_eqb (Part000.label_class l)
                          (str "query-circle-label"))) l
  = l.
Proof.
  induction 1 as [|a l Ha _ IH]; simpl; [reflexivity|].
  rewrite Ha, IH. reflexivity.
Qed.

Lemma labelsOf000_class (st : Part000.State) :
  Forall (fun l => Part000.label_class l = str "circle-label")
         (labelsOf000 st).
Proof. repeat constructor. Qed.

(** What a call of [renderQueryCircles] leaves: the circles of the
    globals, and two more [text] elements after those that were not
    removed. *)
Lemma renderQueryCircles000_draws (st : Part000.State) :
  let st' := Part000.renderQueryCircles projection Math_cos st in
  Part000.query_circles st' = circlesOf000 projection Math_cos st'
  /\ Part000.labels st'
     = filter (fun l =>
                 negb (str_eqb (Part000.label_class l)
                               (str "query-circle-label")))
              (Part000.labels st)
       ++ labelsOf000 st'
  /\ Part000.circleA st' = Part000.circleA st
  /\ Part000.circleB st' = Part000.circleB st
  /\ Part000.controls st' = Part000.controls st
  /\ Part000.allData st' = Part000.allData st
  /\ Part000.location_points st' = Part000.location_points st
  /\ Part000.totalCount st' = Part000.totalCount st.
Proof.
  cbv zeta. rewrite renderQueryCircles000_shape. repeat split.
Qed.

Lemma updateFilters000_labels (st : Part000.State) :
  Part000.labels (Part000.updateFilters StringToNumber projection Math_cos st)
  = Part000.labels st
  /\ Part000.query_circles
       (Part000.updateFilters StringToNumber projection Math_cos st)
     = Part000.query_circles st.
Proof. rewrite updateFilters000_map. split; reflexivity. Qed.

Lemma restyle000_keeps (st : Part000.State) (p : Part000.LocationPoint) :
  Part000.cx (restyle000 StringToNumber projection Math_cos st p)
  = Part000.cx p
  /\ Part000.cy (restyle000 StringToNumber projection Math_cos st p)
     = Part000.cy p
  /\ Part000.datum (restyle000 StringToNumber projection Math_cos st p)
     = Part000.datum p.
Proof.
  unfold restyle000.
  destruct (Part000.isVisible StringToNumber projection Math_cos st p);
    repeat split.
Qed.

Lemma counted000_sum (st : Part000.State)
      (l : list Part000.LocationPoint) :
  list_sum (map (counted000 StringToNumber projection Math_cos st) l)
  <= length l.
Proof.
  induction l as [|p l IH]; simpl; [lia|]. unfold counted000 at 1.
  destruct (Part000.isVisible StringToNumber projection Math_cos st p); lia.
Qed.

Lemma pass_settles000 (st : Part000.State) :
  Part000.query_circles st = circlesOf000 projection Math_cos st ->
  map Part000.datum (Part000.location_points st) = Part000.allData st ->
  Forall (fun p =>
            (Part000.cx p, Part000.cy p)
            = projection
                (ToNumber StringToNumber (Longitude (Part000.datum p)),
                 ToNumber StringToNumber (Latitude (Part000.datum p))))
         (Part000.location_points st) ->
  Part000.totalCount st = length (Part000.allData st) ->
  settled000 StringToNumber projection Math_cos
    (Part000.updateFilters StringToNumber projection Math_cos st).
Proof.
  intros Hq Hd Hpos Htot. unfold settled000.
  split; [apply updateFilters000_again|].
  rewrite updateFilters000_map. cbn [Part000.set_points Part000.allData
    Part000.location_points Part000.totalCount Part000.visibleCount
    Part000.query_circles].
  split; [exact Hq|].
  split.
  { rewrite map_map, <- Hd. apply map_ext. intros p.
    apply (restyle000_keeps st p). }
  split.
  { apply Forall_forall. intros q Hq'. apply in_map_iff in Hq'.
    destruct Hq' as (p & <- & Hp).
    destruct (restyle000_keeps st p) as (-> & -> & ->).
    rewrite Forall_forall in Hpos. exact (Hpos p Hp). }
  split; [exact Htot|].
  rewrite Htot, <- Hd, length_map. apply counted000_sum.
Qed.

Lemma handle000_is_pass (ev : Event) (st : Part000.State) :
  Part000.query_circles st = circlesOf000 projection Math_cos st ->
  exists s,
    Part000.handle StringToNumber projection Math_cos ev st
    = Part000.updateFilters StringToNumber projection Math_cos s
    /\ Part000.query_circles s = circlesOf000 projection Math_cos s
    /\ Part000.allData s = Part000.allData st
    /\ Part000.location_points s = Part000.location_points st
    /\ Part000.totalCount s = Part000.totalCount st.
Proof.
  intros Hq.
  destruct ev; unfold Part000.handle; cbv zeta;
    try match goal with
        | |- context [if ?b then _ else _] => destruct b
        end;
    (eexists; split; [reflexivity|]);
    first [ split; [exact Hq | repeat split]
          | match goal with
            | |- context [Part000.renderQueryCircles _ _ ?s1] =>
                destruct (renderQueryCircles000_draws s1)
                  as (E1 & _ & _ & _ & _ & E2 & E3 & E4);
                cbv zeta in E1, E2, E3, E4;
                split; [exact E1|]; rewrite E2, E3, E4; repeat split
            end ].
Qed.

Lemma handle000_settled (ev : Event) (st : Part000.State) :
  settled000 StringToNumber projection Math_cos st ->
  settled000 StringToNumber projection Math_cos
    (Part000.handle StringToNumber projection Math_cos ev st)
  /\ Part000.allData
       (Part000.handle StringToNumber projection Math_cos ev st)
     = Part000.allData st.
Proof.
  intros (_ & Hq & Hd & Hpos & Htot & _).
  destruct (handle000_is_pass ev st Hq) as (s & -> & Hqs & Ea & Ep & Et).
  split.
  - apply pass_settles000; [exact Hqs | | |].
    + rewrite Ea, Ep. exact Hd.
    + rewrite Ep. exact Hpos.
    + rewrite Et, Ea. exact Htot.
  - destruct (updateFilters000_frame StringToNumber projection Math_cos s)
      as (_ & _ & _ & ->).
    exact Ea.
Qed.

Lemma csvLoaded000_settled (page : Controls) (data : list FilmRecord) :
  settled000 StringToNumber projection Math_cos
    (Part000.csvLoaded StringToNumber projection Math_cos data
       (Part000.initialState page)).
Proof.
  unfold Part000.csvLoaded. cbv zeta.
  match goal with
  | |- context [Part000.renderQueryCircles _ _ ?s1] =>
      destruct (renderQueryCircles000_draws s1)
        as (E1 & _ & _ & _ & _ & E2 & E3 & E4);
      cbv zeta in E1, E2, E3, E4
  end.
  apply pass_settles000.
  - exact E1.
  - rewrite E2, E3.
    cbn [Part000.allData Part000.location_points Part000.initialState app].
    unfold Part000.renderDataPoints. rewrite map_map. simpl. apply map_id.
  - rewrite E3.
    cbn [Part000.location_points Part000.initialState app].
    unfold Part000.renderDataPoints. apply Forall_forall. intros p Hp.
    apply in_map_iff in Hp. destruct Hp as (d & <- & _). simpl.
    destruct (projection _). reflexivity.
  - rewrite E4, E2. reflexivity.
Qed.

(** X6.  In [src/unnamed/part_000], once the rows are loaded and after
    any sequence of events, the points, the query circles and the
    counts are up to date: a further [updateFilters] would change
    nothing, and the query circles drawn are those of the circles
    tested.  There is one point per row kept at load time, in order, at
    the projection of the coordinates of its row, and the visible count
    does not exceed the total.  The [text] labels of the circles are
    not part of this: see [labels_pile_up]. *)
Theorem page000_up_to_date
        (page : Controls) (data : list FilmRecord) (events : list Event) :
  let st := Session.run (Part000.handle StringToNumber projection Math_cos)
              events
              (Part000.csvLoaded StringToNumber projection Math_cos data
                 (Part000.initialState page)) in
  settled000 StringToNumber projection Math_cos st
  /\ Part000.allData st = filter (hasValidCoordinates StringToNumber) data.
Proof.
  cbv zeta. unfold Session.run.
  assert (H : forall st0,
             settled000 StringToNumber projection Math_cos st0 ->
             settled000 StringToNumber projection Math_cos
               (fold_left
                  (fun st ev =>
                     Part000.handle StringToNumber projection Math_cos ev st)
                  events st0)
             /\ Part000.allData
                  (fold_left
                     (fun st ev =>
                        Part000.handle StringToNumber projection Math_cos
                          ev st)
                     events st0)
                = Part000.allData st0).
  { induction events as [|ev events IH]; intros st0 H0; simpl; [auto|].
    destruct (handle000_settled ev st0 H0) as (H1 & E1).
    destruct (IH _ H1) as (H2 & E2). split; [exact H2 | congruence]. }
  destruct (H _ (csvLoaded000_settled page data)) as (H1 & E1).
  split; [exact H1|]. rewrite E1. apply csvLoaded000_allData.
Qed.

End Settled000.

(** ** Circles and controls over a session *)

Section SessionFacts.
Import JS Shared Props Terms Session.
Variable StringToNumber : jsstring -> number.
Variable projection : number * number -> number * number.
Variable Math_cos : number -> number.

(** The circles and the controls evolve on their own: the points on the
    page play no part. *)
Lemma handle_effect (ev : Event) (st : ScriptJs.State) :
  let st' := ScriptJs.handle StringToNumber ev st in
  ScriptJs.circleA st'
  = nextCircleA ScriptJs.circleA_start ev (ScriptJs.circleA st)
  /\ ScriptJs.circleB st'
     = nextCircleB ScriptJs.circleB_start ev (ScriptJs.circleB st)
  /\ ScriptJs.controls st' = nextControls defaults ev (ScriptJs.controls st).
Proof.
  cbv zeta. destruct ev; unfold ScriptJs.handle;
    match goal with
    | |- context [ScriptJs.updateFilters _ ?s] =>
        destruct (updateFilters_frame StringToNumber s) as (-> & -> & -> & _)
    end;
    cbn [nextCircleA nextCircleB nextControls];
    try (repeat split; reflexivity);
    cbn [ScriptJs.controls ScriptJs.set_controls with_yearMin with_yearMax
         yearMin yearMax];
    match goal with |- context [if ?b then _ else _] => destruct b end;
    repeat split; reflexivity.
Qed.

Lemma handle000_effect (ev : Event) (st : Part000.State) :
  let st' := Part000.handle StringToNumber projection Math_cos ev st in
  Part000.circleA st'
  = nextCircleA Part000.circleA_start ev (Part000.circleA st)
  /\ Part000.circleB st'
     = nextCircleB Part000.circleB_start ev (Part000.circleB st)
  /\ Part000.controls st'
     = nextControls defaults000 ev (Part000.controls st).
Proof.
  cbv zeta. destruct ev; unfold Part000.handle;
    match goal with
    | |- context [Part000.updateFilters _ _ _ ?s] =>
        destruct (updateFilters000_frame StringToNumber projection Math_cos s)
          as (-> & -> & -> & _)
    end;
    cbn [nextCircleA nextCircleB nextControls];
    try (repeat split; reflexivity);
    cbn [Part000.controls Part000.set_controls with_yearMin with_yearMax
         yearMin yearMax];
    match goal with |- context [if ?b then _ else _] => destruct b end;
    repeat split; reflexivity.
Qed.

Lemma start_on_canvas :
  withinCanvas ScriptJs.circleA_start /\ withinCanvas ScriptJs.circleB_start
  /\ withinCanvas Part000.circleA_start
  /\ withinCanvas Part000.circleB_start.
Proof. vm_compute. repeat split; reflexivity. Qed.

Lemma nextCircleA_on_canvas (start : Circle.t) (ev : Event) (c : Circle.t) :
  withinCanvas start -> dragIsNumeric ev -> withinCanvas c ->
  withinCanvas (nextCircleA start ev c).
Proof.
  intros Hs Hev Hc. destruct ev; cbn [nextCircleA]; try assumption.
  destruct Hev as (Hx & Hy).
  apply (clamped_withinCanvas event_x event_y); [assumption .. | |];
    reflexivity.
Qed.

Lemma nextCircleB_on_canvas (start : Circle.t) (ev : Event) (c : Circle.t) :
  withinCanvas start -> dragIsNumeric ev -> withinCanvas c ->
  withinCanvas (nextCircleB start ev c).
Proof.
  intros Hs Hev Hc. destruct ev; cbn [nextCircleB]; try assumption.
  destruct Hev as (Hx & Hy).
  apply (clamped_withinCanvas event_x event_y); [assumption .. | |];
    reflexivity.
Qed.

Lemma run_invariant {State : Type} (handle : Event -> State -> State)
      (P : State -> Prop) (Q : Event -> Prop) :
  (forall ev s, Q ev -> P s -> P (handle ev s)) ->
  forall events s, Forall Q events -> P s -> P (run handle events s).
Proof.
  intros Hstep events s Hev. revert s. unfold run.
  induction Hev as [|ev events Hq _ IH]; intros s Hs; simpl; [exact Hs|].
  apply IH, Hstep; assumption.
Qed.

Lemma csvLoaded_globals
      (scaleSqrt : number * number -> number * number -> number -> number)
      (data : list FilmRecord) (st : ScriptJs.State) :
  let st' := ScriptJs.csvLoaded StringToNumber projection scaleSqrt data st in
  ScriptJs.circleA st' = ScriptJs.circleA st
  /\ ScriptJs.circleB st' = ScriptJs.circleB st
  /\ ScriptJs.controls st' = ScriptJs.controls st.
Proof.
  cbv zeta. unfold ScriptJs.csvLoaded.
  match goal with
  | |- context [ScriptJs.updateFilters _ ?s] =>
      destruct (updateFilters_frame StringToNumber s) as (-> & -> & -> & _)
  end.
  repeat split; reflexivity.
Qed.

Lemma csvLoaded000_globals (data : list FilmRecord) (st : Part000.State) :
  let st' := Part000.csvLoaded StringToNumber projection Math_cos data st in
  Part000.circleA st' = Part000.circleA st
  /\ Part000.circleB st' = Part000.circleB st
  /\ Part000.controls st' = Part000.controls st.
Proof.
  cbv zeta. unfold Part000.csvLoaded.
  match goal with
  | |- context [Part000.updateFilters _ _ _ ?s] =>
      destruct (updateFilters000_frame StringToNumber projection Math_cos s)
        as (-> & -> & -> & _)
  end.
  repeat split; reflexivity.
Qed.

(** X7.  Whatever the user does, the centres of both query circles stay
    on the canvas: from the loaded page, after any sequence of events
    whose drag coordinates are numbers, each centre lies in
    [0, mapWidth] x [0, mapHeight], in both scripts. *)
Theorem circles_stay_on_canvas
        (scaleSqrt : number * number -> number * number -> number -> number)
        (page : Controls) (data : list FilmRecord) (events : list Event) :
  Forall dragIsNumeric events ->
  let st := run (ScriptJs.handle StringToNumber) events
              (ScriptJs.csvLoaded StringToNumber projection scaleSqrt data
                 (ScriptJs.initialState page)) in
  let st0 := run (Part000.handle StringToNumber projection Math_cos) events
               (Part000.csvLoaded StringToNumber projection Math_cos data
                  (Part000.initialState page)) in
  (withinCanvas (ScriptJs.circleA st) /\ withinCanvas (ScriptJs.circleB st))
  /\ (withinCanvas (Part000.circleA st0)
      /\ withinCanvas (Part000.circleB st0)).
Proof.
  intros Hev. cbv zeta.
  destruct start_on_canvas as (HA & HB & HA0 & HB0).
  split.
  - apply (run_invariant (ScriptJs.handle StringToNumber)
             (fun s => withinCanvas (ScriptJs.circleA s)
                       /\ withinCanvas (ScriptJs.circleB s))
             dragIsNumeric); [| exact Hev |].
    + intros ev s Hq (H1 & H2).
      destruct (handle_effect ev s) as (-> & -> & _).
      split; [apply nextCircleA_on_canvas | apply nextCircleB_on_canvas];
        assumption.
    + destruct (csvLoaded_globals scaleSqrt data (ScriptJs.initialState page))
        as (-> & -> & _).
      split; assumption.
  - apply (run_invariant (Part000.handle StringToNumber projection Math_cos)
             (fun s => withinCanvas (Part000.circleA s)
                       /\ withinCanvas (Part000.circleB s))
             dragIsNumeric); [| exact Hev |].
    + intros ev s Hq (H1 & H2).
      destruct (handle000_effect ev s) as (-> & -> & _).
      split; [apply nextCircleA_on_canvas | apply nextCircleB_on_canvas];
        assumption.
    + destruct (csvLoaded000_globals data (Part000.initialState page))
        as (-> & -> & _).
      split; assumption.
Qed.

Lemma nextControls_ordered (dflt : Controls) (ev : Event) (c : Controls) :
  yearsOrdered dflt -> yearIsNumeric ev -> yearsOrdered c ->
  yearsOrdered (nextControls dflt ev c).
Proof.
  intros Hd Hev Hc. destruct (le_not_nan _ _ Hc) as (Hmin & Hmax).
  destruct ev; cbn [nextControls yearIsNumeric] in *; try assumption.
  - apply (afterYearMinInput_ordered value c); [assumption .. |].
    unfold afterYearMinInput. destruct (gt value (yearMax c));
      split; reflexivity.
  - apply (afterYearMaxInput_ordered value c); [assumption .. |].
    unfold afterYearMaxInput. destruct (lt value (yearMin c));
      split; reflexivity.
Qed.

Lemma defaults_ordered : yearsOrdered defaults /\ yearsOrdered defaults000.
Proof. split; vm_compute; reflexivity. Qed.

(** X8.  The year range never inverts during a visit: when the page
    opens with [yearMin <= yearMax], then after any sequence of events,
    the reset button included, whose year-slider values are numbers,
    [yearMin <= yearMax] still holds, in both scripts. *)
Theorem years_stay_ordered_over_session
        (scaleSqrt : number * number -> number * number -> number -> number)
        (page : Controls) (data : list FilmRecord) (events : list Event) :
  yearsOrdered page ->
  Forall yearIsNumeric events ->
  let st := run (ScriptJs.handle StringToNumber) events
              (ScriptJs.csvLoaded StringToNumber projection scaleSqrt data
                 (ScriptJs.initialState page)) in
  let st0 := run (Part000.handle StringToNumber projection Math_cos) events
               (Part000.csvLoaded StringToNumber projection Math_cos data
                  (Part000.initialState page)) in
  yearsOrdered (ScriptJs.controls st) /\ yearsOrdered (Part000.controls st0).
Proof.
  intros Hpage Hev. cbv zeta. destruct defaults_ordered as (Hd & Hd0).
  split.
  - apply (run_invariant (ScriptJs.handle StringToNumber)
             (fun s => yearsOrdered (ScriptJs.controls s)) yearIsNumeric);
      [| exact Hev |].
    + intros ev s Hq Hs. destruct (handle_effect ev s) as (_ & _ & ->).
      apply nextControls_ordered; assumption.
    + destruct (csvLoaded_globals scaleSqrt data (ScriptJs.initialState page))
        as (_ & _ & ->).
      exact Hpage.
  - apply (run_invariant (Part000.handle StringToNumber projection Math_cos)
             (fun s => yearsOrdered (Part000.controls s)) yearIsNumeric);
      [| exact Hev |].
    + intros ev s Hq Hs. destruct (handle000_effect ev s) as (_ & _ & ->).
      apply nextControls_ordered; assumption.
    + destruct (csvLoaded000_globals data (Part000.initialState page))
        as (_ & _ & ->).
      exact Hpage.
Qed.

Lemma reset_again (st : ScriptJs.State) :
  ScriptJs.handle StringToNumber ResetClick
    (ScriptJs.handle StringToNumber ResetClick st)
  = ScriptJs.handle StringToNumber ResetClick st.
Proof.
  unfold ScriptJs.handle. cbv zeta.
  match goal with
  | |- ScriptJs.updateFilters _ ?inner = ScriptJs.updateFilters _ ?s0 =>
      replace inner with (ScriptJs.updateFilters StringToNumber s0);
        [apply updateFilters_again|]
  end.
  rewrite updateFilters_map. reflexivity.
Qed.

Lemma set_query_circles000_same (q : list Circle.t) (st : Part000.State) :
  Part000.query_circles st = q -> Part000.set_query_circles q st = st.
Proof. destruct st. simpl. intros <-. reflexivity. Qed.

Lemma updateFilters000_set_labels (l : list Part000.Label)
      (st : Part000.State) :
  Part000.updateFilters StringToNumber projection Math_cos
    (Part000.set_labels l st)
  = Part000.set_labels l
      (Part000.updateFilters StringToNumber projection Math_cos st).
Proof. rewrite !updateFilters000_map. reflexivity. Qed.

Lemma filter_again {A : Type} (f : A -> bool) (l : list A) :
  filter f (filter f l) = filter f l.
Proof.
  induction l as [|a l IH]; simpl; [reflexivity|].
  destruct (f a) eqn:E; simpl; rewrite ?E, IH; reflexivity.
Qed.

(** A second click on the reset button of [src/unnamed/part_000]: the
    page is as the first click left it, but for two more [text]
    elements. *)
Lemma reset000_again (st : Part000.State) :
  let st' := Part000.handle StringToNumber projection Math_cos ResetClick
               st in
  Part000.handle StringToNumber projection Math_cos ResetClick st'
  = Part000.set_labels (Part000.labels st' ++ labelsOf000 st') st'.
Proof.
  cbv zeta. unfold Part000.handle. cbv zeta.
  set (g0 := Part000.set_controls _
               (Part000.set_circleB _ (Part000.set_circleA _ st))).
  set (s0 := Part000.renderQueryCircles projection Math_cos g0).
  set (U := Part000.updateFilters StringToNumber projection Math_cos s0).
  destruct (renderQueryCircles000_draws projection Math_cos g0)
    as (Eq & El & EA & EB & EC & _). cbv zeta in Eq, El, EA, EB, EC.
  fold s0 in Eq, El, EA, EB, EC.
  destruct (updateFilters000_frame StringToNumber projection Math_cos s0)
    as (UA & UB & UC & _). fold U in UA, UB, UC.
  destruct (updateFilters000_labels StringToNumber projection Math_cos s0)
    as (ULab & UQ). fold U in ULab, UQ.
  assert (E1 : Part000.set_controls (Part000.controls g0)
                 (Part000.set_circleB (Part000.circleB g0)
                    (Part000.set_circleA (Part000.circleA g0) U)) = U).
  { rewrite <- EA, <- EB, <- EC, <- UA, <- UB, <- UC.
    destruct U. reflexivity. }
  change (Part000.updateFilters StringToNumber projection Math_cos
            (Part000.renderQueryCircles projection Math_cos
               (Part000.set_controls (Part000.controls g0)
                  (Part000.set_circleB (Part000.circleB g0)
                     (Part000.set_circleA (Part000.circleA g0) U))))
          = Part000.set_labels (Part000.labels U ++ labelsOf000 U) U).
  rewrite E1, (renderQueryCircles000_shape projection Math_cos U).
  assert (Ecirc : circlesOf000 projection Math_cos U
                  = circlesOf000 projection Math_cos s0)
    by (unfold circlesOf000; rewrite UA, UB; reflexivity).
  rewrite (set_query_circles000_same _ U)
    by (rewrite UQ, Eq; symmetry; exact Ecirc).
  assert (Ekeep : filter (fun l =>
                            negb (str_eqb (Part000.label_class l)
                                          (str "query-circle-label")))
                         (Part000.labels U)
                  = Part000.labels U).
  { rewrite ULab, El, filter_app, filter_again.
    rewrite (kept_labels _ (labelsOf000_class s0)). reflexivity. }
  assert (EU : Part000.updateFilters StringToNumber projection Math_cos U
               = U) by (unfold U; apply updateFilters000_again).
  rewrite Ekeep, updateFilters000_set_labels, EU. reflexivity.
Qed.

(** X9.  The reset button, in both scripts: it puts both circles back at
    their start positions and the controls at their defaults (radii 50
    and years 1915 to 2023 in [src/script.js], radii 1 and years 1940 to
    2025 in [src/unnamed/part_000]), whatever they were; it keeps the
    loaded rows; the radius sliders then show the radii of the circles
    and the year range is in order.  In [src/script.js] a second click
    changes nothing at all, the restyled points and the count included.
    In [src/unnamed/part_000] a second click leaves all of that as it
    was and appends two more [text] labels at the start positions: the
    labels of the first click are not removed. *)
Theorem reset_restores_defaults (st : ScriptJs.State) (st0 : Part000.State) :
  let st' := ScriptJs.handle StringToNumber ResetClick st in
  let st0' := Part000.handle StringToNumber projection Math_cos ResetClick
                st0 in
  (ScriptJs.circleA st' = ScriptJs.circleA_start
   /\ ScriptJs.circleB st' = ScriptJs.circleB_start
   /\ ScriptJs.controls st' = defaults
   /\ ScriptJs.allData st' = ScriptJs.allData st
   /\ radiiInStep (ScriptJs.circleA st') (ScriptJs.circleB st')
        (ScriptJs.controls st')
   /\ yearsOrdered (ScriptJs.controls st')
   /\ ScriptJs.handle StringToNumber ResetClick st' = st')
  /\ (Part000.circleA st0' = Part000.circleA_start
      /\ Part000.circleB st0' = Part000.circleB_start
      /\ Part000.controls st0' = defaults000
      /\ Part000.allData st0' = Part000.allData st0
      /\ radiiInStep (Part000.circleA st0') (Part000.circleB st0')
           (Part000.controls st0')
      /\ yearsOrdered (Part000.controls st0')
      /\ Part000.handle StringToNumber projection Math_cos ResetClick st0'
         = Part000.set_labels
             (Part000.labels st0'
              ++ [Part000.circleLabel Part000.circleA_start
                    (str "#3498db") (str "A");
                  Part000.circleLabel Part000.circleB_start
                    (str "#2ecc71") (str "B")])
             st0').
Proof.
  cbv zeta. destruct defaults_ordered as (Hd & Hd0). split.
  - destruct (handle_effect ResetClick st) as (EA & EB & EC).
    cbv zeta in EA, EB, EC. cbn [nextCircleA nextCircleB nextControls] in *.
    rewrite EA, EB, EC.
    repeat split; try reflexivity; try assumption.
    + unfold ScriptJs.handle. cbv zeta.
      match goal with
      | |- context [ScriptJs.updateFilters _ ?s] =>
          destruct (updateFilters_frame StringToNumber s) as (_ & _ & _ & E)
      end.
      rewrite (proj1 E) || rewrite E. reflexivity.
    + apply reset_again.
  - destruct (handle000_effect ResetClick st0) as (EA & EB & EC).
    cbv zeta in EA, EB, EC. cbn [nextCircleA nextCircleB nextControls] in *.
    pose proof (reset000_again st0) as Hagain. cbv zeta in Hagain.
    unfold labelsOf000 in Hagain. rewrite EA, EB in Hagain.
    rewrite EA, EB, EC.
    repeat split; try reflexivity; try assumption.
    unfold Part000.handle. cbv zeta.
    match goal with
    | |- context [Part000.updateFilters _ _ _ ?s] =>
        destruct (updateFilters000_frame StringToNumber projection
                    Math_cos s) as (_ & _ & _ & E)
    end.
    rewrite (proj1 E) || rewrite E.
    match goal with
    | |- context [Part000.renderQueryCircles _ _ ?s1] =>
        destruct (renderQueryCircles000_draws projection Math_cos s1)
          as (_ & _ & _ & _ & _ & E2 & _)
    end.
    cbv zeta in E2. rewrite E2. reflexivity.
Qed.

Lemma next_in_step (sA sB : Circle.t) (dflt : Controls) (ev : Event)
      (a b : Circle.t) (c : Controls) :
  radiiInStep sA sB dflt -> radiiInStep a b c ->
  radiiInStep (nextCircleA sA ev a) (nextCircleB sB ev b)
    (nextControls dflt ev c).
Proof.
  unfold radiiInStep. intros (Hd1 & Hd2) (H1 & H2).
  destruct ev; cbn [nextCircleA nextCircleB nextControls Circle.radius];
    try (split; assumption);
    try (cbn [with_radiusA with_radiusB with_directorFilter
              with_neighborhoodFilter radiusA radiusB];
         split; first [assumption | reflexivity]).
  - destruct (gt value (yearMax c));
      cbn [with_yearMin with_yearMax radiusA radiusB]; split; assumption.
  - destruct (lt value (yearMin c));
      cbn [with_yearMin with_yearMax radiusA radiusB]; split; assumption.
Qed.

(** X10.  A radius slider and its circle never drift apart: in a state
    where each radius slider shows the radius of its circle, they still
    agree after any sequence of events, in both scripts.  No handler
    changes the radius of a circle without the slider, or the slider
    without the circle. *)
Theorem radius_sliders_track_circles
        (st : ScriptJs.State) (st0 : Part000.State) (events : list Event) :
  radiiInStep (ScriptJs.circleA st) (ScriptJs.circleB st)
    (ScriptJs.controls st) ->
  radiiInStep (Part000.circleA st0) (Part000.circleB st0)
    (Part000.controls st0) ->
  let st' := run (ScriptJs.handle StringToNumber) events st in
  let st0' := run (Part000.handle StringToNumber projection Math_cos) events
                st0 in
  radiiInStep (ScriptJs.circleA st') (ScriptJs.circleB st')
    (ScriptJs.controls st')
  /\ radiiInStep (Part000.circleA st0') (Part000.circleB st0')
       (Part000.controls st0').
Proof.
  intros H H0. cbv zeta. split.
  - apply (run_invariant (ScriptJs.handle StringToNumber)
             (fun s => radiiInStep (ScriptJs.circleA s) (ScriptJs.circleB s)
                         (ScriptJs.controls s))
             (fun _ => True)); [| apply Forall_forall; trivial | exact H].
    intros ev s _ Hs. destruct (handle_effect ev s) as (-> & -> & ->).
    apply next_in_step; [split; reflexivity | exact Hs].
  - apply (run_invariant (Part000.handle StringToNumber projection Math_cos)
             (fun s => radiiInStep (Part000.circleA s) (Part000.circleB s)
                         (Part000.controls s))
             (fun _ => True)); [| apply Forall_forall; trivial | exact H0].
    intros ev s _ Hs. destruct (handle000_effect ev s) as (-> & -> & ->).
    apply next_in_step; [split; reflexivity | exact Hs].
Qed.

End SessionFacts.

Lemma circles_stay_on_canvas_witness :
  Props.withinCanvas
    (ScriptJs.circleA
       (Session.run (ScriptJs.handle Sample.parseDigits) Cases.session
          Sample.loaded))
  /\ Props.withinCanvas
       (Part000.circleB
          (Session.run
             (Part000.handle Sample.parseDigits Sample.pixelProjection
                Sample.cosSeries) Cases.session Sample.loaded000)).
Proof.
  assert (Hev : Forall Session.dragIsNumeric Cases.session)
    by (repeat constructor).
  pose proof (circles_stay_on_canvas Sample.parseDigits
                Sample.pixelProjection Sample.cosSeries D3.scaleSqrt
                Sample.page Sample.films Cases.session Hev) as H.
  cbv zeta in H. destruct H as ((HA & _) & (_ & HB)).
  split; [exact HA | exact HB].
Defined.

Lemma years_stay_ordered_over_session_witness :
  Props.yearsOrdered
    (ScriptJs.controls
       (Session.run (ScriptJs.handle Sample.parseDigits) Cases.session
          Sample.loaded))
  /\ Props.yearsOrdered
       (Part000.controls
          (Session.run
             (Part000.handle Sample.parseDigits Sample.pixelProjection
                Sample.cosSeries) Cases.session Sample.loaded000)).
Proof.
  assert (Hev : Forall Session.yearIsNumeric Cases.session)
    by (repeat constructor).
  exact (years_stay_ordered_over_session Sample.parseDigits
           Sample.pixelProjection Sample.cosSeries D3.scaleSqrt
           Sample.page Sample.films Cases.session eq_refl Hev).
Defined.

Lemma radius_sliders_track_circles_witness :
  Session.radiiInStep
    (ScriptJs.circleA
       (Session.run (ScriptJs.handle Sample.parseDigits) Cases.session
          Sample.loaded))
    (ScriptJs.circleB
       (Session.run (ScriptJs.handle Sample.parseDigits) Cases.session
          Sample.loaded))
    (ScriptJs.controls
       (Session.run (ScriptJs.handle Sample.parseDigits) Cases.session
          Sample.loaded)).
Proof.
  assert (H : Session.radiiInStep (ScriptJs.circleA Sample.loaded)
                (ScriptJs.circleB Sample.loaded)
                (ScriptJs.controls Sample.loaded))
    by (split; vm_compute; reflexivity).
  assert (H0 : Session.radiiInStep
                 (Part000.circleA
                    (Part000.handle Sample.parseDigits
                       Sample.pixelProjection Sample.cosSeries
                       Shared.ResetClick Sample.loaded000))
                 (Part000.circleB
                    (Part000.handle Sample.parseDigits
                       Sample.pixelProjection Sample.cosSeries
                       Shared.ResetClick Sample.loaded000))
                 (Part000.controls
                    (Part000.handle Sample.parseDigits
                       Sample.pixelProjection Sample.cosSeries
                       Shared.ResetClick Sample.loaded000)))
    by (split; vm_compute; reflexivity).
  exact (proj1 (radius_sliders_track_circles Sample.parseDigits
                  Sample.pixelProjection Sample.cosSeries _ _
                  Cases.session H H0)).
Defined.

(** ** The labels of the query circles in [src/unnamed/part_000] *)

Section Labels000.
Import JS Shared Props Terms Session.
Variable StringToNumber : jsstring -> number.
Variable projection : number * number -> number * number.
Variable Math_cos : number -> number.

Lemma labelsOf000_reads (st s : Part000.State) :
  Part000.circleA s = Part000.circleA st ->
  Part000.circleB s = Part000.circleB st ->
  labelsOf000 s = labelsOf000 st.
Proof. unfold labelsOf000. intros -> ->. reflexivity. Qed.

Lemma handle000_labels (ev : Event) (st : Part000.State) :
  let st' := Part000.handle StringToNumber projection Math_cos ev st in
  Forall (fun l => Part000.label_class l = str "circle-label")
         (Part000.labels st) ->
  Part000.labels st'
  = Part000.labels st ++ (if redraws ev then labelsOf000 st' else [])
  /\ (redraws ev = false -> labelsOf000 st' = labelsOf000 st).
Proof.
  cbv zeta. intros Hclass.
  destruct (handle000_effect StringToNumber projection Math_cos ev st)
    as (EA & EB & _). cbv zeta in EA, EB.
  assert (Hsame : redraws ev = false ->
                  labelsOf000
                    (Part000.handle StringToNumber projection Math_cos ev st)
                  = labelsOf000 st).
  { intros Hr. apply labelsOf000_reads; [rewrite EA | rewrite EB];
      destruct ev; try discriminate Hr; reflexivity. }
  split; [|exact Hsame].
  destruct (redraws ev) eqn:Hr.
  - assert (Hl : exists s1,
               Part000.handle StringToNumber projection Math_cos ev st
               = Part000.updateFilters StringToNumber projection Math_cos
                   (Part000.renderQueryCircles projection Math_cos s1)
               /\ Part000.labels s1 = Part000.labels st)
      by (destruct ev; try discriminate Hr; unfold Part000.handle;
          cbv zeta; eexists; split; reflexivity).
    destruct Hl as (s1 & E & El).
    rewrite E at 1.
    rewrite (proj1 (updateFilters000_labels StringToNumber projection
                      Math_cos _)).
    destruct (renderQueryCircles000_draws projection Math_cos s1)
      as (_ & El' & EA' & EB' & _). cbv zeta in El', EA', EB'.
    rewrite El', El, (kept_labels _ Hclass). f_equal.
    rewrite E. apply eq_sym, labelsOf000_reads.
    + destruct (updateFilters000_frame StringToNumber projection Math_cos
                  (Part000.renderQueryCircles projection Math_cos s1))
        as (-> & _). reflexivity.
    + destruct (updateFilters000_frame StringToNumber projection Math_cos
                  (Part000.renderQueryCircles projection Math_cos s1))
        as (_ & -> & _). reflexivity.
  - rewrite app_nil_r.
    destruct ev; try discriminate Hr; unfold Part000.handle; cbv zeta;
      rewrite (proj1 (updateFilters000_labels StringToNumber projection
                        Math_cos _));
      try match goal with
          | |- context [if ?b then _ else _] => destruct b
          end;
      reflexivity.
Qed.

Lemma handle000_labelled (ev : Event) (st : Part000.State) :
  labelled000 st ->
  labelled000 (Part000.handle StringToNumber projection Math_cos ev st)
  /\ length (Part000.labels
               (Part000.handle StringToNumber projection Math_cos ev st))
     = length (Part000.labels st) + (if redraws ev then 2 else 0).
Proof.
  intros (Hclass & older & Hold).
  destruct (handle000_labels ev st Hclass) as (E & Hsame).
  cbv zeta in E, Hsame. rewrite E. unfold labelled000. rewrite E.
  destruct (redraws ev).
  - split; [split|].
    + apply Forall_app. split; [exact Hclass | apply labelsOf000_class].
    + exists (Part000.labels st). reflexivity.
    + rewrite length_app. reflexivity.
  - rewrite app_nil_r. split; [split|].
    + exact Hclass.
    + exists older. rewrite (Hsame eq_refl). exact Hold.
    + lia.
Qed.

Lemma csvLoaded000_labelled (page : Controls) (data : list FilmRecord) :
  let st := Part000.csvLoaded StringToNumber projection Math_cos data
              (Part000.initialState page) in
  labelled000 st /\ length (Part000.labels st) = 2.
Proof.
  cbv zeta. unfold Part000.csvLoaded. cbv zeta.
  match goal with
  | |- context [Part000.renderQueryCircles _ _ ?s1] =>
      destruct (renderQueryCircles000_draws projection Math_cos s1)
        as (_ & El & EA & EB & _); cbv zeta in El, EA, EB;
      set (s := Part000.renderQueryCircles projection Math_cos s1) in *
  end.
  destruct (updateFilters000_frame StringToNumber projection Math_cos s)
    as (UA & UB & _).
  destruct (updateFilters000_labels StringToNumber projection Math_cos s)
    as (UL & _).
  cbn [Part000.labels Part000.initialState filter app] in El.
  unfold labelled000. rewrite UL, El.
  rewrite (labelsOf000_reads s _ UA UB).
  split; [split|reflexivity].
  - apply labelsOf000_class.
  - exists []. reflexivity.
Qed.

(** X21.  The labels of the query circles pile up in
    [src/unnamed/part_000]: [renderQueryCircles] removes the elements
    of class [query-circle-label], but the labels it appends have the
    class [circle-label], so none is ever removed.  After the load and
    any sequence of events the page holds two labels for the load and
    two more for every drag, radius input and reset; they all have the
    class [circle-label]; the last two sit at the centres of the
    circles; and every further event keeps all labels there are. *)
Theorem labels_pile_up
        (page : Controls) (data : list FilmRecord) (events : list Event) :
  let st := run (Part000.handle StringToNumber projection Math_cos) events
              (Part000.csvLoaded StringToNumber projection Math_cos data
                 (Part000.initialState page)) in
  length (Part000.labels st) = 2 + 2 * length (filter redraws events)
  /\ labelled000 st
  /\ forall ev,
       Part000.labels
         (Part000.handle StringToNumber projection Math_cos ev st)
       = Part000.labels st
         ++ (if redraws ev
             then labelsOf000
                    (Part000.handle StringToNumber projection Math_cos ev st)
             else []).
Proof.
  cbv zeta. unfold run.
  assert (H : forall st0,
             labelled000 st0 ->
             labelled000
               (fold_left
                  (fun st ev =>
                     Part000.handle StringToNumber projection Math_cos ev st)
                  events st0)
             /\ length
                  (Part000.labels
                     (fold_left
                        (fun st ev =>
                           Part000.handle StringToNumber projection Math_cos
                             ev st)
                        events st0))
                = length (Part000.labels st0)
                  + 2 * length (filter redraws events)).
  { induction events as [|ev events IH]; intros st0 H0; cbn [fold_left].
    - split; [exact H0 | simpl; lia].
    - destruct (handle000_labelled ev st0 H0) as (H1 & E1).
      destruct (IH _ H1) as (H2 & E2). split; [exact H2|].
      rewrite E2, E1. cbn [filter]. destruct (redraws ev); simpl; lia. }
  destruct (csvLoaded000_labelled page data) as (H0 & E0). cbv zeta in H0, E0.
  destruct (H _ H0) as (H1 & E1).
  split; [rewrite E1, E0; reflexivity|]. split; [exact H1|].
  intros ev. exact (proj1 (handle000_labels ev _ (proj1 H1))).
Qed.

End Labels000.

(** ** The membership test at the edges of the numbers *)

Section EdgeNumbers.
Import JS Shared Props Terms.

Lemma shr_1_nonneg (mrs : shr_record) :
  (0 <= shr_m mrs)%Z -> (0 <= shr_m (shr_1 mrs))%Z.
Proof.
  destruct mrs as [m r s]. simpl. destruct m as [|[p|p|]|p]; simpl; lia.
Qed.

Lemma iter_shr_1_nonneg (p : positive) (mrs : shr_record) :
  (0 <= shr_m mrs)%Z -> (0 <= shr_m (iter_pos shr_1 p mrs))%Z.
Proof.
  revert mrs. induction p as [p IH|p IH|]; intros mrs H; simpl.
  - apply IH, IH, shr_1_nonneg, H.
  - apply IH, IH, H.
  - apply shr_1_nonneg, H.
Qed.

Lemma shr_fexp_nonneg (m e : Z) (l : location) :
  (0 <= m)%Z -> (0 <= shr_m (fst (shr_fexp prec emax m e l)))%Z.
Proof.
  intros H. unfold shr_fexp, shr.
  assert (H0 : (0 <= shr_m (shr_record_of_loc m l))%Z)
    by (destruct l as [|[]]; exact H).
  destruct (fexp prec emax (Zdigits2 m + e) - e)%Z; simpl;
    [exact H0 | apply iter_shr_1_nonneg, H0 | exact H0].
Qed.

Lemma round_nearest_even_nonneg (m : Z) (l : location) :
  (0 <= m)%Z -> (0 <= round_nearest_even m l)%Z.
Proof.
  intros H. destruct l as [|[]]; simpl; try lia.
  destruct (Z.even m); lia.
Qed.

(** Rounding a non-negative mantissa under the sign [+] never yields
    NaN nor a negative number. *)
Lemma binary_round_aux_nonneg (m e : Z) (l : location) :
  (0 <= m)%Z ->
  le (S754_zero false) (binary_round_aux prec emax false m e l) = true.
Proof.
  intros H. unfold binary_round_aux.
  pose proof (shr_fexp_nonneg m e l H) as H1.
  destruct (shr_fexp prec emax m e l) as [mrs' e'].
  cbn [fst] in H1.
  pose proof (shr_fexp_nonneg _ e' loc_Exact
                (round_nearest_even_nonneg _ (loc_of_shr_record mrs') H1))
    as H2.
  destruct (shr_fexp prec emax
              (round_nearest_even (shr_m mrs') (loc_of_shr_record mrs'))
              e' loc_Exact) as [mrs'' e''].
  cbn [fst] in H2.
  destruct (shr_m mrs'') as [|q|q]; [reflexivity | | lia].
  destruct (e'' <=? emax - prec)%Z; reflexivity.
Qed.

(** A square is never negative, and NaN only for NaN. *)
Lemma square_nonneg (a : number) :
  isNaN a = false -> le (S754_zero false) (mul a a) = true.
Proof.
  destruct a as [s|s| |s m e]; intros H; try discriminate.
  - destruct s; reflexivity.
  - destruct s; reflexivity.
  - unfold mul, SFmul.
    replace (xorb s s) with false by (destruct s; reflexivity).
    apply binary_round_aux_nonneg. lia.
Qed.

Lemma sub_self (a : number) :
  Number_isFinite a = true -> sub a a = S754_zero false.
Proof.
  destruct a as [s|s| |s m e]; intros H; try discriminate.
  - destruct s; reflexivity.
  - unfold sub, SFsub. cbv zeta. rewrite Z.sub_diag. reflexivity.
Qed.

Lemma sqDistance_at_centre (c : Circle.t) :
  Number_isFinite (Circle.x c) = true ->
  Number_isFinite (Circle.y c) = true ->
  sqDistance (Circle.x c) (Circle.y c) c = S754_zero false.
Proof.
  intros Hx Hy. unfold sqDistance. rewrite !sub_self by assumption.
  reflexivity.
Qed.

Lemma le_nan_right (a b : number) : isNaN b = true -> le a b = false.
Proof.
  destruct b; try discriminate. intros _. unfold le, SFleb.
  destruct a; reflexivity.
Qed.

Lemma le_nan_left (a b : number) : isNaN a = true -> le a b = false.
Proof. destruct a; try discriminate. reflexivity. Qed.

Lemma sqDistance_nan (px py : number) (c : Circle.t) :
  isNaN px = true \/ isNaN py = true
  \/ isNaN (Circle.x c) = true \/ isNaN (Circle.y c) = true ->
  isNaN (sqDistance px py c) = true.
Proof.
  unfold sqDistance. destruct c as [x y r]. cbn [Circle.x Circle.y].
  assert (Hsub : forall a b, isNaN a = true \/ isNaN b = true ->
                             sub a b = S754_nan).
  { intros a b [H|H]; [destruct a | destruct b]; try discriminate;
      try reflexivity. destruct a; reflexivity. }
  assert (Hright : forall a, add a S754_nan = S754_nan)
    by (intros a; destruct a; reflexivity).
  intros [H|[H|[H|H]]].
  - rewrite (Hsub px x) by auto. reflexivity.
  - rewrite (Hsub py y) by auto. cbn [mul SFmul]. rewrite Hright.
    reflexivity.
  - rewrite (Hsub px x) by auto. reflexivity.
  - rewrite (Hsub py y) by auto. cbn [mul SFmul]. rewrite Hright.
    reflexivity.
Qed.

Section WithPlatform.
Variable StringToNumber : jsstring -> number.
Variable projection : number * number -> number * number.
Variable Math_cos : number -> number.

Lemma outside_when_radius_nan (px py x y value : number) :
  isNaN value = true ->
  ScriptJs.isInCircle px py
    {| Circle.x := x; Circle.y := y; Circle.radius := value |} = false
  /\ Part000.isInCircle projection Math_cos px py
       {| Circle.x := x; Circle.y := y; Circle.radius := value |} = false.
Proof.
  intros Hv. destruct value; try discriminate. split.
  - unfold ScriptJs.isInCircle. cbv zeta. cbn [Circle.radius].
    apply le_nan_right. reflexivity.
  - unfold Part000.isInCircle, Part000.kmToPixels. cbv zeta.
    cbn [Circle.radius]. apply le_nan_right. reflexivity.
Qed.

(** X11.  NaN is outside every circle: when the point, the centre or the
    radius holds a NaN, [isInCircle] answers false, in both scripts.
    Nothing is thrown and nothing is shown by mistake. *)
Theorem nan_is_outside_every_circle (px py : number) (c : Circle.t) :
  notANumberIn px py c ->
  ScriptJs.isInCircle px py c = false
  /\ Part000.isInCircle projection Math_cos px py c = false.
Proof.
  intros H.
  assert (E : isNaN (sqDistance px py c) = true
              \/ isNaN (Circle.radius c) = true).
  { destruct H as [H|[H|[H|[H|H]]]]; [left; apply sqDistance_nan; auto ..
                                     | right; exact H]. }
  split.
  - change (le (sqDistance px py c)
               (mul (Circle.radius c) (Circle.radius c)) = false).
    destruct E as [E|E]; [apply le_nan_left, E|].
    apply le_nan_right. destruct (Circle.radius c); try discriminate.
    reflexivity.
  - change (le (sqDistance px py c)
               (sqRadius (Part000.kmToPixels projection Math_cos
                            (Circle.radius c))) = false).
    destruct E as [E|E]; [apply le_nan_left, E|].
    apply le_nan_right. unfold Part000.kmToPixels. cbv zeta.
    destruct (Circle.radius c); try discriminate. reflexivity.
Qed.

(** X12.  A circle holds its own centre: with a centre of finite
    coordinates and a radius that is a number, the radius 0 and an
    infinite radius included, [isInCircle] answers true at the centre.
    In [src/unnamed/part_000] the radius is the one in pixels. *)
Theorem centre_is_inside (c : Circle.t) :
  Number_isFinite (Circle.x c) = true ->
  Number_isFinite (Circle.y c) = true ->
  (isNaN (Circle.radius c) = false ->
   ScriptJs.isInCircle (Circle.x c) (Circle.y c) c = true)
  /\ (isNaN (Part000.kmToPixels projection Math_cos (Circle.radius c))
      = false ->
      Part000.isInCircle projection Math_cos (Circle.x c) (Circle.y c) c
      = true).
Proof.
  intros Hx Hy. split; intros Hr.
  - change (le (sqDistance (Circle.x c) (Circle.y c) c)
               (mul (Circle.radius c) (Circle.radius c)) = true).
    rewrite sqDistance_at_centre by assumption.
    apply square_nonneg, Hr.
  - change (le (sqDistance (Circle.x c) (Circle.y c) c)
               (mul (Part000.kmToPixels projection Math_cos
                       (Circle.radius c))
                    (Part000.kmToPixels projection Math_cos
                       (Circle.radius c))) = true).
    rewrite sqDistance_at_centre by assumption.
    apply square_nonneg, Hr.
Qed.

Lemma handle_pass_fixed (ev : Event) (st : ScriptJs.State) :
  ScriptJs.updateFilters StringToNumber
    (ScriptJs.handle StringToNumber ev st)
  = ScriptJs.handle StringToNumber ev st.
Proof.
  destruct ev; unfold ScriptJs.handle; cbv zeta; apply updateFilters_again.
Qed.

Lemma handle000_pass_fixed (ev : Event) (st : Part000.State) :
  Part000.updateFilters StringToNumber projection Math_cos
    (Part000.handle StringToNumber projection Math_cos ev st)
  = Part000.handle StringToNumber projection Math_cos ev st.
Proof.
  destruct ev; unfold Part000.handle; cbv zeta; apply updateFilters000_again.
Qed.

Lemma outside_hides_all (st : ScriptJs.State) :
  (forall px py,
      ScriptJs.isInIntersection (ScriptJs.circleA st) (ScriptJs.circleB st)
        px py = false) ->
  let st' := ScriptJs.updateFilters StringToNumber st in
  Forall (fun p => shownLocation p = false) (ScriptJs.location_points st')
  /\ ScriptJs.visibleCount st' = 0.
Proof.
  intros HF. cbv zeta.
  destruct (updateFilters_spec StringToNumber st) as (H2 & Hn).
  assert (E : filter shownLocation
                (ScriptJs.location_points
                   (ScriptJs.updateFilters StringToNumber st)) = []).
  { apply (none_visible_none_shown _ _ _ H2).
    apply Forall_forall. intros p _.
    unfold ScriptJs.isVisible. cbv zeta. rewrite HF. reflexivity. }
  split; [apply filter_nil_Forall; exact E|].
  rewrite Hn. unfold shownTotal. rewrite E. reflexivity.
Qed.

Lemma outside_hides_all000 (st : Part000.State) :
  (forall px py,
      Part000.isInIntersection projection Math_cos
        (Part000.circleA st) (Part000.circleB st) px py = false) ->
  let st' := Part000.updateFilters StringToNumber projection Math_cos st in
  Forall (fun p => shownRecord p = false) (Part000.location_points st')
  /\ Part000.visibleCount st' = 0.
Proof.
  intros HF. cbv zeta.
  destruct (updateFilters000_spec StringToNumber projection Math_cos st)
    as (H2 & Hn).
  assert (E : filter shownRecord
                (Part000.location_points
                   (Part000.updateFilters StringToNumber projection
                      Math_cos st)) = []).
  { apply (none_visible_none_shown000 _ _ _ H2).
    apply Forall_forall. intros p _.
    unfold Part000.isVisible. cbv zeta. rewrite HF. reflexivity. }
  split; [apply filter_nil_Forall; exact E|].
  rewrite Hn, E. reflexivity.
Qed.

(** X13.  A radius slider whose value is not a number empties the map:
    after the input event of either radius slider with a value that
    coerces to NaN, both scripts complete the pass, no point is shown
    and the visible count is 0, whatever the other controls say. *)
Theorem nan_radius_hides_every_point
        (st : ScriptJs.State) (st0 : Part000.State)
        (ev : Event) (value : number) :
  isNaN value = true ->
  ev = RadiusAInput value \/ ev = RadiusBInput value ->
  let st' := ScriptJs.handle StringToNumber ev st in
  let st0' := Part000.handle StringToNumber projection Math_cos ev st0 in
  (Forall (fun p => shownLocation p = false) (ScriptJs.location_points st')
   /\ ScriptJs.visibleCount st' = 0)
  /\ (Forall (fun p => shownRecord p = false) (Part000.location_points st0')
      /\ Part000.visibleCount st0' = 0).
Proof.
  intros Hv Hev. cbv zeta. split.
  - rewrite <- (handle_pass_fixed ev st). apply outside_hides_all.
    intros px py. destruct (handle_effect StringToNumber ev st)
      as (EA & EB & _).
    cbv zeta in EA, EB. rewrite EA, EB. unfold ScriptJs.isInIntersection.
    destruct Hev as [-> | ->]; cbn [Session.nextCircleA Session.nextCircleB].
    + rewrite (proj1 (outside_when_radius_nan px py _ _ value Hv)).
      reflexivity.
    + rewrite (proj1 (outside_when_radius_nan px py _ _ value Hv)).
      apply andb_false_r.
  - rewrite <- (handle000_pass_fixed ev st0). apply outside_hides_all000.
    intros px py.
    destruct (handle000_effect StringToNumber projection Math_cos ev st0)
      as (EA & EB & _).
    cbv zeta in EA, EB. rewrite EA, EB. unfold Part000.isInIntersection.
    destruct Hev as [-> | ->]; cbn [Session.nextCircleA Session.nextCircleB].
    + rewrite (proj2 (outside_when_radius_nan px py _ _ value Hv)).
      reflexivity.
    + rewrite (proj2 (outside_when_radius_nan px py _ _ value Hv)).
      apply andb_false_r.
Qed.

End WithPlatform.
End EdgeNumbers.

Lemma nan_is_outside_every_circle_witness :
  ScriptJs.isInCircle JS.NaN (JS.ofZ 300) ScriptJs.circleA_start = false
  /\ Part000.isInCircle Sample.pixelProjection Sample.cosSeries
       JS.NaN (JS.ofZ 300) ScriptJs.circleA_start = false.
Proof.
  apply (nan_is_outside_every_circle Sample.pixelProjection Sample.cosSeries).
  left. reflexivity.
Defined.

Lemma centre_is_inside_witness :
  ScriptJs.isInCircle (JS.ofZ 400) (JS.ofZ 300) (Sample.circle 400 300 0)
  = true
  /\ Part000.isInCircle Sample.pixelProjection Sample.cosSeries
       (JS.ofZ 400) (JS.ofZ 300) (Sample.circle 400 300 0) = true.
Proof.
  destruct (centre_is_inside Sample.pixelProjection Sample.cosSeries
              (Sample.circle 400 300 0) eq_refl eq_refl) as (H & H0).
  split; [apply H; reflexivity | apply H0; vm_compute; reflexivity].
Defined.

Lemma nan_radius_hides_every_point_witness :
  ScriptJs.visibleCount
    (ScriptJs.handle Sample.parseDigits (Shared.RadiusAInput JS.NaN)
       Sample.overlapping) = 0
  /\ Part000.visibleCount
       (Part000.handle Sample.parseDigits Sample.pixelProjection
          Sample.cosSeries (Shared.RadiusAInput JS.NaN) Sample.loaded000)
     = 0.
Proof.
  pose proof (nan_radius_hides_every_point Sample.parseDigits
                Sample.pixelProjection Sample.cosSeries
                Sample.overlapping Sample.loaded000
                (Shared.RadiusAInput JS.NaN) JS.NaN eq_refl
                (or_introl eq_refl)) as H.
  cbv zeta in H. destruct H as ((_ & H1) & (_ & H2)).
  split; [exact H1 | exact H2].
Defined.

(** ** Hovering over a point *)

Section HoverFacts.
Import JS Shared Props Terms.
Variable StringToNumber : jsstring -> number.
Variable projection : number * number -> number * number.
Variable scaleSqrt : number * number -> number * number -> number -> number.
Variable Math_cos : number -> number.

Lemma session_settled (page : Controls) (data : list FilmRecord)
      (events : list Event) :
  settled StringToNumber projection scaleSqrt
    (Session.run (ScriptJs.handle StringToNumber) events
       (ScriptJs.csvLoaded StringToNumber projection scaleSqrt data
          (ScriptJs.initialState page))).
Proof.
  apply (run_invariant (ScriptJs.handle StringToNumber)
           (settled StringToNumber projection scaleSqrt) (fun _ => True)).
  - intros ev s _ Hs.
    exact (proj1 (handle_settled StringToNumber projection scaleSqrt ev s Hs)).
  - apply Forall_forall. trivial.
  - apply csvLoaded_settled.
Qed.

Lemma session_settled000 (page : Controls) (data : list FilmRecord)
      (events : list Event) :
  settled000 StringToNumber projection Math_cos
    (Session.run (Part000.handle StringToNumber projection Math_cos) events
       (Part000.csvLoaded StringToNumber projection Math_cos data
          (Part000.initialState page))).
Proof.
  apply (run_invariant (Part000.handle StringToNumber projection Math_cos)
           (settled000 StringToNumber projection Math_cos) (fun _ => True)).
  - intros ev s _ Hs.
    exact (proj1 (handle000_settled StringToNumber projection Math_cos
                    ev s Hs)).
  - apply Forall_forall. trivial.
  - apply csvLoaded000_settled.
Qed.

Lemma map_fixed {A : Type} (f : A -> A) (l : list A) :
  map f l = l -> forall a, In a l -> f a = a.
Proof.
  induction l as [|b l IH]; simpl; intros E a Ha; [contradiction|].
  injection E as Eb El. destruct Ha as [<- | Ha]; [exact Eb | auto].
Qed.

Lemma settled_point_fixed (st : ScriptJs.State) (p : ScriptJs.LocationPoint) :
  ScriptJs.updateFilters StringToNumber st = st ->
  In p (ScriptJs.location_points st) ->
  restyle StringToNumber st p = p.
Proof.
  intros E. apply map_fixed.
  apply (f_equal ScriptJs.location_points) in E.
  rewrite updateFilters_map in E. exact E.
Qed.

Lemma settled_point_fixed000 (st : Part000.State)
      (p : Part000.LocationPoint) :
  Part000.updateFilters StringToNumber projection Math_cos st = st ->
  In p (Part000.location_points st) ->
  restyle000 StringToNumber projection Math_cos st p = p.
Proof.
  intros E. apply map_fixed.
  apply (f_equal Part000.location_points) in E.
  rewrite updateFilters000_map in E. exact E.
Qed.

Lemma location_first_member (allData : list FilmRecord)
      (loc : ScriptJs.Location) :
  In loc (ScriptJs.locationData allData) ->
  exists rest, ScriptJs.movies loc = ScriptJs.data loc :: rest.
Proof.
  unfold ScriptJs.locationData. intros H. apply in_map_iff in H.
  destruct H as ((key & loc') & E & H). simpl in E. subst loc'.
  assert (Hh : headedBy key loc).
  { apply (headedBy_fold allData [] [] ) with (key := key) (loc := loc).
    - split; [constructor|]. split; simpl; intros; tauto.
    - simpl. tauto.
    - exact H. }
  destruct Hh as (_ & _ & _ & Hm). exact Hm.
Qed.

Lemma sameElement_datum (l l' : list ScriptJs.LocationPoint)
      (q : ScriptJs.LocationPoint) :
  Forall2 sameElement l l' -> In q l' ->
  exists p, In p l /\ ScriptJs.datum q = ScriptJs.datum p.
Proof.
  induction 1 as [|p q' l l' (_ & _ & _ & _ & Ed) _ IH]; simpl;
    [contradiction|].
  intros [<- | Hq].
  - exists p. auto.
  - destruct (IH Hq) as (p0 & Hp0 & E). exists p0. auto.
Qed.

Lemma settled_point_members (st : ScriptJs.State)
      (p : ScriptJs.LocationPoint) :
  settled StringToNumber projection scaleSqrt st ->
  In p (ScriptJs.location_points st) ->
  exists rest,
    ScriptJs.movies (ScriptJs.datum p)
    = ScriptJs.data (ScriptJs.datum p) :: rest.
Proof.
  intros (_ & _ & Hpts & _) Hp.
  destruct (sameElement_datum _ _ p Hpts Hp) as (p0 & Hp0 & ->).
  unfold ScriptJs.renderDataPoints in Hp0. cbv zeta in Hp0.
  apply in_map_iff in Hp0. destruct Hp0 as (loc & <- & Hloc).
  cbn [ScriptJs.datum]. exact (location_first_member _ loc Hloc).
Qed.

Lemma restyle_ignores_r (st : ScriptJs.State) (value : number)
      (p : ScriptJs.LocationPoint) :
  restyle StringToNumber st (Hover.with_r value p)
  = restyle StringToNumber st p.
Proof. reflexivity. Qed.

Lemma restyle000_ignores_r (st : Part000.State) (value : number)
      (p : Part000.LocationPoint) :
  restyle000 StringToNumber projection Math_cos st (Hover000.with_r value p)
  = restyle000 StringToNumber projection Math_cos st p.
Proof. reflexivity. Qed.

Lemma leave_test :
  (str_eqb (str "red") (str "rgb(231, 76, 60)")
   || str_eqb (str "red") (str "red")) = true
  /\ (str_eqb (str "gray") (str "rgb(231, 76, 60)")
      || str_eqb (str "gray") (str "red")) = false
  /\ (str_eqb (str "#e74c3c") (str "rgb(231, 76, 60)")
      || str_eqb (str "#e74c3c") (str "#e74c3c")) = true
  /\ (str_eqb (str "#bdc3c7") (str "rgb(231, 76, 60)")
      || str_eqb (str "#bdc3c7") (str "#e74c3c")) = false.
Proof. repeat split; vm_compute; reflexivity. Qed.

(** [mouseleave] gives a point the radius of the style the last pass of
    [updateFilters] gave it, whatever the radius was in between. *)
Lemma mouseleave_restores (st : ScriptJs.State) (q : ScriptJs.LocationPoint)
      (value : number) (s : option jsstring) (w : option number)
      (tooltip : Hover.Tooltip) :
  Hover.point
    (fst (Hover.mouseleave
            {| Hover.point :=
                 Hover.with_r value (restyle StringToNumber st q);
               Hover.stroke := s; Hover.stroke_width := w |} tooltip))
  = restyle StringToNumber st q.
Proof.
  destruct leave_test as (Hred & Hgray & _).
  unfold Hover.mouseleave. cbv zeta. cbn [fst Hover.point].
  unfold restyle. cbv zeta.
  destruct (ScriptJs.isVisible StringToNumber st q);
    unfold Hover.with_r;
    cbn [ScriptJs.cx ScriptJs.cy ScriptJs.r ScriptJs.data_base_radius
         ScriptJs.data_movie_count ScriptJs.fill ScriptJs.opacity
         ScriptJs.datum];
    [rewrite Hred | rewrite Hgray];
    assert (E : forall a, attr_number (attr_number a) = attr_number a)
      by (intros []; reflexivity);
    rewrite ?E; reflexivity.
Qed.

Lemma mouseleave000_restores (st : Part000.State)
      (q : Part000.LocationPoint)
      (value : number) (s : option jsstring) (w : option number)
      (tooltip : Hover.Tooltip) :
  Hover000.point
    (fst (Hover000.mouseleave
            {| Hover000.point :=
                 Hover000.with_r value
                   (restyle000 StringToNumber projection Math_cos st q);
               Hover000.stroke := s; Hover000.stroke_width := w |} tooltip))
  = restyle000 StringToNumber projection Math_cos st q.
Proof.
  destruct leave_test as (_ & _ & Hred & Hgray).
  unfold Hover000.mouseleave. cbv zeta. cbn [fst Hover000.point].
  unfold restyle000.
  destruct (Part000.isVisible StringToNumber projection Math_cos st q);
    unfold Hover000.with_r;
    cbn [Part000.cx Part000.cy Part000.r Part000.fill Part000.opacity
         Part000.datum];
    [rewrite Hred | rewrite Hgray]; reflexivity.
Qed.

(** X14.  Hovering leaves no trace on a point, [src/script.js]: on the
    page after the load and any sequence of events, [mouseenter] on any
    point completes (its location has a first movie), shows the tooltip
    and enlarges the point by 3; a pass of [updateFilters] during the
    hover gives the point the style it had; and [mouseleave] gives back
    exactly the point as it was, radius, fill and opacity, with the
    outline set to none and the tooltip hidden. *)
Theorem hover_leaves_no_trace
        (page : Controls) (data : list FilmRecord) (events : list Event)
        (p : ScriptJs.LocationPoint) (pageX pageY : number)
        (s : option jsstring) (w : option number)
        (tooltip : Hover.Tooltip) :
  let st := Session.run (ScriptJs.handle StringToNumber) events
              (ScriptJs.csvLoaded StringToNumber projection scaleSqrt data
                 (ScriptJs.initialState page)) in
  In p (ScriptJs.location_points st) ->
  exists entered shown,
    Hover.mouseenter pageX pageY
      {| Hover.point := p; Hover.stroke := s; Hover.stroke_width := w |}
      tooltip
    = Some (entered, shown)
    /\ Hover.visible shown = true
    /\ ScriptJs.r (Hover.point entered)
       = add (attr_number (ScriptJs.data_base_radius p)) (ofZ 3)
    /\ restyle StringToNumber st (Hover.point entered) = p
    /\ Hover.point (fst (Hover.mouseleave entered shown)) = p
    /\ Hover.stroke (fst (Hover.mouseleave entered shown))
       = Some (str "none")
    /\ Hover.visible (snd (Hover.mouseleave entered shown)) = false
    /\ Hover.html (snd (Hover.mouseleave entered shown)) = Hover.html shown.
Proof.
  cbv zeta. intros Hp.
  pose proof (session_settled page data events) as Hs.
  destruct (settled_point_members _ p Hs Hp) as (rest & Hm).
  pose proof (settled_point_fixed _ p (proj1 Hs) Hp) as Hfix.
  assert (Hback : forall value s' w' tip,
             Hover.point
               (fst (Hover.mouseleave
                       {| Hover.point := Hover.with_r value p;
                          Hover.stroke := s'; Hover.stroke_width := w' |}
                       tip)) = p).
  { intros value s' w' tip. rewrite <- Hfix. apply mouseleave_restores. }
  unfold Hover.mouseenter. cbv zeta. cbn [Hover.point]. rewrite Hm.
  eexists. eexists. split; [reflexivity|].
  split; [reflexivity|]. split; [reflexivity|].
  cbn [Hover.point]. split; [rewrite restyle_ignores_r; exact Hfix|].
  split.
  - apply Hback.
  - repeat split; reflexivity.
Qed.

(** X15.  The same in [src/unnamed/part_000]: [mouseenter] sets the
    radius to 5 and shows the tooltip, a pass of [updateFilters] during
    the hover gives the point the style it had, and [mouseleave] gives
    back the point as it was, with the outline set to none and the
    tooltip hidden. *)
Theorem hover000_leaves_no_trace
        (page : Controls) (data : list FilmRecord) (events : list Event)
        (p : Part000.LocationPoint) (pageX pageY : number)
        (s : option jsstring) (w : option number)
        (tooltip : Hover.Tooltip) :
  let st := Session.run (Part000.handle StringToNumber projection Math_cos)
              events
              (Part000.csvLoaded StringToNumber projection Math_cos data
                 (Part000.initialState page)) in
  In p (Part000.location_points st) ->
  let el := {| Hover000.point := p; Hover000.stroke := s;
               Hover000.stroke_width := w |} in
  let entered := fst (Hover000.mouseenter pageX pageY el tooltip) in
  let shown := snd (Hover000.mouseenter pageX pageY el tooltip) in
  Hover.visible shown = true
  /\ Part000.r (Hover000.point entered) = ofZ 5
  /\ restyle000 StringToNumber projection Math_cos st
       (Hover000.point entered) = p
  /\ Hover000.point (fst (Hover000.mouseleave entered shown)) = p
  /\ Hover000.stroke (fst (Hover000.mouseleave entered shown))
     = Some (str "none")
  /\ Hover.visible (snd (Hover000.mouseleave entered shown)) = false
  /\ Hover.html (snd (Hover000.mouseleave entered shown))
     = Hover.html shown.
Proof.
  cbv zeta. intros Hp.
  pose proof (session_settled000 page data events) as Hs.
  pose proof (settled_point_fixed000 _ p (proj1 Hs) Hp) as Hfix.
  assert (Hback : forall value s' w' tip,
             Hover000.point
               (fst (Hover000.mouseleave
                       {| Hover000.point := Hover000.with_r value p;
                          Hover000.stroke := s';
                          Hover000.stroke_width := w' |}
                       tip)) = p).
  { intros value s' w' tip. rewrite <- Hfix. apply mouseleave000_restores. }
  unfold Hover000.mouseenter. cbv zeta. cbn [fst snd Hover000.point].
  split; [reflexivity|]. split; [reflexivity|].
  split; [rewrite restyle000_ignores_r; exact Hfix|].
  split.
  - apply Hback.
  - repeat split; reflexivity.
Qed.

End HoverFacts.

Lemma hover_leaves_no_trace_witness :
  exists entered shown,
    Hover.mouseenter (JS.ofZ 200) (JS.ofZ 100)
      {| Hover.point := HoverCases.hovered; Hover.stroke := None;
         Hover.stroke_width := None |} HoverCases.hidden
    = Some (entered, shown)
    /\ Hover.point (fst (Hover.mouseleave entered shown))
       = HoverCases.hovered.
Proof.
  assert (Hp : In HoverCases.hovered
                 (ScriptJs.location_points
                    (Session.run (ScriptJs.handle Sample.parseDigits)
                       Cases.session
                       (ScriptJs.csvLoaded Sample.parseDigits
                          Sample.pixelProjection D3.scaleSqrt Sample.films
                          (ScriptJs.initialState Sample.page)))))
    by (vm_compute; left; reflexivity).
  destruct (hover_leaves_no_trace Sample.parseDigits Sample.pixelProjection
              D3.scaleSqrt Sample.page Sample.films Cases.session
              HoverCases.hovered (JS.ofZ 200) (JS.ofZ 100) None None
              HoverCases.hidden Hp)
    as (entered & shown & E & _ & _ & _ & Hb & _).
  exists entered, shown. split; [exact E | exact Hb].
Defined.

Lemma hover000_leaves_no_trace_witness :
  Hover000.point
    (fst (Hover000.mouseleave
            (fst (Hover000.mouseenter (JS.ofZ 200) (JS.ofZ 100)
                    {| Hover000.point := HoverCases.hovered000;
                       Hover000.stroke := None;
                       Hover000.stroke_width := None |} HoverCases.hidden))
            (snd (Hover000.mouseenter (JS.ofZ 200) (JS.ofZ 100)
                    {| Hover000.point := HoverCases.hovered000;
                       Hover000.stroke := None;
                       Hover000.stroke_width := None |} HoverCases.hidden))))
  = HoverCases.hovered000.
Proof.
  assert (Hp : In HoverCases.hovered000
                 (Part000.location_points
                    (Session.run
                       (Part000.handle Sample.parseDigits
                          Sample.pixelProjection Sample.cosSeries)
                       Cases.session
                       (Part000.csvLoaded Sample.parseDigits
                          Sample.pixelProjection Sample.cosSeries Sample.films
                          (Part000.initialState Sample.page)))))
    by (vm_compute; left; reflexivity).
  pose proof (hover000_leaves_no_trace Sample.parseDigits
                Sample.pixelProjection Sample.cosSeries Sample.page
                Sample.films Cases.session HoverCases.hovered000
                (JS.ofZ 200) (JS.ofZ 100) None None HoverCases.hidden Hp)
    as H.
  cbv zeta in H. destruct H as (_ & _ & _ & Hb & _). exact Hb.
Defined.

(** ** The content of the tooltip *)

Section TooltipContent.
Import JS Shared.

Lemma appendMovie_shape (content : jsstring) (index : nat)
      (movie : FilmRecord) :
  Hover.appendMovie (content, index) movie
  = (content ++ (if 0 <? index then str "<br><br>" else [])
             ++ Hover.movieHtml movie,
     S index).
Proof.
  unfold Hover.movieHtml, Hover.appendMovie. cbn [fst].
  change (0 <? 0) with false. cbv iota.
  destruct (0 <? index);
    destruct (Hover.truthy (Release_Year movie));
    destruct (Hover.truthy (Director movie));
    destruct (0 <? length (filter Hover.filled
                             [Actor_1 movie; Actor_2 movie; Actor_3 movie]));
    destruct (Hover.filled (Fun_Facts movie));
    cbn [app]; rewrite <- ?app_assoc; reflexivity.
Qed.

Lemma fold_appendMovie_later (movies : list FilmRecord) :
  forall content index,
    fold_left Hover.appendMovie movies (content, S index)
    = (content ++ concat (map (fun movie =>
                                 str "<br><br>" ++ Hover.movieHtml movie)
                              movies),
       S index + length movies).
Proof.
  induction movies as [|movie movies IH]; intros content index;
    cbn [fold_left map concat length].
  - rewrite app_nil_r, Nat.add_0_r. reflexivity.
  - rewrite appendMovie_shape. change (0 <? S index) with true. cbv iota.
    rewrite IH, <- !app_assoc. f_equal. lia.
Qed.

Lemma separated_cons (sep s : jsstring) (l : list jsstring) :
  Hover.separated sep (s :: l) = s ++ concat (map (fun t => sep ++ t) l).
Proof.
  revert s. induction l as [|t l IH]; intros s.
  - simpl. rewrite app_nil_r. reflexivity.
  - change (Hover.separated sep (s :: t :: l))
      with (s ++ sep ++ Hover.separated sep (t :: l)).
    rewrite IH. cbn [map concat]. rewrite <- app_assoc. reflexivity.
Qed.

Lemma fold_appendMovie (movies : list FilmRecord) (content : jsstring) :
  fold_left Hover.appendMovie movies (content, 0)
  = (content ++ Hover.separated (str "<br><br>")
                  (map Hover.movieHtml movies),
     length movies).
Proof.
  destruct movies as [|movie movies]; cbn [fold_left map length].
  - simpl. rewrite app_nil_r. reflexivity.
  - rewrite appendMovie_shape. change (0 <? 0) with false. cbv iota.
    cbn [app]. rewrite fold_appendMovie_later, separated_cons, map_map.
    rewrite <- app_assoc. reflexivity.
Qed.

(** X16.  The tooltip of [src/script.js] lists every movie of the
    location once, in order, with a blank line between two entries and
    none before the first or after the last: its content is the heading
    (the place of the first movie, or Unknown, and the number of
    movies), the entries separated by two line breaks, and the
    neighbourhood of the first movie when it has one.  Every entry
    starts with the title in bold, a missing title being written as
    [undefined]. *)
Theorem tooltip_lists_every_movie
        (pageX pageY : number) (el : Hover.Element) (tooltip : Hover.Tooltip)
        (first : FilmRecord) (rest : list FilmRecord) :
  ScriptJs.movies (ScriptJs.datum (Hover.point el)) = first :: rest ->
  (exists entered shown,
      Hover.mouseenter pageX pageY el tooltip = Some (entered, shown)
      /\ Hover.html shown
         = (str "<strong>Location:</strong> "
            ++ (if Hover.truthy (Locations first)
                then ToString (Locations first) else str "Unknown")
            ++ str "<br>"
            ++ str "<strong>Number of Movies:</strong> "
            ++ Hover.natToString (S (length rest))
            ++ str "<br><br>")
           ++ Hover.separated (str "<br><br>")
                (map Hover.movieHtml (first :: rest))
           ++ (if Hover.truthy (Analysis_Neighborhood first)
               then str "<br><br><strong>Neighborhood:</strong> "
                    ++ ToString (Analysis_Neighborhood first)
               else []))
  /\ (forall movie,
         exists tail,
           Hover.movieHtml movie
           = str "<strong>" ++ ToString (Title movie) ++ str "</strong>"
             ++ tail).
Proof.
  intros Hm. split.
  - unfold Hover.mouseenter. cbv zeta. rewrite Hm.
    eexists. eexists. split; [reflexivity|]. cbn [Hover.html].
    unfold Hover.tooltipContent. cbv zeta. rewrite Hm, fold_appendMovie.
    cbn [fst length].
    destruct (Hover.truthy (Analysis_Neighborhood first));
      rewrite <- ?app_assoc, ?app_nil_r; reflexivity.
  - intros movie. unfold Hover.movieHtml, Hover.appendMovie. cbn [fst].
    change (0 <? 0) with false. cbv iota. cbn [app].
    destruct (Hover.truthy (Release_Year movie));
      destruct (Hover.truthy (Director movie));
      destruct (0 <? length (filter Hover.filled
                               [Actor_1 movie; Actor_2 movie;
                                Actor_3 movie]));
      destruct (Hover.filled (Fun_Facts movie));
      rewrite <- ?app_assoc; eexists;
      repeat (apply (f_equal (app _)));
      try reflexivity; try (symmetry; apply app_nil_r).
Qed.

End TooltipContent.

Lemma tooltip_lists_every_movie_witness :
  exists entered shown,
    Hover.mouseenter (JS.ofZ 200) (JS.ofZ 100) HoverCases.twoMovies
      HoverCases.hidden = Some (entered, shown)
    /\ Hover.html shown
       = JS.str
           ("<strong>Location:</strong> Unknown<br>"
            ++ "<strong>Number of Movies:</strong> 2<br><br>"
            ++ "<strong>undefined</strong> (1950)"
            ++ "<br><em>Director:</em> Hitchcock"
            ++ "<br><em>Actors:</em> Kim Novak"
            ++ "<br><br>"
            ++ "<strong>Film</strong> (1950)"
            ++ "<br><em>Director:</em> X"
            ++ "<br><br><strong>Neighborhood:</strong> Mission")%string.
Proof.
  destruct (proj1 (tooltip_lists_every_movie (JS.ofZ 200) (JS.ofZ 100)
                     HoverCases.twoMovies HoverCases.hidden
                     HoverCases.untitled [Sample.film1950] eq_refl))
    as (entered & shown & E & Hh).
  exists entered, shown. split; [exact E|].
  rewrite Hh. vm_compute. reflexivity.
Defined.

(** ** The highlighted part of the year track *)

Section TrackFacts.
Import JS Shared Props Terms.
Variable StringToNumber : jsstring -> number.
Variable projection : number * number -> number * number.
Variable scaleSqrt : number * number -> number * number -> number -> number.

Lemma track_reads_years (c c' : Controls) :
  yearMin c' = yearMin c -> yearMax c' = yearMax c ->
  Track.updateYearRangeVisual c' = Track.updateYearRangeVisual c.
Proof.
  intros Emin Emax. unfold Track.updateYearRangeVisual.
  rewrite Emin, Emax. reflexivity.
Qed.

Lemma track_step (ev : Event) (pg : ScriptJs.State * Track.RangeTrack) :
  snd pg = Track.updateYearRangeVisual (ScriptJs.controls (fst pg)) ->
  fst (Track.handle StringToNumber ev pg)
  = ScriptJs.handle StringToNumber ev (fst pg)
  /\ snd (Track.handle StringToNumber ev pg)
     = Track.updateYearRangeVisual
         (ScriptJs.controls (fst (Track.handle StringToNumber ev pg))).
Proof.
  intros H. destruct pg as [st track]. cbn [fst snd] in *.
  destruct (handle_effect StringToNumber ev st) as (_ & _ & EC).
  cbv zeta in EC.
  destruct ev; unfold Track.handle; cbn [fst snd]; split;
    try reflexivity;
    rewrite EC, H; cbn [Session.nextControls];
    apply eq_sym, track_reads_years; reflexivity.
Qed.

Lemma track_run (events : list Event) :
  forall pg : ScriptJs.State * Track.RangeTrack,
    snd pg = Track.updateYearRangeVisual (ScriptJs.controls (fst pg)) ->
    let pg' := Session.run (Track.handle StringToNumber) events pg in
    fst pg' = Session.run (ScriptJs.handle StringToNumber) events (fst pg)
    /\ snd pg' = Track.updateYearRangeVisual (ScriptJs.controls (fst pg')).
Proof.
  unfold Session.run.
  induction events as [|ev events IH]; intros pg H; cbv zeta;
    cbn [fold_left]; [auto|].
  destruct (track_step ev pg H) as (E1 & E2).
  destruct (IH _ E2) as (E3 & E4). cbv zeta in E3, E4.
  split; [rewrite E3, E1; reflexivity | exact E4].
Qed.

Lemma sliderYears_In (a : Z) :
  (1915 <= a <= 2023)%Z -> In a Track.sliderYears.
Proof.
  intros H. unfold Track.sliderYears. apply in_map_iff.
  exists (Z.to_nat (a - 1915)). split; [lia|].
  apply in_seq. lia.
Qed.

Lemma tracks_checked :
  forallb (fun a =>
             forallb (fun b =>
                        negb (a <=? b)%Z
                        || Track.withinTrack
                             (Track.updateYearRangeVisual
                                {| radiusA := NaN; radiusB := NaN;
                                   yearMin := ofZ a; yearMax := ofZ b;
                                   directorFilter := [];
                                   neighborhoodFilter := [] |}))
                     Track.sliderYears)
          Track.sliderYears = true.
Proof. vm_compute. reflexivity. Qed.

(** X17.  The highlight of the year track never lags behind the
    sliders, [src/script.js]: from the loaded page and after any
    sequence of events, the two custom properties are those
    [updateYearRangeVisual] computes from the year sliders as they are,
    although only three of the handlers call it; and right after a
    click on the reset button the highlight starts at 0 percent and is
    100 percent wide. *)
Theorem track_follows_sliders
        (page : Controls) (data : list FilmRecord) (events : list Event) :
  let pg := Session.run (Track.handle StringToNumber) events
              (Track.csvLoaded StringToNumber projection scaleSqrt data
                 page) in
  let reset := Track.handle StringToNumber ResetClick pg in
  fst pg
  = Session.run (ScriptJs.handle StringToNumber) events
      (ScriptJs.csvLoaded StringToNumber projection scaleSqrt data
         (ScriptJs.initialState page))
  /\ snd pg = Track.updateYearRangeVisual (ScriptJs.controls (fst pg))
  /\ snd reset
     = {| Track.range_left := ofZ 0; Track.range_width := ofZ 100 |}.
Proof.
  cbv zeta.
  assert (H0 : snd (Track.csvLoaded StringToNumber projection scaleSqrt
                      data page)
               = Track.updateYearRangeVisual
                   (ScriptJs.controls
                      (fst (Track.csvLoaded StringToNumber projection
                              scaleSqrt data page)))).
  { unfold Track.csvLoaded. cbn [fst snd].
    destruct (csvLoaded_globals StringToNumber projection scaleSqrt data
                (ScriptJs.initialState page)) as (_ & _ & ->).
    reflexivity. }
  destruct (track_run events _ H0) as (E1 & E2). cbv zeta in E1, E2.
  split; [exact E1|]. split; [exact E2|].
  unfold Track.handle at 1. cbn [snd].
  destruct (handle_effect StringToNumber ResetClick
              (fst (Session.run (Track.handle StringToNumber) events
                      (Track.csvLoaded StringToNumber projection scaleSqrt
                         data page)))) as (_ & _ & EC).
  cbv zeta in EC. rewrite EC. cbn [Session.nextControls].
  vm_compute. reflexivity.
Qed.

(** X18.  The highlight stays on the track: for year sliders at whole
    years from 1915 to 2023 with the lower one not above the upper one,
    [updateYearRangeVisual] sets a left edge between 0 and 100 percent
    and a width between 0 and 100 percent, and the two do not add up to
    more than 100 percent, rounding included. *)
Theorem track_within_bounds (c : Controls) (a b : Z) :
  (1915 <= a)%Z -> (a <= b)%Z -> (b <= 2023)%Z ->
  yearMin c = ofZ a -> yearMax c = ofZ b ->
  Track.withinTrack (Track.updateYearRangeVisual c) = true.
Proof.
  intros Ha Hab Hb Emin Emax.
  rewrite (track_reads_years
             {| radiusA := NaN; radiusB := NaN;
                yearMin := ofZ a; yearMax := ofZ b;
                directorFilter := []; neighborhoodFilter := [] |} c)
    by assumption.
  pose proof tracks_checked as H.
  rewrite forallb_forall in H.
  specialize (H a (sliderYears_In a ltac:(lia))).
  rewrite forallb_forall in H.
  specialize (H b (sliderYears_In b ltac:(lia))).
  apply orb_true_iff in H. destruct H as [H|H]; [|exact H].
  apply negb_true_iff, Z.leb_gt in H. lia.
Qed.

End TrackFacts.

Lemma track_within_bounds_witness :
  Track.withinTrack
    (Track.updateYearRangeVisual (ScriptJs.controls Sample.narrowed))
  = true.
Proof.
  apply (track_within_bounds (ScriptJs.controls Sample.narrowed) 1915 1950);
    [lia | lia | lia | reflexivity | reflexivity].
Defined.

(** ** Choosing ["all"] in a select *)

Section Widening.
Import JS Shared Props Terms.
Variable StringToNumber : jsstring -> number.
Variable projection : number * number -> number * number.
Variable scaleSqrt : number * number -> number * number -> number -> number.
Variable Math_cos : number -> number.

Lemma filter_length_mono {A : Type} (f g : A -> bool) (l : list A) :
  (forall a, f a = true -> g a = true) ->
  length (filter f l) <= length (filter g l).
Proof.
  intros H. induction l as [|a l IH]; simpl; [lia|].
  destruct (f a) eqn:E.
  - rewrite (H a E). simpl. lia.
  - destruct (g a); simpl; lia.
Qed.

Lemma widens_match (c c' : Controls) (movie : FilmRecord) :
  widens c c' ->
  inYearRange StringToNumber (yearMin c) (yearMax c) movie
  && directorMatch (directorFilter c) movie
  && neighborhoodMatch (neighborhoodFilter c) movie = true ->
  inYearRange StringToNumber (yearMin c') (yearMax c') movie
  && directorMatch (directorFilter c') movie
  && neighborhoodMatch (neighborhoodFilter c') movie = true.
Proof.
  intros (-> & -> & Hd & Hn) H.
  apply andb_true_iff in H. destruct H as (H & H3).
  apply andb_true_iff in H. destruct H as (H1 & H2).
  rewrite H1. cbn [andb].
  apply andb_true_iff. split.
  - destruct Hd as [-> | ->]; [exact H2 | reflexivity].
  - destruct Hn as [-> | ->]; [exact H3 | reflexivity].
Qed.

Lemma widens_counted (st s1 : ScriptJs.State) (p : ScriptJs.LocationPoint) :
  ScriptJs.circleA s1 = ScriptJs.circleA st ->
  ScriptJs.circleB s1 = ScriptJs.circleB st ->
  widens (ScriptJs.controls st) (ScriptJs.controls s1) ->
  (ScriptJs.isVisible StringToNumber st p = true ->
   ScriptJs.isVisible StringToNumber s1 p = true)
  /\ counted StringToNumber st p <= counted StringToNumber s1 p.
Proof.
  intros EA EB Hw.
  assert (Hlen : length (ScriptJs.matchingMovies StringToNumber st
                           (ScriptJs.datum p))
                 <= length (ScriptJs.matchingMovies StringToNumber s1
                              (ScriptJs.datum p))).
  { unfold ScriptJs.matchingMovies. apply filter_length_mono.
    intros movie. unfold ScriptJs.movieMatches. apply widens_match, Hw. }
  assert (Hvis : ScriptJs.isVisible StringToNumber st p = true ->
                 ScriptJs.isVisible StringToNumber s1 p = true).
  { unfold ScriptJs.isVisible. cbv zeta. rewrite EA, EB. intros H.
    apply andb_true_iff in H. destruct H as (-> & H). cbn [andb].
    apply Nat.ltb_lt in H. apply Nat.ltb_lt. lia. }
  split; [exact Hvis|]. unfold counted.
  destruct (ScriptJs.isVisible StringToNumber st p); [|lia].
  rewrite (Hvis eq_refl). exact Hlen.
Qed.

Lemma widens_counted000 (st s1 : Part000.State)
      (p : Part000.LocationPoint) :
  Part000.circleA s1 = Part000.circleA st ->
  Part000.circleB s1 = Part000.circleB st ->
  widens (Part000.controls st) (Part000.controls s1) ->
  (Part000.isVisible StringToNumber projection Math_cos st p = true ->
   Part000.isVisible StringToNumber projection Math_cos s1 p = true)
  /\ counted000 StringToNumber projection Math_cos st p
     <= counted000 StringToNumber projection Math_cos s1 p.
Proof.
  intros EA EB Hw.
  assert (Hvis : Part000.isVisible StringToNumber projection Math_cos st p
                 = true ->
                 Part000.isVisible StringToNumber projection Math_cos s1 p
                 = true).
  { unfold Part000.isVisible. cbv zeta. rewrite EA, EB. intros H.
    apply andb_true_iff in H. destruct H as (-> & H). cbn [andb].
    unfold Part000.recordMatches in *. exact (widens_match _ _ _ Hw H). }
  split; [exact Hvis|]. unfold counted000.
  destruct (Part000.isVisible StringToNumber projection Math_cos st p);
    [|lia].
  rewrite (Hvis eq_refl). lia.
Qed.

Lemma shown_restyle (st : ScriptJs.State) (p : ScriptJs.LocationPoint) :
  shownLocation (restyle StringToNumber st p)
  = ScriptJs.isVisible StringToNumber st p.
Proof.
  unfold restyle, shownLocation. cbv zeta.
  destruct (ScriptJs.isVisible StringToNumber st p); reflexivity.
Qed.

Lemma shown_restyle000 (st : Part000.State) (p : Part000.LocationPoint) :
  shownRecord (restyle000 StringToNumber projection Math_cos st p)
  = Part000.isVisible StringToNumber projection Math_cos st p.
Proof.
  unfold restyle000, shownRecord.
  destruct (Part000.isVisible StringToNumber projection Math_cos st p);
    reflexivity.
Qed.

Lemma Forall2_map_right {A : Type} (R : A -> A -> Prop) (f : A -> A)
      (l : list A) :
  (forall a, In a l -> R a (f a)) -> Forall2 R l (map f l).
Proof.
  induction l as [|a l IH]; intros H; simpl; constructor.
  - apply H. left. reflexivity.
  - apply IH. intros b Hb. apply H. right. exact Hb.
Qed.

Lemma list_sum_le_In {A : Type} (f g : A -> nat) (l : list A) :
  (forall a, In a l -> f a <= g a) ->
  list_sum (map f l) <= list_sum (map g l).
Proof.
  induction l as [|a l IH]; intros H; simpl; [lia|].
  pose proof (H a (or_introl eq_refl)).
  assert (list_sum (map f l) <= list_sum (map g l))
    by (apply IH; intros b Hb; apply H; right; exact Hb).
  lia.
Qed.

(** A pass after the controls were widened, on a page where nothing is
    stale. *)
Lemma widened_pass (st s1 : ScriptJs.State) :
  ScriptJs.updateFilters StringToNumber st = st ->
  ScriptJs.circleA s1 = ScriptJs.circleA st ->
  ScriptJs.circleB s1 = ScriptJs.circleB st ->
  ScriptJs.location_points s1 = ScriptJs.location_points st ->
  widens (ScriptJs.controls st) (ScriptJs.controls s1) ->
  let st' := ScriptJs.updateFilters StringToNumber s1 in
  ScriptJs.visibleCount st <= ScriptJs.visibleCount st'
  /\ Forall2 (fun p p' => shownLocation p = true -> shownLocation p' = true)
       (ScriptJs.location_points st) (ScriptJs.location_points st').
Proof.
  intros E EA EB EP Hw. cbv zeta.
  assert (En : ScriptJs.visibleCount st
               = list_sum (map (counted StringToNumber st)
                               (ScriptJs.location_points st))).
  { rewrite <- E at 1. rewrite updateFilters_map. reflexivity. }
  rewrite En, (updateFilters_map StringToNumber s1).
  cbn [ScriptJs.set_points ScriptJs.visibleCount ScriptJs.location_points].
  rewrite EP. split.
  - apply list_sum_le_In. intros p _.
    exact (proj2 (widens_counted st s1 p EA EB Hw)).
  - apply Forall2_map_right. intros p Hp.
    rewrite shown_restyle.
    rewrite <- (settled_point_fixed StringToNumber st p E Hp) at 1.
    rewrite shown_restyle.
    exact (proj1 (widens_counted st s1 p EA EB Hw)).
Qed.

Lemma widened_pass000 (st s1 : Part000.State) :
  Part000.updateFilters StringToNumber projection Math_cos st = st ->
  Part000.circleA s1 = Part000.circleA st ->
  Part000.circleB s1 = Part000.circleB st ->
  Part000.location_points s1 = Part000.location_points st ->
  widens (Part000.controls st) (Part000.controls s1) ->
  let st' := Part000.updateFilters StringToNumber projection Math_cos s1 in
  Part000.visibleCount st <= Part000.visibleCount st'
  /\ Forall2 (fun p p' => shownRecord p = true -> shownRecord p' = true)
       (Part000.location_points st) (Part000.location_points st').
Proof.
  intros E EA EB EP Hw. cbv zeta.
  assert (En : Part000.visibleCount st
               = list_sum
                   (map (counted000 StringToNumber projection Math_cos st)
                        (Part000.location_points st))).
  { rewrite <- E at 1. rewrite updateFilters000_map. reflexivity. }
  rewrite En, (updateFilters000_map StringToNumber projection Math_cos s1).
  cbn [Part000.set_points Part000.visibleCount Part000.location_points].
  rewrite EP. split.
  - apply list_sum_le_In. intros p _.
    exact (proj2 (widens_counted000 st s1 p EA EB Hw)).
  - apply Forall2_map_right. intros p Hp.
    rewrite shown_restyle000.
    rewrite <- (settled_point_fixed000 StringToNumber projection Math_cos
                  st p E Hp) at 1.
    rewrite shown_restyle000.
    exact (proj1 (widens_counted000 st s1 p EA EB Hw)).
Qed.

(** X19.  Choosing ["all"] never hides anything: on the page after the
    load and any sequence of events, setting the director select or the
    neighbourhood select back to ["all"] keeps every shown point shown
    and does not lower the visible count, in both scripts. *)
Theorem choosing_all_never_hides
        (page : Controls) (data : list FilmRecord) (events : list Event)
        (ev : Event) :
  ev = DirectorChange (str "all") \/ ev = NeighborhoodChange (str "all") ->
  let st := Session.run (ScriptJs.handle StringToNumber) events
              (ScriptJs.csvLoaded StringToNumber projection scaleSqrt data
                 (ScriptJs.initialState page)) in
  let st0 := Session.run (Part000.handle StringToNumber projection Math_cos)
               events
               (Part000.csvLoaded StringToNumber projection Math_cos data
                  (Part000.initialState page)) in
  let st' := ScriptJs.handle StringToNumber ev st in
  let st0' := Part000.handle StringToNumber projection Math_cos ev st0 in
  (ScriptJs.visibleCount st <= ScriptJs.visibleCount st'
   /\ Forall2 (fun p p' => shownLocation p = true -> shownLocation p' = true)
        (ScriptJs.location_points st) (ScriptJs.location_points st'))
  /\ (Part000.visibleCount st0 <= Part000.visibleCount st0'
      /\ Forall2 (fun p p' => shownRecord p = true -> shownRecord p' = true)
           (Part000.location_points st0) (Part000.location_points st0')).
Proof.
  intros Hev. cbv zeta.
  pose proof (proj1 (session_settled StringToNumber projection scaleSqrt
                       page data events)) as E.
  pose proof (proj1 (session_settled000 StringToNumber projection Math_cos
                       page data events)) as E0.
  split.
  - destruct Hev as [-> | ->]; unfold ScriptJs.handle;
      apply (widened_pass _ _ E); try reflexivity;
      unfold widens; cbn [ScriptJs.controls ScriptJs.set_controls
        with_directorFilter with_neighborhoodFilter yearMin yearMax
        directorFilter neighborhoodFilter]; auto.
  - destruct Hev as [-> | ->]; unfold Part000.handle;
      apply (widened_pass000 _ _ E0); try reflexivity;
      unfold widens; cbn [Part000.controls Part000.set_controls
        with_directorFilter with_neighborhoodFilter yearMin yearMax
        directorFilter neighborhoodFilter]; auto.
Qed.

End Widening.

Lemma choosing_all_never_hides_witness :
  ScriptJs.visibleCount HoverCases.visited
  <= ScriptJs.visibleCount
       (ScriptJs.handle Sample.parseDigits
          (Shared.DirectorChange (JS.str "all")) HoverCases.visited).
Proof.
  exact (proj1 (proj1 (choosing_all_never_hides Sample.parseDigits
                         Sample.pixelProjection D3.scaleSqrt
                         Sample.cosSeries Sample.page Sample.films
                         Cases.session
                         (Shared.DirectorChange (JS.str "all"))
                         (or_introl eq_refl)))).
Defined.

(** ** The options of the selects over a session *)

Section OptionsFrame.
Import JS Shared Props Terms.
Variable StringToNumber : jsstring -> number.
Variable projection : number * number -> number * number.
Variable scaleSqrt : number * number -> number * number -> number -> number.
Variable Math_cos : number -> number.

Lemma handle_options (ev : Event) (st : ScriptJs.State) :
  ScriptJs.directorOptions (ScriptJs.handle StringToNumber ev st)
  = ScriptJs.directorOptions st
  /\ ScriptJs.neighborhoodOptions (ScriptJs.handle StringToNumber ev st)
     = ScriptJs.neighborhoodOptions st.
Proof.
  destruct ev; unfold ScriptJs.handle; cbv zeta;
    rewrite updateFilters_map;
    cbn [ScriptJs.set_points ScriptJs.directorOptions
         ScriptJs.neighborhoodOptions];
    try match goal with
        | |- context [if ?b then _ else _] => destruct b
        end;
    split; reflexivity.
Qed.

Lemma handle000_options (ev : Event) (st : Part000.State) :
  Part000.directorOptions
    (Part000.handle StringToNumber projection Math_cos ev st)
  = Part000.directorOptions st
  /\ Part000.neighborhoodOptions
       (Part000.handle StringToNumber projection Math_cos ev st)
     = Part000.neighborhoodOptions st.
Proof.
  destruct ev; unfold Part000.handle; cbv zeta;
    rewrite updateFilters000_map;
    rewrite ?(renderQueryCircles000_shape projection Math_cos);
    cbn [Part000.set_points Part000.set_labels Part000.set_query_circles
         Part000.directorOptions Part000.neighborhoodOptions];
    try match goal with
        | |- context [if ?b then _ else _] => destruct b
        end;
    split; reflexivity.
Qed.

(** X20.  The selects are filled once and for all: after the load and
    any sequence of events, each select holds ["all"] followed by the
    values [getUniqueValues] finds in the rows with valid coordinates,
    for the directors and for the neighbourhoods, in both scripts.  No
    handler adds, drops or reorders an option. *)
Theorem selects_filled_once
        (page : Controls) (data : list FilmRecord) (events : list Event) :
  let kept := filter (hasValidCoordinates StringToNumber) data in
  let st := Session.run (ScriptJs.handle StringToNumber) events
              (ScriptJs.csvLoaded StringToNumber projection scaleSqrt data
                 (ScriptJs.initialState page)) in
  let st0 := Session.run (Part000.handle StringToNumber projection Math_cos)
               events
               (Part000.csvLoaded StringToNumber projection Math_cos data
                  (Part000.initialState page)) in
  (ScriptJs.directorOptions st = str "all" :: getUniqueValues kept Director
   /\ ScriptJs.neighborhoodOptions st
      = str "all" :: getUniqueValues kept Analysis_Neighborhood)
  /\ (Part000.directorOptions st0
      = str "all" :: getUniqueValues kept Director
      /\ Part000.neighborhoodOptions st0
         = str "all" :: getUniqueValues kept Analysis_Neighborhood).
Proof.
  cbv zeta. split.
  - apply (run_invariant (ScriptJs.handle StringToNumber)
             (fun s =>
                ScriptJs.directorOptions s
                = str "all"
                  :: getUniqueValues
                       (filter (hasValidCoordinates StringToNumber) data)
                       Director
                /\ ScriptJs.neighborhoodOptions s
                   = str "all"
                     :: getUniqueValues
                          (filter (hasValidCoordinates StringToNumber) data)
                          Analysis_Neighborhood)
             (fun _ => True)).
    + intros ev s _ (H1 & H2).
      destruct (handle_options ev s) as (-> & ->). auto.
    + apply Forall_forall. trivial.
    + unfold ScriptJs.csvLoaded. cbv zeta. rewrite updateFilters_map.
      split; reflexivity.
  - apply (run_invariant (Part000.handle StringToNumber projection Math_cos)
             (fun s =>
                Part000.directorOptions s
                = str "all"
                  :: getUniqueValues
                       (filter (hasValidCoordinates StringToNumber) data)
                       Director
                /\ Part000.neighborhoodOptions s
                   = str "all"
                     :: getUniqueValues
                          (filter (hasValidCoordinates StringToNumber) data)
                          Analysis_Neighborhood)
             (fun _ => True)).
    + intros ev s _ (H1 & H2).
      destruct (handle000_options ev s) as (-> & ->). auto.
    + apply Forall_forall. trivial.
    + unfold Part000.csvLoaded. cbv zeta. rewrite updateFilters000_map.
      split; reflexivity.
Qed.

End OptionsFrame.
